(** * Lumina chatbot: interaction state and response orchestration

    A shallow embedding of the response gate ([generateAIResponse] in
    core/ai-response.js), the sulk evaluation ([checkNgambekStatus] in
    core/core.js), the mood timer ([setMood] in handler/commandHandlers.js)
    and the memory ([flush], [load], [cleanupOldLTMs] and others in
    data/memory.js), together with the properties the specification states
    about them.

    Conventions.  A JavaScript string is the [string] of the bytes of its
    UTF-8 encoding; a timestamp is the number of milliseconds since the
    epoch, in [Z]; a calendar-day key "YYYY-MM-DD" of [dailyChatCounts] is
    the number of that UTC day since the epoch; a JS [Map] or object used
    as a dictionary is a [gmap], except the response cache, whose insertion
    order matters and which is an association list.  A promise is known by
    how it settles: resolved with a text, or rejected with an error. *)

From Stdlib Require Import ZArith List String Ascii Bool Lia DecimalString Sorted.
From stdpp Require Import gmap.
Import ListNotations.

Local Open Scope Z_scope.

(** String concatenation, written as the template literals read. *)
Local Infix "+++" := String.append (right associativity, at level 60).

(* ===================================================================== *)
(** ** JSON.stringify on the values a cache key is made of *)
(* ===================================================================== *)

Module Json.

(** The double quote, U+0022. *)
Definition dquote : ascii := ascii_of_nat 34.
(** The reverse solidus, U+005C. *)
Definition bslash : ascii := ascii_of_nat 92.

Definition hexDigit (n : nat) : ascii :=
  match n with
  | 0 => "0" | 1 => "1" | 2 => "2" | 3 => "3" | 4 => "4"
  | 5 => "5" | 6 => "6" | 7 => "7" | 8 => "8" | 9 => "9"
  | 10 => "a" | 11 => "b" | 12 => "c" | 13 => "d" | 14 => "e"
  | _ => "f"
  end%nat%char.

(** QuoteJSONString, one code unit: the two-character escapes of the
    ECMAScript table, [\u00XX] for the other control characters, every
    other unit verbatim. *)
Definition escapeChar (c : ascii) : string :=
  let n := nat_of_ascii c in
  match n with
  | 8 => String bslash "b"
  | 9 => String bslash "t"
  | 10 => String bslash "n"
  | 12 => String bslash "f"
  | 13 => String bslash "r"
  | 34 => String bslash (String dquote EmptyString)
  | 92 => String bslash (String bslash EmptyString)
  | _ =>
      if (n <? 32)%nat
      then String bslash
             (String "u" (String "0" (String "0"
               (String (hexDigit (n / 16)) (String (hexDigit (n mod 16)) EmptyString)))))
      else String c EmptyString
  end%nat.

Fixpoint escapeBody (s : string) : string :=
  match s with
  | EmptyString => EmptyString
  | String c rest => escapeChar c +++ escapeBody rest
  end.

(** [JSON.stringify(s)] for a string [s]. *)
Definition quote (s : string) : string :=
  String dquote (escapeBody s +++ String dquote EmptyString).

(** [JSON.stringify(b)] for a boolean [b]. *)
Definition bool (b : Datatypes.bool) : string :=
  if b then "true" else "false".

(** *** A reader for one escaped code unit, used to invert [quote] *)

Definition hexValue (c : ascii) : option nat :=
  let n := nat_of_ascii c in
  if ((48 <=? n) && (n <=? 57))%nat then Some (n - 48)%nat
  else if ((97 <=? n) && (n <=? 102))%nat then Some (n - 87)%nat
  else None.

Definition unescapeChar (s : string) : option (ascii * string) :=
  match s with
  | EmptyString => None
  | String c rest =>
      if Ascii.eqb c dquote then None
      else if Ascii.eqb c bslash then
        match rest with
        | String k rest' =>
            if Ascii.eqb k "b" then Some (ascii_of_nat 8, rest')
            else if Ascii.eqb k "t" then Some (ascii_of_nat 9, rest')
            else if Ascii.eqb k "n" then Some (ascii_of_nat 10, rest')
            else if Ascii.eqb k "f" then Some (ascii_of_nat 12, rest')
            else if Ascii.eqb k "r" then Some (ascii_of_nat 13, rest')
            else if Ascii.eqb k dquote then Some (dquote, rest')
            else if Ascii.eqb k bslash then Some (bslash, rest')
            else if Ascii.eqb k "u" then
              match rest' with
              | String _ (String _ (String h (String l rest''))) =>
                  match hexValue h, hexValue l with
                  | Some a, Some b => Some (ascii_of_nat (16 * a + b), rest'')
                  | _, _ => None
                  end
              | _ => None
              end
            else None
        | EmptyString => None
        end
      else Some (c, rest)
  end.

(** *** Objects whose members are strings and booleans *)

Inductive Value :=
| Str (s : string)
| Bool (b : Datatypes.bool).

Definition stringifyValue (v : Value) : string :=
  match v with
  | Str s => quote s
  | Bool b => bool b
  end.

Definition member (kv : string * Value) : string :=
  quote (fst kv) +++ ":" +++ stringifyValue (snd kv).

Fixpoint members (l : list (string * Value)) : string :=
  match l with
  | [] => EmptyString
  | [kv] => member kv
  | kv :: rest => member kv +++ "," +++ members rest
  end.

(** [JSON.stringify(o)] for an object [o] with the given own properties,
    in their order of definition. *)
Definition stringify (o : list (string * Value)) : string :=
  "{" +++ members o +++ "}".

End Json.

(* ===================================================================== *)
(** ** JavaScript helpers *)
(* ===================================================================== *)

(** The white space and line terminators that [String.prototype.trim]
    strips, by the bytes of their UTF-8 encoding: TAB, LF, VT, FF, CR and
    SP take one byte; U+00A0 takes two; U+1680, U+2000 to U+200A, U+2028,
    U+2029, U+202F, U+205F, U+3000 and U+FEFF take three. *)
Definition isWhiteSpace (c : ascii) : bool :=
  let n := nat_of_ascii c in
  (((9 <=? n) && (n <=? 13)) || (n =? 32))%nat.

Definition isWhiteSpace2 (c1 c2 : ascii) : bool :=
  ((nat_of_ascii c1 =? 194) && (nat_of_ascii c2 =? 160))%nat.

Definition isWhiteSpace3 (c1 c2 c3 : ascii) : bool :=
  let n1 := nat_of_ascii c1 in
  let n2 := nat_of_ascii c2 in
  let n3 := nat_of_ascii c3 in
  (((n1 =? 225) && (n2 =? 154) && (n3 =? 128))
   || ((n1 =? 226) && (n2 =? 128)
       && (((128 <=? n3) && (n3 <=? 138)) || (n3 =? 168) || (n3 =? 169) || (n3 =? 175)))
   || ((n1 =? 226) && (n2 =? 129) && (n3 =? 159))
   || ((n1 =? 227) && (n2 =? 128) && (n3 =? 128))
   || ((n1 =? 239) && (n2 =? 187) && (n3 =? 191)))%nat.

(** [s.trimStart()] *)
Fixpoint trimStart (s : string) : string :=
  match s with
  | EmptyString => EmptyString
  | String c1 r1 =>
      if isWhiteSpace c1 then trimStart r1
      else
        match r1 with
        | EmptyString => s
        | String c2 r2 =>
            if isWhiteSpace2 c1 c2 then trimStart r2
            else
              match r2 with
              | EmptyString => s
              | String c3 r3 => if isWhiteSpace3 c1 c2 c3 then trimStart r3 else s
              end
        end
  end.

(** The string holds white space only. *)
Definition blank (s : string) : bool :=
  match trimStart s with
  | EmptyString => true
  | String _ _ => false
  end.

(** [s.trimEnd()]: the string up to the point from which white space only
    follows. *)
Fixpoint trimEnd (s : string) : string :=
  match s with
  | EmptyString => EmptyString
  | String c rest => if blank s then EmptyString else String c (trimEnd rest)
  end.

(** [s.trim()] *)
Definition trim (s : string) : string := trimEnd (trimStart s).

(** Truthiness of a string-or-null: [null], [undefined] and the empty
    string are falsy. *)
Definition truthy (v : option string) : bool :=
  match v with
  | Some (String _ _) => true
  | _ => false
  end.

(** [v || fallback] for a string-or-null [v]. *)
Definition orElse (v : option string) (fallback : string) : string :=
  if truthy v then default fallback v else fallback.

(** [`${n}`] for an integer [n]. *)
Definition showNumber (n : Z) : string := NilZero.string_of_int (Z.to_int n).

(** [Math.ceil(a / b)] for integers [a] and [b > 0]. *)
Definition ceilDiv (a b : Z) : Z := - ((- a) / b).

(** A value of [Math.random()]: the fraction [numer / (numer + gap + 1)],
    which ranges over the rationals of the interval [0, 1). *)
Record UnitInterval := { numer : nat; gap : nat }.

(** [Math.floor(r * len)]. *)
Definition floorScale (r : UnitInterval) (len : nat) : nat :=
  ((numer r * len) / (numer r + gap r + 1))%nat.

(* ===================================================================== *)
(** ** Configuration *)
(* ===================================================================== *)

(** config/featureConfig.js *)
Definition featureFlagsConfig : list (string * bool) :=
  [ ("ENABLE_NGAMBEK_MODE", true);
    ("ENABLE_AI_VISION", true);
    ("ENABLE_DOC_HANDLER", true);
    ("ENABLE_CRON_JOBS", true);
    ("ENABLE_ROMANCE_MODE", true);
    ("ENABLE_RELATIONSHIP_POINTS", true);
    ("ENABLE_LTM", true);
    ("ENABLE_TTS_REMINDER", true);
    ("ENABLE_HOLIDAYS_REMINDER", true);
    ("ENABLE_DAILY_NEWS", true);
    ("ENABLE_SONGS_NOTIFIER", true);
    ("ENABLE_WEATHER_REMINDER", false) ]%string.

Fixpoint assoc {V : Type} (k : string) (l : list (string * V)) : option V :=
  match l with
  | [] => None
  | (k', v) :: rest => if String.eqb k' k then Some v else assoc k rest
  end.

(** The properties that an object literal inherits from
    [Object.prototype]: functions, and the accessor [__proto__], all of
    them truthy. *)
Definition objectPrototypeMembers : list string :=
  [ "constructor"; "__defineGetter__"; "__defineSetter__"; "hasOwnProperty";
    "__lookupGetter__"; "__lookupSetter__"; "isPrototypeOf"; "propertyIsEnumerable";
    "toString"; "valueOf"; "__proto__"; "toLocaleString" ]%string.

(** [isFeatureEnabled]: [!!featureFlagsConfig[featureName]].  The value of
    the flag if the table has it; otherwise what the table inherits under
    that name, which is truthy, or [undefined]. *)
Definition isFeatureEnabled (flags : list (string * bool)) (featureName : string) : bool :=
  match assoc featureName flags with
  | Some enabled => enabled
  | None => existsb (String.eqb featureName) objectPrototypeMembers
  end.

(** core/ai-response.js *)
Definition RATE_LIMIT_WINDOW_MS : Z := 20 * 1000.
Definition RATE_LIMIT_MAX_REQUESTS : Z := 3.
Definition SLEEP_START_HOUR : Z := 0.
Definition SLEEP_END_HOUR : Z := 4.

(** core/core.js *)
Definition MIN_CHATS_PER_DAY_TO_END_NGAMBEK : Z := 6.
Definition NGAMBEK_DURATION_DAYS : Z := 2.
Definition END_NGAMBEK_INTERACTION_DAYS : nat := 2.

(** handler/commandHandlers.js *)
Definition MOOD_TIMEOUT_MS : Z := 2 * 24 * 60 * 60 * 1000.

(** data/memory.js *)
Definition MAX_HISTORY_LENGTH : nat := 100.
Definition FLUSH_THRESHOLD : nat := MAX_HISTORY_LENGTH + 20.
Definition LTM_CLEANUP_BATCH_SIZE : nat := 50.

Definition MS_PER_DAY : Z := 1000 * 60 * 60 * 24.

(* ===================================================================== *)
(** ** The mood catalogue *)
(* ===================================================================== *)

(** Modelled from the spec: the catalogue of modules/mood.js, which is not
    among the sources.  The specification lists the moods NORMAL, HAPPY,
    SAD, ANGRY, JEALOUS, LAZY, CALM, LOVING, "each carrying a display label
    and a presentation glyph"; these eight are the ones the sources name.
    A mood object is represented by its catalogue key, so that [!==] on two
    mood objects is disequality of keys. *)
Inductive Mood : Set :=
  NORMAL | HAPPY | SAD | ANGRY | JEALOUS | LAZY | CALM | LOVING.

Definition Mood_eqb (a b : Mood) : bool :=
  match a, b with
  | NORMAL, NORMAL | HAPPY, HAPPY | SAD, SAD | ANGRY, ANGRY
  | JEALOUS, JEALOUS | LAZY, LAZY | CALM, CALM | LOVING, LOVING => true
  | _, _ => false
  end.

(** [Object.values(Mood)], in the order of the catalogue. *)
Definition Mood_values : list Mood :=
  [NORMAL; HAPPY; SAD; ANGRY; JEALOUS; LAZY; CALM; LOVING].

(** The label and the glyph of each mood: [mood.name] and [mood.emoji]. *)
Record MoodCatalogue := {
  name : Mood -> string;
  emoji : Mood -> string
}.

(* ===================================================================== *)
(** ** The shared state *)
(* ===================================================================== *)

(** One entry of [globalState.userRequestCounts]. *)
Record RateRecord := { count : Z; lastCalled : Z }.

(** [globalState], as far as the functions below read or write it. *)
Record GlobalState := {
  messageCache : list (string * string);
  userRequestCounts : gmap Z RateRecord;
  isDeeptalkMode : bool;
  isNgambekMode : bool;
  lastInteractionTimestamp : option Z;
  dailyChatCounts : gmap Z Z
}.

(** A pending [setTimeout] of [setMood]: its callback resets the mood to
    NORMAL at [dueAt]. *)
Record Timer := { timerId : nat; dueAt : Z; timerChat : option Z }.

(** The module state of handler/commandHandlers.js, and the timers of the
    event loop that it scheduled. *)
Record Handlers := {
  currentMood : Mood;
  personalityMode : string;
  moodTimeoutId : option nat;
  timers : list Timer;
  nextTimerId : nat
}.

Inductive Role := user | assistant.

Record HistoryMessage := {
  role : Role;
  content : string;
  timestamp : Z;
  chatId : Z;
  contextTopic : option string;
  contextTone : string
}.

(** The values of the preferences that the sulk evaluation saves. *)
Inductive PrefValue :=
| PBool (b : bool)
| PCounts (m : gmap Z Z).

(** The collections of data/memory.js. *)
Record Memory := {
  history : list HistoryMessage;
  preferences : list (string * PrefValue)
}.

(** What the inference client throws. *)
Record ApiError := { message : string }.

Inductive LogLevel := info | warn | error.

(** What a call does to the outside, in the order it does it. *)
Inductive Event :=
| Log (level : LogLevel) (event : string)
| CaptureException (e : ApiError)
| SendMessage (to : option Z) (text : string)
| AnalyzeLoveTrigger (prompt : string)
| ResetRomanceStateIfNeeded
| AssemblePrompt
| CacheHas (key : string)
| CacheGet (key : string)
| ManageCache (key value : string)
| RateGet (requester : Z)
| RateSet (requester : Z) (record : RateRecord)
| ChatCompletion (system prompt : string)
| AddMessage (m : HistoryMessage).

Record World := {
  globalState : GlobalState;
  handlers : Handlers;
  memory : Memory;
  trace : list Event
}.

(** *** Field updates *)

Definition with_globalState (g : GlobalState) (w : World) : World :=
  {| globalState := g; handlers := handlers w; memory := memory w; trace := trace w |}.
Definition with_handlers (h : Handlers) (w : World) : World :=
  {| globalState := globalState w; handlers := h; memory := memory w; trace := trace w |}.
Definition with_memory (m : Memory) (w : World) : World :=
  {| globalState := globalState w; handlers := handlers w; memory := m; trace := trace w |}.
Definition emit (es : list Event) (w : World) : World :=
  {| globalState := globalState w; handlers := handlers w; memory := memory w;
     trace := trace w ++ es |}.

Definition set_messageCache (c : list (string * string)) (g : GlobalState) : GlobalState :=
  {| messageCache := c; userRequestCounts := userRequestCounts g;
     isDeeptalkMode := isDeeptalkMode g; isNgambekMode := isNgambekMode g;
     lastInteractionTimestamp := lastInteractionTimestamp g;
     dailyChatCounts := dailyChatCounts g |}.
Definition set_userRequestCounts (m : gmap Z RateRecord) (g : GlobalState) : GlobalState :=
  {| messageCache := messageCache g; userRequestCounts := m;
     isDeeptalkMode := isDeeptalkMode g; isNgambekMode := isNgambekMode g;
     lastInteractionTimestamp := lastInteractionTimestamp g;
     dailyChatCounts := dailyChatCounts g |}.
Definition set_isNgambekMode (b : bool) (g : GlobalState) : GlobalState :=
  {| messageCache := messageCache g; userRequestCounts := userRequestCounts g;
     isDeeptalkMode := isDeeptalkMode g; isNgambekMode := b;
     lastInteractionTimestamp := lastInteractionTimestamp g;
     dailyChatCounts := dailyChatCounts g |}.
Definition set_dailyChatCounts (m : gmap Z Z) (g : GlobalState) : GlobalState :=
  {| messageCache := messageCache g; userRequestCounts := userRequestCounts g;
     isDeeptalkMode := isDeeptalkMode g; isNgambekMode := isNgambekMode g;
     lastInteractionTimestamp := lastInteractionTimestamp g;
     dailyChatCounts := m |}.

Definition set_currentMood (m : Mood) (h : Handlers) : Handlers :=
  {| currentMood := m; personalityMode := personalityMode h;
     moodTimeoutId := moodTimeoutId h; timers := timers h;
     nextTimerId := nextTimerId h |}.
Definition set_timers (ts : list Timer) (h : Handlers) : Handlers :=
  {| currentMood := currentMood h; personalityMode := personalityMode h;
     moodTimeoutId := moodTimeoutId h; timers := ts;
     nextTimerId := nextTimerId h |}.

Definition set_history (l : list HistoryMessage) (m : Memory) : Memory :=
  {| history := l; preferences := preferences m |}.
Definition set_preferences (p : list (string * PrefValue)) (m : Memory) : Memory :=
  {| history := history m; preferences := p |}.

(** The texts sent through [sendMessage], in order. *)
Definition sent (es : list Event) : list (option Z * string) :=
  flat_map (fun e => match e with SendMessage to text => [(to, text)] | _ => [] end) es.

(** The requests made to the inference service, in order. *)
Definition inferenceCalls (es : list Event) : list (string * string) :=
  flat_map (fun e => match e with ChatCompletion s p => [(s, p)] | _ => [] end) es.


(* ===================================================================== *)
(** ** The collections of LokiJS *)
(* ===================================================================== *)

(** An entry of the collection [ltm]. *)
Record LTMEntry := {
  ltmKey : string;
  ltmValue : string;
  priority : Z;
  createdAt : Z
}.

(** LokiJS is a library, not a source of this repository.  A collection is
    the list of its documents in the order of its data array, and a
    document is known by its position there.  A result set is a list of
    positions, in the order of the result.  What the library documents is
    kept: [find] returns the documents that meet the query, [simplesort]
    orders a result set by a property, [limit] keeps the first documents
    of a result set, [remove] takes documents out of the data array and
    leaves the others in their order.  What it leaves open is given from
    outside: the order in which [find] returns documents, and the order
    that a sort gives to documents of equal key. *)
Module Loki.

Definition ResultSet := list nat.

Definition docAt {A : Type} (collection : list A) (i : nat) : list A :=
  match nth_error collection i with
  | Some x => [x]
  | None => []
  end.

(** [.data()]: the documents of a result set. *)
Definition data {A : Type} (collection : list A) (rs : ResultSet) : list A :=
  flat_map (docAt collection) rs.

(** [.limit(n)] *)
Definition limit (n : nat) (rs : ResultSet) : ResultSet := firstn n rs.

(** [collection.chain()]: every document. *)
Definition all {A : Type} (collection : list A) : ResultSet := seq 0 (length collection).

Definition meets {A : Type} (p : A -> bool) (collection : list A) (i : nat) : bool :=
  match nth_error collection i with
  | Some x => p x
  | None => false
  end.

(** The documents that meet [p], in the order of the data array. *)
Definition matching {A : Type} (p : A -> bool) (collection : list A) : ResultSet :=
  List.filter (meets p collection) (all collection).

(** A sort by insertion; [before i j] says that [i] may come before [j]. *)
Fixpoint insertBy (before : nat -> nat -> bool) (i : nat) (sorted : ResultSet) : ResultSet :=
  match sorted with
  | [] => [i]
  | j :: rest => if before i j then i :: sorted else j :: insertBy before i rest
  end.

Definition sortBy (before : nat -> nat -> bool) (rs : ResultSet) : ResultSet :=
  fold_right (insertBy before) [] rs.

(** By ascending [key], and by ascending [tie] among equal keys. *)
Definition byKey (key tie : nat -> Z) (i j : nat) : bool :=
  (key i <? key j) || ((key i =? key j) && (tie i <=? tie j)).

Definition keyAt {A : Type} (key : A -> Z) (collection : list A) (i : nat) : Z :=
  match nth_error collection i with
  | Some x => key x
  | None => 0
  end.

(** [.simplesort(property, desc)]: the documents by ascending [key], or
    descending if [desc]; those of equal key in the order that [tie] gives
    them. *)
Definition simplesort {A : Type} (key : A -> Z) (desc : bool) (tie : nat -> Z)
    (collection : list A) : ResultSet :=
  sortBy (byKey (fun i => if desc then - keyAt key collection i else keyAt key collection i) tie)
    (all collection).

(** [.find(query)]: the documents that meet [p], in the order that
    [order] gives them. *)
Definition find {A : Type} (p : A -> bool) (order : nat -> Z) (collection : list A)
  : ResultSet :=
  sortBy (byKey order Z.of_nat) (matching p collection).

Definition listed (rs : ResultSet) (i : nat) : bool := existsb (Nat.eqb i) rs.

(** The positions of the result set are positions of the data array. *)
Definition valid {A : Type} (collection : list A) (rs : ResultSet) : Prop :=
  forall i, In i rs -> (i < length collection)%nat.

(** [collection.remove(docs)], for the documents of the result set [rs]. *)
Definition remove {A : Type} (rs : ResultSet) (collection : list A) : list A :=
  data collection (List.filter (fun i => negb (listed rs i)) (all collection)).

End Loki.

(* ===================================================================== *)
(** ** What the functions are given *)
(* ===================================================================== *)

(** The module exports of data/memory.js. *)
Definition memoryExports : list string :=
  [ "load"; "addMessage"; "getPreference"; "savePreference"; "deletePreference";
    "getLTMMemories"; "saveLTMMemory"; "closeDb" ]%string.

(** What the functions are given from outside the sources:
    - the mood catalogue (modules/mood.js);
    - the cache manager (utils/cacheHelper.js, stored as
      [globalState.manageCache]), which is given the cache, a key and a
      value and leaves the cache as it returns it;
    - the table of feature flags;
    - the names of the members of the object [memory] that [initialize]
      injects into core/ai-response.js; core/core.js injects the module
      data/memory.js, whose members are [memoryExports];
    - the calendar of the host: [daysBack t i] is the time of the date
      [d] after [d = new Date(t); d.setDate(d.getDate() - i)], that is
      the local time of day of [t], [i] local days earlier;
    - the choices of LokiJS: the order of documents of equal timestamp in
      a sort of the history (ascending, or descending if the flag is
      set), of equal priority in a sort of the long-term memories, and the
      order in which [find] returns the long-term memories that meet the
      criteria at a given time. *)
Record Dependencies := {
  Moods : MoodCatalogue;
  manageCache : list (string * string) -> string -> string -> list (string * string);
  flags : list (string * bool);
  memoryMembers : list string;
  daysBack : Z -> Z -> Z;
  historyTies : bool -> list HistoryMessage -> nat -> Z;
  ltmTies : list LTMEntry -> nat -> Z;
  findOrder : Z -> list LTMEntry -> nat -> Z
}.

(* ===================================================================== *)
(** ** data/memory.js *)
(* ===================================================================== *)

(** [savePreference]: update the document of that key, or insert one. *)
Fixpoint upsert (key : string) (value : PrefValue) (l : list (string * PrefValue))
  : list (string * PrefValue) :=
  match l with
  | [] => [(key, value)]
  | (k, v) :: rest =>
      if String.eqb k key then (k, value) :: rest else (k, v) :: upsert key value rest
  end.

Definition savePreference (key : string) (value : PrefValue) (w : World) : World :=
  with_memory (set_preferences (upsert key value (preferences (memory w))) (memory w)) w.

Definition getPreference (key : string) (w : World) : option PrefValue :=
  assoc key (preferences (memory w)).

(** [flush]: trim the history back to [MAX_HISTORY_LENGTH] once it is
    longer than [FLUSH_THRESHOLD], removing the messages that an ascending
    sort by timestamp puts first. *)
Definition flush (d : Dependencies) (l : list HistoryMessage) : list HistoryMessage :=
  let currentHistoryCount := length l in
  if (FLUSH_THRESHOLD <? currentHistoryCount)%nat then
    let excessCount := (currentHistoryCount - MAX_HISTORY_LENGTH)%nat in
    let oldMessages :=
      Loki.limit excessCount (Loki.simplesort timestamp false (historyTies d false l) l) in
    if (0 <? length (Loki.data l oldMessages))%nat then Loki.remove oldMessages l else l
  else l.

(** [addMessage]: a message whose content is blank is refused with a
    warning; any other is inserted, and the history flushed. *)
Definition addMessage (d : Dependencies) (m : HistoryMessage) (w : World) : World :=
  let w := emit [AddMessage m] w in
  match trim (content m) with
  | EmptyString => w
  | _ => with_memory (set_history (flush d (history (memory w) ++ [m])) (memory w)) w
  end.

(* ===================================================================== *)
(** ** handler/commandHandlers.js: the mood and its revert timer *)
(* ===================================================================== *)

(** [if (chatId)]: a chat identifier that is given and is not zero. *)
Definition givenChat (chatId : option Z) : bool :=
  match chatId with
  | Some c => negb (c =? 0)
  | None => false
  end.

(** [clearTimeout(id)]: the timer of that identifier, if it is pending, is
    dropped; [clearTimeout(undefined)] does nothing. *)
Definition clearTimeout (id : option nat) (h : Handlers) : Handlers :=
  match id with
  | Some i => set_timers (List.filter (fun t => negb (timerId t =? i)%nat) (timers h)) h
  | None => h
  end.

(** The longest delay of a timer of Node.js: 2^31 - 1 milliseconds. *)
Definition TIMEOUT_MAX : Z := 2147483647.

(** The delay that a timer of Node.js runs with: the delay it is given
    if that is at least 1 and at most [TIMEOUT_MAX], and 1 otherwise. *)
Definition timerDelay (after : Z) : Z :=
  if (1 <=? after) && (after <=? TIMEOUT_MAX) then after else 1.

(** [moodTimeoutId = setTimeout(callback, durationMs)], called at [now]. *)
Definition setTimeout (now durationMs : Z) (chat : option Z) (h : Handlers) : Handlers :=
  {| currentMood := currentMood h;
     personalityMode := personalityMode h;
     moodTimeoutId := Some (nextTimerId h);
     timers := timers h ++ [{| timerId := nextTimerId h;
                               dueAt := now + timerDelay durationMs;
                               timerChat := chat |}];
     nextTimerId := S (nextTimerId h) |}.

(** The text that announces a change of mood. *)
Definition announcement (d : Dependencies) (newMood : Mood) : string :=
  "Lumina sekarang " +++ name (Moods d) newMood +++ " " +++ emoji (Moods d) newMood.

(** [setMood(chatId, newMood, durationMs = MOOD_TIMEOUT_MS)], called at
    [now]. *)
Definition setMood (d : Dependencies) (now : Z) (chatId : option Z) (newMood : Mood)
    (durationMs : option Z) (w : World) : World :=
  let durationMs := default MOOD_TIMEOUT_MS durationMs in
  let w := with_handlers (clearTimeout (moodTimeoutId (handlers w)) (handlers w)) w in
  let w :=
    if negb (Mood_eqb (currentMood (handlers w)) newMood) then
      let w := with_handlers (set_currentMood newMood (handlers w)) w in
      let w := emit [Log info "mood_change"] w in
      if givenChat chatId
      then emit [SendMessage chatId (announcement d newMood)] w
      else w
    else w in
  if negb (Mood_eqb newMood NORMAL) && negb (Mood_eqb newMood CALM)
  then with_handlers (setTimeout now durationMs chatId (handlers w)) w
  else w.

(** The callback of a revert timer, run by the event loop when the timer
    [id] is due: the timer is spent and the mood is NORMAL again. *)
Definition fireTimer (id : nat) (w : World) : World :=
  if existsb (fun t => (timerId t =? id)%nat) (timers (handlers w)) then
    let h := set_timers (List.filter (fun t => negb (timerId t =? id)%nat) (timers (handlers w)))
               (handlers w) in
    emit [Log info "mood_reset"] (with_handlers (set_currentMood NORMAL h) w)
  else w.

(** [getRandomMood], for the value [r] of [Math.random()].  The index is
    always within the array (see [floorScale_lt]); the default of [nth] is
    never returned. *)
Definition getRandomMood (r : UnitInterval) : Mood :=
  let moods := List.filter (fun mood => negb (Mood_eqb mood CALM)) Mood_values in
  let randomIndex := floorScale r (length moods) in
  nth randomIndex moods NORMAL.

(* ===================================================================== *)
(** ** core/ai-response.js: the response gate *)
(* ===================================================================== *)

(** [messageContext], as far as the gate reads it. *)
Record MessageContext := { topic : option string }.

(** What the inference client answers: it throws, or it returns a response
    whose [response?.choices?.[0]?.message?.content] is [content]
    ([None] when a link of the chain is missing). *)
Inductive Completion :=
| Threw (e : ApiError)
| Responded (content : option string).

(** What a call reads from outside the shared state: the clock, the hour
    in Jakarta, the system prompt that [generateLuminaPrompt] assembles
    when it gets that far, what the inference service answers and when. *)
Record Ambient := {
  now : Z;
  jakartaHour : Z;
  systemPrompt : string;
  completion : Completion;
  completedAt : Z
}.

(** An error of the language itself. *)
Inductive JsError :=
| TypeError (message : string).

(** How the promise of an [async] function is settled. *)
Inductive Outcome :=
| Resolved (text : string)
| Rejected (e : JsError).

(** [memory.<member>] is a function. *)
Definition hasMember (d : Dependencies) (member : string) : bool :=
  existsb (String.eqb member) (memoryMembers d).

(** [generateLuminaPrompt]: its first statement awaits
    [memory.getInMemoryHistory()], which throws when the object [memory]
    has no such member; what the function assembles is the system prompt
    of the ambient. *)
Definition generateLuminaPrompt (d : Dependencies) (a : Ambient) : JsError + string :=
  if hasMember d "getInMemoryHistory"
  then inr (systemPrompt a)
  else inl (TypeError "memory.getInMemoryHistory is not a function").

(** The fingerprint of a request: the object that is stringified into the
    cache key. *)
Definition cacheKeyObject (prompt : string) (topic : option string) (personality : string)
    (moodName : string) (deeptalk ngambek : bool) (imageDescription : option string)
  : list (string * Json.Value) :=
  [ ("prompt", Json.Str prompt);
    ("topic", Json.Str (orElse topic "no_topic"));
    ("personality", Json.Str personality);
    ("mood", Json.Str moodName);
    ("deeptalkMode", Json.Bool deeptalk);
    ("ngambekMode", Json.Bool ngambek);
    ("imageContext", Json.Str (orElse imageDescription "no_image")) ]%string.

Definition cacheKey (d : Dependencies) (prompt : string) (messageContext : MessageContext)
    (imageDescription : option string) (w : World) : string :=
  Json.stringify
    (cacheKeyObject prompt (topic messageContext)
       (personalityMode (handlers w))
       (name (Moods d) (currentMood (handlers w)))
       (isDeeptalkMode (globalState w))
       (isNgambekMode (globalState w))
       imageDescription).

Definition sleepReply (d : Dependencies) (USER_NAME : string) : string :=
  "Zzz... Lumina sedang istirahat, " +++ USER_NAME +++ ". Kita lanjutkan nanti ya! "
    +++ emoji (Moods d) LAZY.

Definition busyReply (d : Dependencies) (USER_NAME : string) : string :=
  "Lumina lagi sibuk, " +++ USER_NAME +++ ". Mohon sabar ya! " +++ emoji (Moods d) ANGRY.

Definition confusedReply (d : Dependencies) (USER_NAME : string) : string :=
  "Maaf, " +++ USER_NAME
    +++ ". Lumina lagi bingung nih, coba tanya lagi dengan cara lain ya. "
    +++ emoji (Moods d) SAD.

Definition technicalReply (d : Dependencies) (USER_NAME : string) : string :=
  "Maaf, " +++ USER_NAME +++ ". Lumina lagi ada gangguan teknis. " +++ emoji (Moods d) SAD.

(** [globalState.manageCache(globalState.messageCache, key, value)] *)
Definition callManageCache (d : Dependencies) (key value : string) (w : World) : World :=
  let w := emit [ManageCache key value] w in
  with_globalState
    (set_messageCache (manageCache d (messageCache (globalState w)) key value) (globalState w)) w.

(** [globalState.userRequestCounts.set(requestChatId, record)] *)
Definition setUserStats (requestChatId : Z) (record : RateRecord) (w : World) : World :=
  let w := emit [RateSet requestChatId record] w in
  with_globalState
    (set_userRequestCounts (<[requestChatId := record]> (userRequestCounts (globalState w)))
       (globalState w)) w.

(** The [try] block: the inference call and what follows it. *)
Definition requestCompletion (d : Dependencies) (a : Ambient) (prompt : string)
    (requestChatId : Z) (messageContext : MessageContext) (USER_NAME : string)
    (key : string) (w : World) : string * World :=
  let w := emit [Log info "groq_api_request_start";
                 ChatCompletion (systemPrompt a) prompt] w in
  match completion a with
  | Responded content =>
      if truthy content then
        let aiResponse := trim (default EmptyString content) in
        let w := addMessage d {| role := assistant;
                                 content := aiResponse;
                                 timestamp := completedAt a;
                                 chatId := requestChatId;
                                 contextTopic := topic messageContext;
                                 contextTone := "assistant_response" |} w in
        let w := callManageCache d key aiResponse w in
        (aiResponse, w)
      else
        let w := emit [Log error "groq_api_empty_response"] w in
        (confusedReply d USER_NAME, w)
  | Threw e =>
      let w := emit [Log error "groq_api_call_error"; CaptureException e] w in
      (technicalReply d USER_NAME, w)
  end.

(** The promise resolves with the text that was returned. *)
Definition resolved (out : string * World) : Outcome * World :=
  (Resolved (fst out), snd out).

(** [generateAIResponse(prompt, requestChatId, messageContext, USER_NAME,
    Mood, imageDescription = null)]; the [Mood] argument is the catalogue
    of [d].  The call to [generateLuminaPrompt] is outside the [try]
    block: when it throws, the promise of [generateAIResponse] is
    rejected with what it threw. *)
Definition generateAIResponse (d : Dependencies) (a : Ambient) (prompt : string)
    (requestChatId : Z) (messageContext : option MessageContext) (USER_NAME : string)
    (imageDescription : option string) (w : World) : Outcome * World :=
  let messageContext := default {| topic := None |} messageContext in
  let w :=
    if isFeatureEnabled (flags d) "ENABLE_ROMANCE_MODE"
    then emit [AnalyzeLoveTrigger prompt; ResetRomanceStateIfNeeded] w
    else w in
  let currentHour := jakartaHour a in
  if (SLEEP_START_HOUR <=? currentHour) && (currentHour <? SLEEP_END_HOUR) then
    (Resolved (sleepReply d USER_NAME), w)
  else
    let w := emit [AssemblePrompt] w in
    match generateLuminaPrompt d a with
    | inl thrown => (Rejected thrown, w)
    | inr _ =>
    let key := cacheKey d prompt messageContext imageDescription w in
    let w := emit [CacheHas key] w in
    match assoc key (messageCache (globalState w)) with
    | Some cachedResponse =>
        let w := emit [CacheGet key] w in
        let w := callManageCache d key cachedResponse w in
        let w := emit [Log info "cache_hit"] w in
        (Resolved cachedResponse, w)
    | None =>
        let w := emit [RateGet requestChatId] w in
        match userRequestCounts (globalState w) !! requestChatId with
        | Some userStats =>
            if (now a - lastCalled userStats <? RATE_LIMIT_WINDOW_MS)
               && (count userStats >=? RATE_LIMIT_MAX_REQUESTS)
            then (Resolved (busyReply d USER_NAME), w)
            else if now a - lastCalled userStats >=? RATE_LIMIT_WINDOW_MS
            then resolved
                   (requestCompletion d a prompt requestChatId messageContext USER_NAME key
                      (setUserStats requestChatId {| count := 1; lastCalled := now a |} w))
            else resolved
                   (requestCompletion d a prompt requestChatId messageContext USER_NAME key
                      (setUserStats requestChatId
                         {| count := count userStats + 1; lastCalled := now a |} w))
        | None =>
            resolved
              (requestCompletion d a prompt requestChatId messageContext USER_NAME key
                 (setUserStats requestChatId {| count := 1; lastCalled := now a |} w))
        end
    end
    end.

(* ===================================================================== *)
(** ** core/core.js: the sulk evaluation *)
(* ===================================================================== *)

(** The UTC day of a timestamp: the key [toISOString().slice(0, 10)]. *)
Definition dayOf (t : Z) : Z := t / MS_PER_DAY.

(** [Math.ceil(Math.abs(now - lastInteractionDate) / MS_PER_DAY)] *)
Definition diffDays (now last : Z) : Z := ceilDiv (Z.abs (now - last)) MS_PER_DAY.

(** [d = new Date(now); d.setDate(now.getDate() - i)]: the time of [d].
    [setDate] works on the local date of the host.  With [i = 0] the date
    is given the day of the month that it has and stays where it is
    (the one hour a year that a clock change repeats, in which the date
    may move to the first occurrence of its local time, is left out);
    otherwise it moves back [i] days of the host's calendar. *)
Definition setDateBack (d : Dependencies) (now : Z) (i : Z) : Z :=
  if i =? 0 then now else daysBack d now i.

(** The local time of the host keeps one offset from UTC: a local day is
    24 hours. *)
Definition fixedOffset (d : Dependencies) : Prop :=
  forall t i, daysBack d t i = t - i * MS_PER_DAY.

(** The days of [checkDates]: the UTC dates of today and of the local days
    before it. *)
Definition checkDates (d : Dependencies) (now : Z) : list Z :=
  map (fun i => dayOf (setDateBack d now (Z.of_nat i))) (seq 0 END_NGAMBEK_INTERACTION_DAYS).

(** [globalState.dailyChatCounts[dateStr] || 0] *)
Definition chatCount (counts : gmap Z Z) (day : Z) : Z := default 0 (counts !! day).

Definition hasSufficientInteraction (d : Dependencies) (now : Z) (counts : gmap Z Z) : bool :=
  forallb (fun day => chatCount counts day >=? MIN_CHATS_PER_DAY_TO_END_NGAMBEK)
    (checkDates d now).

(** The clean-up loop: the days whose midnight ([new Date(date)]) is
    before [twoDaysAgo] are deleted. *)
Definition pruneCounts (d : Dependencies) (now : Z) (counts : gmap Z Z) : gmap Z Z :=
  let twoDaysAgo := setDateBack d now (NGAMBEK_DURATION_DAYS + 1) in
  filter (fun kv => ¬ (fst kv * MS_PER_DAY < twoDaysAgo)) counts.

Definition sulkNotice (days : Z) : string :=
  "Hmph! Kamu kemana aja?! Lumina sekarang ngambek karena kamu tidak mendengarkan Lumina selama "
    +++ showNumber days +++ " hari! ðŸ˜’".

Definition reliefNotice : string :=
  "Akhirnya kamu kembali! Lumina tidak ngambek sekarang, t-tapi jangan buat itu lagi, oke! ðŸ˜Œ".

(** The first block: should Lumina enter 'ngambek' mode? *)
Definition enterNgambek (d : Dependencies) (now : Z) (chatId : option Z) (w : World) : World :=
  match isNgambekMode (globalState w), lastInteractionTimestamp (globalState w) with
  | false, Some lastInteractionDate =>
      let days := diffDays now lastInteractionDate in
      if days >=? NGAMBEK_DURATION_DAYS then
        let w := with_globalState (set_isNgambekMode true (globalState w)) w in
        let w := setMood d now chatId JEALOUS None w in
        let w := savePreference "isNgambekMode" (PBool true) w in
        let w := emit [Log info "ngambek_mode_activated"] w in
        emit [SendMessage chatId (sulkNotice days)] w
      else w
  | _, _ => w
  end.

(** The second block: should Lumina stop 'ngambek' mode? *)
Definition leaveNgambek (d : Dependencies) (r : UnitInterval) (now : Z) (chatId : option Z)
    (w : World) : World :=
  if isNgambekMode (globalState w) then
    if hasSufficientInteraction d now (dailyChatCounts (globalState w)) then
      let w := with_globalState (set_isNgambekMode false (globalState w)) w in
      let w := setMood d now chatId (getRandomMood r) None w in
      let w := savePreference "isNgambekMode" (PBool false) w in
      let w := with_globalState (set_dailyChatCounts ∅ (globalState w)) w in
      let w := savePreference "dailyChatCounts" (PCounts (dailyChatCounts (globalState w))) w in
      let w := emit [Log info "ngambek_mode_deactivated"] w in
      emit [SendMessage chatId reliefNotice] w
    else w
  else w.

(** The third block: old [dailyChatCounts] are cleaned up and saved. *)
Definition cleanCounts (d : Dependencies) (now : Z) (w : World) : World :=
  let w := with_globalState
             (set_dailyChatCounts (pruneCounts d now (dailyChatCounts (globalState w)))
                (globalState w)) w in
  savePreference "dailyChatCounts" (PCounts (dailyChatCounts (globalState w))) w.

(** [checkNgambekStatus(chatId)], run at [now]; [r] is the value that
    [Math.random()] returns if [getRandomMood] is called. *)
Definition checkNgambekStatus (d : Dependencies) (r : UnitInterval) (now : Z)
    (chatId : option Z) (w : World) : World :=
  if negb (isFeatureEnabled (flags d) "ENABLE_NGAMBEK_MODE") then
    if isNgambekMode (globalState w) then
      let w := with_globalState (set_isNgambekMode false (globalState w)) w in
      let w := savePreference "isNgambekMode" (PBool false) w in
      emit [Log info "ngambek_mode_force_disabled"] w
    else w
  else
    let w := enterNgambek d now chatId w in
    let w := leaveNgambek d r now chatId w in
    cleanCounts d now w.

(* ===================================================================== *)
(** ** data/memory.js: the clean-up of the long-term memory *)
(* ===================================================================== *)

(** The [$or] criteria of [cleanupOldLTMs], evaluated at [now]. *)
Definition criteria (now : Z) (e : LTMEntry) : bool :=
  ((priority e =? 100) && (createdAt e <? now - 60 * MS_PER_DAY))
  || (((91 <=? priority e) && (priority e <=? 99)) && (createdAt e <? now - 14 * MS_PER_DAY))
  || ((priority e <=? 90) && (createdAt e <? now - 5 * MS_PER_DAY)).

(** [ltm.chain().find(criteria).limit(n)] *)
Definition findLimit (d : Dependencies) (now : Z) (n : nat) (ltm : list LTMEntry)
  : Loki.ResultSet :=
  Loki.limit n (Loki.find (criteria now) (findOrder d now ltm) ltm).

(** The [while (hasMore)] loop, with the batches it removed so far; [None]
    when the fuel runs out before the loop ends. *)
Fixpoint cleanupLoop (d : Dependencies) (fuel : nat) (now : Z) (ltm : list LTMEntry)
    (batches : list (list LTMEntry)) : option (list LTMEntry * list (list LTMEntry)) :=
  match fuel with
  | O => None
  | S fuel' =>
      let found := findLimit d now LTM_CLEANUP_BATCH_SIZE ltm in
      let oldDocs := Loki.data ltm found in
      if (0 <? length oldDocs)%nat
      then cleanupLoop d fuel' now (Loki.remove found ltm) (batches ++ [oldDocs])
      else Some (ltm, batches)
  end.

(** [cleanupOldLTMs], run at [now] on the collection [ltm]: the collection
    it leaves and the batches it removed. *)
Definition cleanupOldLTMs (d : Dependencies) (now : Z) (ltm : list LTMEntry)
  : option (list LTMEntry * list (list LTMEntry)) :=
  cleanupLoop d (S (length ltm)) now ltm [].

(* ===================================================================== *)
(** ** Reading the outcome of a call *)
(* ===================================================================== *)

(** The events a call added to the trace of [w], given the world [w'] that
    it left. *)
Definition newEvents (w w' : World) : list Event :=
  skipn (length (trace w)) (trace w').

(** The calls to [loveState] that open [generateAIResponse]. *)
Definition loveEvents (d : Dependencies) (prompt : string) : list Event :=
  if isFeatureEnabled (flags d) "ENABLE_ROMANCE_MODE"
  then [AnalyzeLoveTrigger prompt; ResetRomanceStateIfNeeded]
  else [].

(** The test of the limiter on the record of a requester: the request made
    at [now] is refused. *)
Definition throttled (now : Z) (stats : option RateRecord) : bool :=
  match stats with
  | Some userStats =>
      (now - lastCalled userStats <? RATE_LIMIT_WINDOW_MS)
      && (count userStats >=? RATE_LIMIT_MAX_REQUESTS)
  | None => false
  end.

(** A request, with what surrounds it when it is served. *)
Record Request := {
  ambient : Ambient;
  prompt : string;
  messageContext : option MessageContext;
  userName : string;
  imageDescription : option string
}.

Definition serve (d : Dependencies) (requestChatId : Z) (q : Request) (w : World)
  : Outcome * World :=
  generateAIResponse d (ambient q) (prompt q) requestChatId (messageContext q)
    (userName q) (imageDescription q) w.

(** The key under which the answer to [q] is cached in [w]. *)
Definition keyOf (d : Dependencies) (q : Request) (w : World) : string :=
  cacheKey d (prompt q) (default {| topic := None |} (messageContext q))
    (imageDescription q) w.

(** The prompt can be assembled: the object [memory] has the accessor that
    [generateLuminaPrompt] calls. *)
Definition assembles (d : Dependencies) : Prop :=
  hasMember d "getInMemoryHistory" = true.

(** The functions are wired as core/core.js wires them: the object
    [memory] is the module data/memory.js. *)
Definition wiredAsRepository (d : Dependencies) : Prop :=
  memoryMembers d = memoryExports.

(** Lumina is awake at the time of the request. *)
Definition awake (q : Request) : Prop :=
  ¬ (SLEEP_START_HOUR <= jakartaHour (ambient q) < SLEEP_END_HOUR).

(** The request gets as far as the limiter: the prompt can be assembled,
    Lumina is awake and the cache has no answer for the request. *)
Definition reachesLimiter (d : Dependencies) (q : Request) (w : World) : Prop :=
  assembles d
  ∧ awake q
  ∧ assoc (keyOf d q w) (messageCache (globalState w)) = None.

(** The inference call fails: it throws, or its answer has no content. *)
Definition failed (c : Completion) : Prop :=
  match c with
  | Threw _ => True
  | Responded content => truthy content = false
  end.

(** The reply to a failed inference call. *)
Definition fallbackReply (d : Dependencies) (USER_NAME : string) (c : Completion) : string :=
  match c with
  | Threw _ => technicalReply d USER_NAME
  | Responded _ => confusedReply d USER_NAME
  end.

(** The record that an admitted request leaves: a new window of one
    request once the window has elapsed since [lastCalled], one request
    more in the running window otherwise. *)
Definition nextRecord (now : Z) (stats : option RateRecord) : RateRecord :=
  match stats with
  | Some userStats =>
      if now - lastCalled userStats >=? RATE_LIMIT_WINDOW_MS
      then {| count := 1; lastCalled := now |}
      else {| count := count userStats + 1; lastCalled := now |}
  | None => {| count := 1; lastCalled := now |}
  end.

(** The events of a call up to the limiter. *)
Definition gateEvents (d : Dependencies) (requestChatId : Z) (q : Request) (w : World)
  : list Event :=
  loveEvents d (prompt q) ++ [AssemblePrompt; CacheHas (keyOf d q w); RateGet requestChatId].

(** A dimension of the cache key, in the words of the specification
    ("topic or sentinel", "image-context descriptor or sentinel"): the
    value when one is given and is not the empty text, the sentinel
    otherwise. *)
Definition dimension (value : option string) (sentinel : string) : string :=
  match value with
  | Some (String c rest) => String c rest
  | Some EmptyString => sentinel
  | None => sentinel
  end.

(* ===================================================================== *)
(** ** A catalogue, a cache manager and a start state to run the code on *)
(* ===================================================================== *)

Module Sample.

Definition moods : MoodCatalogue :=
  {| name := fun m =>
       match m with
       | NORMAL => "Normal" | HAPPY => "Senang" | SAD => "Sedih" | ANGRY => "Marah"
       | JEALOUS => "Cemburu" | LAZY => "Malas" | CALM => "Tenang" | LOVING => "Sayang"
       end%string;
     emoji := fun m =>
       match m with
       | NORMAL => ":)" | HAPPY => ":D" | SAD => ":(" | ANGRY => ">:("
       | JEALOUS => ":/" | LAZY => "-_-" | CALM => "u_u" | LOVING => "<3"
       end%string |}.

(** A cache manager that moves the entry of the key to the most recent
    end of the cache. *)
Definition touch (cache : list (string * string)) (key value : string)
  : list (string * string) :=
  List.filter (fun kv => negb (String.eqb (fst kv) key)) cache ++ [(key, value)].

(** The functions as core/core.js wires them, on a host in UTC, with a
    LokiJS that keeps documents of equal key, and the documents that
    [find] returns, in the order of the data array. *)
Definition repository : Dependencies :=
  {| Moods := moods; manageCache := touch; flags := featureFlagsConfig;
     memoryMembers := memoryExports;
     daysBack := fun t i => t - i * MS_PER_DAY;
     historyTies := fun _ _ i => Z.of_nat i;
     ltmTies := fun _ i => Z.of_nat i;
     findOrder := fun _ _ i => Z.of_nat i |}.

(** The same, with an object [memory] that has, beside the members of
    data/memory.js, the accessor that [generateLuminaPrompt] calls. *)
Definition deps : Dependencies :=
  {| Moods := moods; manageCache := touch; flags := featureFlagsConfig;
     memoryMembers := "getInMemoryHistory"%string :: memoryExports;
     daysBack := fun t i => t - i * MS_PER_DAY;
     historyTies := fun _ _ i => Z.of_nat i;
     ltmTies := fun _ i => Z.of_nat i;
     findOrder := fun _ _ i => Z.of_nat i |}.

(** The same, with a LokiJS whose [find] returns the oldest long-term
    memories first, and whose sorts put the document inserted last first
    among those of equal key. *)
Definition oldestFirst : Dependencies :=
  {| Moods := moods; manageCache := touch; flags := featureFlagsConfig;
     memoryMembers := "getInMemoryHistory"%string :: memoryExports;
     daysBack := fun t i => t - i * MS_PER_DAY;
     historyTies := fun _ _ i => - Z.of_nat i;
     ltmTies := fun _ i => - Z.of_nat i;
     findOrder := fun _ ltm i => Loki.keyAt createdAt ltm i |}.

(** The end of daylight saving time in New York in 2024: the third of
    November, 06:00 UTC, when the local clocks go back from 02:00 to
    01:00. *)
Definition fallBack : Z := 1730613600000.

(** The same as [deps], on a host in New York around that day: a date
    after the change that is moved back to a local day before it arrives
    an hour earlier than 24 hours a day give. *)
Definition newYork : Dependencies :=
  {| Moods := moods; manageCache := touch; flags := featureFlagsConfig;
     memoryMembers := "getInMemoryHistory"%string :: memoryExports;
     daysBack := fun t i =>
       if (fallBack <=? t) && (t - i * MS_PER_DAY - 3600000 <? fallBack)
       then t - i * MS_PER_DAY - 3600000
       else t - i * MS_PER_DAY;
     historyTies := fun _ _ i => Z.of_nat i;
     ltmTies := fun _ i => Z.of_nat i;
     findOrder := fun _ _ i => Z.of_nat i |}.

(** The state at start-up: nothing cached, no requester seen, mood NORMAL,
    personality TSUNDERE, no timer. *)
Definition world : World :=
  {| globalState :=
       {| messageCache := []; userRequestCounts := ∅; isDeeptalkMode := false;
          isNgambekMode := false; lastInteractionTimestamp := None;
          dailyChatCounts := ∅ |};
     handlers :=
       {| currentMood := NORMAL; personalityMode := "TSUNDERE"; moodTimeoutId := None;
          timers := []; nextTimerId := 0 |};
     memory := {| history := []; preferences := [] |};
     trace := [] |}.

(** A request made at [t] milliseconds, at the hour [h] in Jakarta, that
    the inference service answers with [c]. *)
Definition request (t h : Z) (text : string) (c : Completion) : Request :=
  {| ambient := {| now := t; jakartaHour := h; systemPrompt := "You are Lumina.";
                   completion := c; completedAt := t + 900 |};
     prompt := text;
     messageContext := Some {| topic := None |};
     userName := "Tuan";
     imageDescription := None |}.

Definition requester : Z := 7.

(** The start state with the given sulk flag, last interaction, daily
    counts and mood. *)
Definition state (sulking : bool) (last : option Z) (counts : gmap Z Z) (mood : Mood)
  : World :=
  {| globalState :=
       {| messageCache := []; userRequestCounts := ∅; isDeeptalkMode := false;
          isNgambekMode := sulking; lastInteractionTimestamp := last;
          dailyChatCounts := counts |};
     handlers :=
       {| currentMood := mood; personalityMode := "TSUNDERE"; moodTimeoutId := None;
          timers := []; nextTimerId := 0 |};
     memory := {| history := []; preferences := [] |};
     trace := [] |}.


(** A value of [Math.random()]: 1/2. *)
Definition half : UnitInterval := {| numer := 1; gap := 0 |}.

End Sample.

(** What [setMood] logs and sends when the mood was [current]: nothing
    for the same mood, the change and, to a given chat, its announcement
    otherwise. *)
Definition moodEvents (d : Dependencies) (chatId : option Z) (current newMood : Mood)
  : list Event :=
  if negb (Mood_eqb current newMood)
  then Log info "mood_change"
       :: (if givenChat chatId then [SendMessage chatId (announcement d newMood)] else [])
  else [].

(** The sulk evaluation has nothing to do in [w] at [now]: the entry block
    does not enter and the exit block does not leave. *)
Definition settled (d : Dependencies) (now : Z) (w : World) : Prop :=
  (isNgambekMode (globalState w) = true
   ∨ lastInteractionTimestamp (globalState w) = None
   ∨ (exists last, lastInteractionTimestamp (globalState w) = Some last
                   ∧ diffDays now last < NGAMBEK_DURATION_DAYS))
  ∧ (isNgambekMode (globalState w) = false
     ∨ hasSufficientInteraction d now (dailyChatCounts (globalState w)) = false).

(** The counts and the last interaction agree at [now]: when today and
    yesterday have the chats that end a sulk, the last interaction is not
    two days old. *)
Definition coherent (d : Dependencies) (now : Z) (w : World) : Prop :=
  hasSufficientInteraction d now (dailyChatCounts (globalState w)) = true ->
  forall last, lastInteractionTimestamp (globalState w) = Some last ->
               diffDays now last < NGAMBEK_DURATION_DAYS.

(** The sticky moods, for which [setMood] schedules no revert. *)
Definition sticky (m : Mood) : bool := Mood_eqb m NORMAL || Mood_eqb m CALM.

(** At most one revert timer is pending, and it is the one that
    [moodTimeoutId] names. *)
Definition oneTimer (h : Handlers) : Prop :=
  match timers h with
  | [] => True
  | [t] => moodTimeoutId h = Some (timerId t)
  | _ => False
  end.

(** What happens to the mood state: a call to [setMood], or a revert timer
    that comes due. *)
Inductive MoodStep (d : Dependencies) : World -> World -> Prop :=
| step_setMood (now : Z) (chatId : option Z) (newMood : Mood) (durationMs : option Z)
    (w : World) :
    MoodStep d w (setMood d now chatId newMood durationMs w)
| step_fireTimer (id : nat) (w : World) :
    MoodStep d w (fireTimer id w).

(** The retention tiers of the long-term memory: the entry is older than
    the retention of its priority. *)
Definition expired (now : Z) (e : LTMEntry) : Prop :=
  let age := now - createdAt e in
  (priority e = 100 ∧ 60 * MS_PER_DAY < age)
  ∨ (91 <= priority e <= 99 ∧ 14 * MS_PER_DAY < age)
  ∨ (priority e <= 90 ∧ 5 * MS_PER_DAY < age).

(* ===================================================================== *)
(** ** Sequences of requests and the bounds of the limiter *)
(* ===================================================================== *)

(** The requests of [qs], served one after the other for one requester. *)
Definition serveAll (d : Dependencies) (requestChatId : Z) (qs : list Request) (w : World)
  : World :=
  fold_left (fun w q => snd (serve d requestChatId q w)) qs w.

(** Every rate-limit record counts at least one request and at most the
    ceiling. *)
Definition recordsBounded (m : gmap Z RateRecord) : Prop :=
  forall id r, m !! id = Some r -> 1 <= count r <= RATE_LIMIT_MAX_REQUESTS.

(** The assistant message that a completion [aiResponse] is stored as. *)
Definition assistantMessage (a : Ambient) (requestChatId : Z) (mc : option MessageContext)
    (aiResponse : string) : HistoryMessage :=
  {| role := assistant;
     content := aiResponse;
     timestamp := completedAt a;
     chatId := requestChatId;
     contextTopic := topic (default {| topic := None |} mc);
     contextTone := "assistant_response" |}.

(* ===================================================================== *)
(** ** core/core.js: the record of an interaction *)
(* ===================================================================== *)

Definition set_lastInteractionTimestamp (t : option Z) (g : GlobalState) : GlobalState :=
  {| messageCache := messageCache g; userRequestCounts := userRequestCounts g;
     isDeeptalkMode := isDeeptalkMode g; isNgambekMode := isNgambekMode g;
     lastInteractionTimestamp := t;
     dailyChatCounts := dailyChatCounts g |}.

(** [loadedCounts && typeof loadedCounts === "object" ? loadedCounts : {}],
    for [loadedCounts = await memory.getPreference("dailyChatCounts")]. *)
Definition loadedCounts (w : World) : gmap Z Z :=
  match getPreference "dailyChatCounts" w with
  | Some (PCounts m) => m
  | _ => ∅
  end.

(** [updateInteractionStatus], run at [now] (the mutex makes its runs
    sequential).  The preference "lastInteractionTimestamp" that it saves
    holds a timestamp and is read by nothing modelled here: its value is
    returned beside the world instead of being kept in [preferences]. *)
Definition updateInteractionStatus (now : Z) (w : World) : World * Z :=
  let w := with_globalState (set_lastInteractionTimestamp (Some now) (globalState w)) w in
  let today := dayOf now in
  let counts := loadedCounts w in
  let counts := <[today := chatCount counts today + 1]> counts in
  let w := with_globalState (set_dailyChatCounts counts (globalState w)) w in
  let w := savePreference "dailyChatCounts" (PCounts (dailyChatCounts (globalState w))) w in
  (emit [Log info "interaction_status_updated"] w, now).

(** A day with chats is never later than the day [bound]. *)
Definition countsUpTo (bound : Z) (m : gmap Z Z) : Prop :=
  forall day c, m !! day = Some c -> 0 < c -> day <= bound.

(** What is recorded dates from [t] or before: the last interaction is not
    later than [t], and the days with chats, in [globalState] and in the
    saved preference, are not later than the day of the last interaction. *)
Definition recordedAt (t : Z) (w : World) : Prop :=
  (forall last, lastInteractionTimestamp (globalState w) = Some last -> last <= t)
  ∧ (forall m, m = dailyChatCounts (globalState w) ∨ m = loadedCounts w ->
       forall day c, m !! day = Some c -> 0 < c ->
         exists last, lastInteractionTimestamp (globalState w) = Some last
                      ∧ day <= dayOf last).

(** What the process does to the interaction state, with the time of the
    clock: a message is received, or the sulk is evaluated. *)
Inductive Tick :=
| Interaction (t : Z)
| Evaluation (t : Z) (r : UnitInterval) (chatId : option Z).

Definition tickTime (k : Tick) : Z :=
  match k with
  | Interaction t => t
  | Evaluation t _ _ => t
  end.

Definition runTick (d : Dependencies) (k : Tick) (w : World) : World :=
  match k with
  | Interaction t => fst (updateInteractionStatus t w)
  | Evaluation t r chatId => checkNgambekStatus d r t chatId w
  end.

Definition runTicks (d : Dependencies) (ks : list Tick) (w : World) : World :=
  fold_left (fun w k => runTick d k w) ks w.

(** The clock does not go back: the ticks come in the order of their
    times, none before [t]. *)
Fixpoint clockFrom (t : Z) (ks : list Tick) : Prop :=
  match ks with
  | [] => True
  | k :: rest => t <= tickTime k ∧ clockFrom (tickTime k) rest
  end.

(** The time of the last tick, [t] if there is none. *)
Definition lastTick (t : Z) (ks : list Tick) : Z :=
  fold_left (fun _ k => tickTime k) ks t.

(* ===================================================================== *)
(** ** data/memory.js: reading the history, and the other clean-up *)
(* ===================================================================== *)

Definition CLEANUP_INTERVAL : Z := 7 * 24 * 60 * 60 * 1000.
Definition QUERY_CACHE_TTL : Z := 5000.

(** [queryCache.history]: the cached result of [load], [None] for [null],
    and the time it was cached at. *)
Record QueryCache := { cachedData : option (list HistoryMessage); cachedAt : Z }.

(** [load], run at [now] on the collection [l]: what it returns and the
    query cache it leaves. *)
Definition load (d : Dependencies) (now : Z) (l : list HistoryMessage) (qc : QueryCache)
  : list HistoryMessage * QueryCache :=
  let fresh :=
    let recentHistory :=
      Loki.data l
        (Loki.limit MAX_HISTORY_LENGTH
           (Loki.simplesort timestamp true (historyTies d true l) l)) in
    let chronologicalHistory := rev recentHistory in
    (chronologicalHistory, {| cachedData := Some chronologicalHistory; cachedAt := now |}) in
  match cachedData qc with
  | Some cached => if now - cachedAt qc <? QUERY_CACHE_TTL then (cached, qc) else fresh
  | None => fresh
  end.

(** [addMessage] with the query cache of the module: the cache is
    invalidated when the message is inserted, and left alone when the
    message is refused. *)
Definition addMessageCached (d : Dependencies) (m : HistoryMessage) (wq : World * QueryCache)
  : World * QueryCache :=
  (addMessage d m (fst wq),
   match trim (content m) with
   | EmptyString => snd wq
   | _ => {| cachedData := None; cachedAt := cachedAt (snd wq) |}
   end).

(** [cleanupOldMessages], run at [now]: the messages older than a week
    leave the collection.  The query cache is not touched. *)
Definition cleanupOldMessages (now : Z) (l : list HistoryMessage) : list HistoryMessage :=
  let oneWeekAgo := now - CLEANUP_INTERVAL in
  List.filter (fun m => negb (timestamp m <? oneWeekAgo)) l.

(** [getLTMMemories]: [ltm.chain().simplesort("priority", true).data()] *)
Definition getLTMMemories (d : Dependencies) (ltm : list LTMEntry) : list LTMEntry :=
  Loki.data ltm (Loki.simplesort priority true (ltmTies d ltm) ltm).

(** The line feed of the template literals. *)
Definition newline : string := String (ascii_of_nat 10) EmptyString.

(** The lines of [ltmContext], numbered from [idx + 1]. *)
Fixpoint ltmLines (idx : nat) (l : list LTMEntry) : string :=
  match l with
  | [] => EmptyString
  | mem :: rest =>
      showNumber (Z.of_nat idx + 1) +++ ". " +++ ltmValue mem +++ " (Priority: "
        +++ showNumber (priority mem) +++ "/100)" +++ newline +++ ltmLines (S idx) rest
  end.

(** The memories that [generateLuminaPrompt] puts in the prompt:
    [ltmMemories.slice(0, 7)]. *)
Definition promptMemories (d : Dependencies) (ltm : list LTMEntry) : list LTMEntry :=
  firstn 7 (getLTMMemories d ltm).

(** [ltmContext] of [generateLuminaPrompt], for the collection [ltm]. *)
Definition ltmContext (d : Dependencies) (ltm : list LTMEntry) : string :=
  match getLTMMemories d ltm with
  | [] => EmptyString
  | _ => newline +++ "[Long-Term Memories]" +++ newline +++ ltmLines 0 (promptMemories d ltm)
  end.

(* ===================================================================== *)
(** * Properties *)
(* ===================================================================== *)

(** ** Traces *)

Lemma newEvents_app (w w' : World) (es : list Event) :
  trace w' = trace w ++ es -> newEvents w w' = es.
Proof.
  intros H. unfold newEvents. rewrite H.
  rewrite skipn_app, Nat.sub_diag, skipn_all. reflexivity.
Qed.

Lemma emit_nil (w : World) : emit [] w = w.
Proof. destruct w; unfold emit; simpl. rewrite app_nil_r. reflexivity. Qed.

Lemma emit_emit (es es' : list Event) (w : World) :
  emit es' (emit es w) = emit (es ++ es') w.
Proof. unfold emit; simpl. rewrite app_assoc. reflexivity. Qed.

Lemma love_emit (d : Dependencies) (p : string) (w : World) :
  (if isFeatureEnabled (flags d) "ENABLE_ROMANCE_MODE"
   then emit [AnalyzeLoveTrigger p; ResetRomanceStateIfNeeded] w
   else w) = emit (loveEvents d p) w.
Proof.
  unfold loveEvents. destruct (isFeatureEnabled _ _); [reflexivity|].
  symmetry; apply emit_nil.
Qed.

Lemma asleep_true (h : Z) :
  SLEEP_START_HOUR <= h < SLEEP_END_HOUR ->
  (SLEEP_START_HOUR <=? h) && (h <? SLEEP_END_HOUR) = true.
Proof. intros [H1 H2]. apply andb_true_iff. split; [apply Z.leb_le | apply Z.ltb_lt]; assumption. Qed.

Lemma asleep_false (h : Z) :
  ¬ (SLEEP_START_HOUR <= h < SLEEP_END_HOUR) ->
  (SLEEP_START_HOUR <=? h) && (h <? SLEEP_END_HOUR) = false.
Proof.
  intros H. apply not_true_is_false. intros E. apply H.
  apply andb_true_iff in E as [E1 E2]. apply Z.leb_le in E1. apply Z.ltb_lt in E2. lia.
Qed.

(** ** Result sets *)

Section ResultSets.
Context {A : Type}.
Implicit Types (c : list A) (rs : Loki.ResultSet).

Lemma data_app c rs rs' : Loki.data c (rs ++ rs') = Loki.data c rs ++ Loki.data c rs'.
Proof. unfold Loki.data. apply flat_map_app. Qed.

Lemma data_perm c rs rs' : Permutation rs rs' -> Permutation (Loki.data c rs) (Loki.data c rs').
Proof.
  intros H. unfold Loki.data. induction H.
  - reflexivity.
  - cbn [flat_map]. apply Permutation_app_head. assumption.
  - cbn [flat_map]. rewrite !List.app_assoc. apply Permutation_app_tail. apply Permutation_app_comm.
  - eapply perm_trans; eassumption.
Qed.

Lemma data_seq (pre c : list A) :
  Loki.data (pre ++ c) (seq (length pre) (length c)) = c.
Proof.
  revert pre. induction c as [|x c IH]; intros pre; [reflexivity|].
  cbn [length seq Loki.data flat_map]. unfold Loki.docAt at 1.
  rewrite nth_error_app2 by lia. rewrite Nat.sub_diag. cbn [nth_error app].
  f_equal. specialize (IH (pre ++ [x])). rewrite <- List.app_assoc in IH. cbn [app] in IH.
  rewrite length_app in IH. cbn [length] in IH. rewrite Nat.add_1_r in IH. exact IH.
Qed.

Lemma data_all c : Loki.data c (Loki.all c) = c.
Proof. apply (data_seq [] c). Qed.

Lemma in_data c rs (x : A) :
  In x (Loki.data c rs) <-> exists i, In i rs ∧ nth_error c i = Some x.
Proof.
  unfold Loki.data. rewrite in_flat_map. split; intros (i & Hi & Hx); exists i; (split; [exact Hi|]).
  - unfold Loki.docAt in Hx. destruct (nth_error c i); [|destruct Hx].
    destruct Hx as [<- | []]. reflexivity.
  - unfold Loki.docAt. rewrite Hx. left. reflexivity.
Qed.

Lemma length_data c rs : Loki.valid c rs -> length (Loki.data c rs) = length rs.
Proof.
  induction rs as [|i rs IH]; intros H; [reflexivity|].
  cbn [Loki.data flat_map]. rewrite length_app. fold (Loki.data c rs).
  rewrite IH by (intros j Hj; apply H; right; exact Hj).
  unfold Loki.docAt. destruct (nth_error c i) eqn:E; [reflexivity|].
  apply nth_error_None in E. specialize (H i (or_introl eq_refl)). lia.
Qed.

Lemma data_firstn c rs (n : nat) :
  Loki.valid c rs -> Loki.data c (firstn n rs) = firstn n (Loki.data c rs).
Proof.
  revert n. induction rs as [|i rs IH]; intros n H; [destruct n; reflexivity|].
  destruct n as [|n]; [reflexivity|].
  cbn [firstn Loki.data flat_map]. fold (Loki.data c rs). fold (Loki.data c (firstn n rs)).
  rewrite IH by (intros j Hj; apply H; right; exact Hj).
  unfold Loki.docAt. destruct (nth_error c i) eqn:E; [reflexivity|].
  apply nth_error_None in E. specialize (H i (or_introl eq_refl)). lia.
Qed.

Lemma filter_data (p : A -> bool) c rs :
  List.filter p (Loki.data c rs) = Loki.data c (List.filter (Loki.meets p c) rs).
Proof.
  induction rs as [|i rs IH]; [reflexivity|].
  cbn [Loki.data flat_map List.filter]. fold (Loki.data c rs).
  rewrite List.filter_app, IH. unfold Loki.docAt at 1, Loki.meets at 2.
  destruct (nth_error c i) as [x|] eqn:E; cbn [List.filter app].
  - destruct (p x); cbn [Loki.data flat_map app]; [|reflexivity].
    unfold Loki.docAt at 1. rewrite E. reflexivity.
  - reflexivity.
Qed.

Lemma data_matching (p : A -> bool) c : Loki.data c (Loki.matching p c) = List.filter p c.
Proof. unfold Loki.matching. rewrite <- filter_data, data_all. reflexivity. Qed.

Lemma valid_all c : Loki.valid c (Loki.all c).
Proof. intros i Hi. unfold Loki.all in Hi. apply in_seq in Hi. lia. Qed.

Lemma NoDup_all c : List.NoDup (Loki.all c).
Proof. unfold Loki.all. apply seq_NoDup. Qed.

Lemma listed_In rs (i : nat) : Loki.listed rs i = true <-> In i rs.
Proof.
  unfold Loki.listed. rewrite existsb_exists. split.
  - intros (j & Hj & E). apply Nat.eqb_eq in E. subst. exact Hj.
  - intros H. exists i. split; [exact H | apply Nat.eqb_refl].
Qed.

(** A result set and the positions it leaves out make up the collection. *)
Lemma split_all c rs :
  List.NoDup rs -> Loki.valid c rs ->
  Permutation (Loki.all c) (rs ++ List.filter (fun i => negb (Loki.listed rs i)) (Loki.all c)).
Proof.
  intros Hn Hv. apply Permutation.NoDup_Permutation.
  - apply NoDup_all.
  - apply List.NoDup_app; [exact Hn | apply List.NoDup_filter, NoDup_all |].
    intros i Hi Hf. apply filter_In in Hf as [_ Hf].
    apply negb_true_iff in Hf. apply (proj2 (listed_In rs i)) in Hi. congruence.
  - intros i. rewrite in_app_iff, filter_In. split.
    + intros Hi. destruct (Loki.listed rs i) eqn:E.
      * left. apply listed_In. exact E.
      * right. split; [exact Hi | reflexivity].
    + intros [Hi | [Hi _]]; [|exact Hi].
      unfold Loki.all. apply in_seq. specialize (Hv i Hi). lia.
Qed.

Lemma remove_perm c rs :
  List.NoDup rs -> Loki.valid c rs -> Permutation c (Loki.data c rs ++ Loki.remove rs c).
Proof.
  intros Hn Hv. unfold Loki.remove. rewrite <- data_app.
  rewrite <- (data_all c) at 1. apply data_perm, split_all; assumption.
Qed.

Lemma length_remove c rs :
  List.NoDup rs -> Loki.valid c rs -> length (Loki.remove rs c) = (length c - length rs)%nat.
Proof.
  intros Hn Hv. pose proof (Permutation_length (remove_perm c rs Hn Hv)) as H.
  rewrite length_app, (length_data c rs Hv) in H. lia.
Qed.

Lemma in_remove c rs (x : A) :
  In x (Loki.remove rs c) <-> exists i, ¬ In i rs ∧ nth_error c i = Some x.
Proof.
  unfold Loki.remove. rewrite in_data. split.
  - intros (i & Hi & Hx). exists i. split; [|exact Hx].
    apply filter_In in Hi as [_ Hi]. apply negb_true_iff in Hi.
    intros H. apply listed_In in H. congruence.
  - intros (i & Hi & Hx). exists i. split; [|exact Hx]. apply filter_In. split.
    + unfold Loki.all. apply in_seq. split; [lia|]. cbn.
      apply nth_error_Some. rewrite Hx. discriminate.
    + apply negb_true_iff. destruct (Loki.listed rs i) eqn:E; [|reflexivity].
      exfalso. apply Hi, listed_In, E.
Qed.

(** The documents that a removal leaves keep their order: those that meet
    a test that no removed document meets are the ones that met it before. *)
Lemma filter_remove (q : A -> bool) c rs :
  (forall i, In i rs -> Loki.meets q c i = false) ->
  List.filter q (Loki.remove rs c) = List.filter q c.
Proof.
  intros H. unfold Loki.remove.
  transitivity (List.filter q (Loki.data c (Loki.all c))); [|rewrite data_all; reflexivity].
  rewrite !filter_data. f_equal.
  induction (Loki.all c) as [|i l IH]; [reflexivity|].
  cbn [List.filter]. destruct (Loki.listed rs i) eqn:E; cbn [negb List.filter].
  - apply listed_In in E. rewrite (H i E). exact IH.
  - destruct (Loki.meets q c i); [rewrite IH|]; [reflexivity | exact IH].
Qed.

End ResultSets.

Lemma insertBy_perm (before : nat -> nat -> bool) (i : nat) (l : list nat) :
  Permutation (Loki.insertBy before i l) (i :: l).
Proof.
  induction l as [|j l IH]; cbn [Loki.insertBy]; [reflexivity|].
  destruct (before i j); [reflexivity|].
  apply perm_trans with (j :: i :: l); [apply perm_skip; exact IH | apply perm_swap].
Qed.

Lemma sortBy_perm (before : nat -> nat -> bool) (l : list nat) :
  Permutation (Loki.sortBy before l) l.
Proof.
  induction l as [|i l IH]; [reflexivity|].
  cbn [Loki.sortBy fold_right]. fold (Loki.sortBy before l).
  apply perm_trans with (i :: Loki.sortBy before l);
    [apply insertBy_perm | apply perm_skip; exact IH].
Qed.

Lemma insertBy_sorted (key tie : nat -> Z) (i : nat) (l : list nat) :
  StronglySorted (fun a b => key a <= key b) l ->
  StronglySorted (fun a b => key a <= key b) (Loki.insertBy (Loki.byKey key tie) i l).
Proof.
  induction l as [|j l IH]; intros Hs; cbn [Loki.insertBy].
  - constructor; constructor.
  - inversion Hs as [|? ? Hl Hj]; subst.
    destruct (Loki.byKey key tie i j) eqn:E.
    + constructor; [exact Hs|].
      assert (Hij : key i <= key j).
      { unfold Loki.byKey in E. apply orb_true_iff in E as [E | E].
        - apply Z.ltb_lt in E. lia.
        - apply andb_true_iff in E as [E _]. apply Z.eqb_eq in E. lia. }
      constructor; [exact Hij|].
      rewrite List.Forall_forall in *. intros y Hy. specialize (Hj y Hy). cbn in Hj. lia.
    + constructor; [apply IH; exact Hl|].
      apply (Permutation_Forall (Permutation_sym (insertBy_perm _ i l))).
      constructor; [|exact Hj].
      unfold Loki.byKey in E. apply orb_false_iff in E as [E _]. apply Z.ltb_ge in E. exact E.
Qed.

Lemma sortBy_sorted (key tie : nat -> Z) (l : list nat) :
  StronglySorted (fun a b => key a <= key b) (Loki.sortBy (Loki.byKey key tie) l).
Proof.
  induction l as [|i l IH]; [constructor|].
  cbn [Loki.sortBy fold_right]. apply insertBy_sorted. exact IH.
Qed.

Lemma data_sorted {A : Type} (R : A -> A -> Prop) (R' : nat -> nat -> Prop) (c : list A)
    (rs : Loki.ResultSet) :
  (forall i j x y, nth_error c i = Some x -> nth_error c j = Some y -> R' i j -> R x y) ->
  StronglySorted R' rs -> StronglySorted R (Loki.data c rs).
Proof.
  intros H Hs. induction Hs as [|i rs Hs IH Hi]; [constructor|].
  cbn [Loki.data flat_map]. fold (Loki.data c rs). unfold Loki.docAt at 1.
  destruct (nth_error c i) as [x|] eqn:E; [|exact IH].
  cbn [app]. constructor; [exact IH|].
  rewrite List.Forall_forall in *. intros y Hy. apply in_data in Hy as (j & Hj & Ey).
  apply (H i j x y E Ey). apply Hi. exact Hj.
Qed.

Lemma simplesort_perm {A : Type} (key : A -> Z) (desc : bool) (tie : nat -> Z) (c : list A) :
  Permutation (Loki.simplesort key desc tie c) (Loki.all c).
Proof. apply sortBy_perm. Qed.

Lemma simplesort_data {A : Type} (key : A -> Z) (desc : bool) (tie : nat -> Z) (c : list A) :
  Permutation (Loki.data c (Loki.simplesort key desc tie c)) c.
Proof.
  apply perm_trans with (Loki.data c (Loki.all c)); [|rewrite data_all; reflexivity].
  apply data_perm, simplesort_perm.
Qed.

Lemma simplesort_sorted {A : Type} (key : A -> Z) (desc : bool) (tie : nat -> Z) (c : list A) :
  StronglySorted (fun x y => if desc then key y <= key x else key x <= key y)
    (Loki.data c (Loki.simplesort key desc tie c)).
Proof.
  unfold Loki.simplesort.
  eapply data_sorted; [|apply sortBy_sorted].
  intros i j x y Ei Ej. cbn beta. unfold Loki.keyAt. rewrite Ei, Ej.
  destruct desc; lia.
Qed.

Lemma find_perm {A : Type} (p : A -> bool) (order : nat -> Z) (c : list A) :
  Permutation (Loki.find p order c) (Loki.matching p c).
Proof. apply sortBy_perm. Qed.

Lemma find_data {A : Type} (p : A -> bool) (order : nat -> Z) (c : list A) :
  Permutation (Loki.data c (Loki.find p order c)) (List.filter p c).
Proof. rewrite <- data_matching. apply data_perm, find_perm. Qed.

(** ** The sleep window *)

(** C7. In the sleep window, from 0 up to but excluding 4 o'clock in
    Jakarta, [generateAIResponse] returns the sleep reply; the cache, the
    rate-limit records, the mood state and the memory are as they were, and
    the only calls made are those to [loveState] that open the function:
    no cache lookup or write, no read or update of a rate-limit record, no
    prompt assembly and no inference call. *)
Theorem sleep_window_short_circuits (d : Dependencies) (a : Ambient) (p : string)
    (requestChatId : Z) (mc : option MessageContext) (USER_NAME : string)
    (img : option string) (w : World) :
  SLEEP_START_HOUR <= jakartaHour a < SLEEP_END_HOUR ->
  let out := generateAIResponse d a p requestChatId mc USER_NAME img w in
  fst out = Resolved (sleepReply d USER_NAME)
  ∧ globalState (snd out) = globalState w
  ∧ handlers (snd out) = handlers w
  ∧ memory (snd out) = memory w
  ∧ newEvents w (snd out) = loveEvents d p
  ∧ inferenceCalls (newEvents w (snd out)) = [].
Proof.
  intros Hs out. subst out. unfold generateAIResponse.
  rewrite love_emit, (asleep_true _ Hs). cbn [fst snd].
  assert (E : newEvents w (emit (loveEvents d p) w) = loveEvents d p)
    by (apply newEvents_app; reflexivity).
  repeat split; try assumption.
  rewrite E. unfold loveEvents. destruct (isFeatureEnabled _ _); reflexivity.
Qed.

Lemma sleep_window_short_circuits_witness :
  fst (generateAIResponse Sample.repository
         {| now := 0; jakartaHour := 2; systemPrompt := "You are Lumina.";
            completion := Responded (Some "Baiklah."%string); completedAt := 900 |}
         "halo" Sample.requester None "Tuan" None Sample.world)
  = Resolved "Zzz... Lumina sedang istirahat, Tuan. Kita lanjutkan nanti ya! -_-".
Proof.
  refine (proj1 (sleep_window_short_circuits Sample.repository _ _ _ _ _ _ _ _)).
  unfold SLEEP_START_HOUR, SLEEP_END_HOUR; cbn; lia.
Defined.

(** ** Prompt assembly *)

Lemma repository_has_no_accessor (d : Dependencies) :
  wiredAsRepository d -> hasMember d "getInMemoryHistory" = false.
Proof. unfold wiredAsRepository, hasMember. intros ->. reflexivity. Qed.

(** When the object [memory] has no accessor [getInMemoryHistory], a call
    made while Lumina is awake is rejected with the error of
    [generateLuminaPrompt], after the calls to [loveState] and before
    anything else. *)
Lemma serve_unassembled (d : Dependencies) (id : Z) (q : Request) (w : World) :
  hasMember d "getInMemoryHistory" = false ->
  awake q ->
  serve d id q w
  = (Rejected (TypeError "memory.getInMemoryHistory is not a function"),
     emit (loveEvents d (prompt q) ++ [AssemblePrompt]) w).
Proof.
  intros Hm Hawake. unfold serve, generateAIResponse.
  rewrite love_emit, (asleep_false _ Hawake). unfold generateLuminaPrompt. rewrite Hm.
  rewrite emit_emit. reflexivity.
Qed.

(** ** The limiter *)

Lemma serve_at_limiter (d : Dependencies) (requestChatId : Z) (q : Request) (w : World) :
  reachesLimiter d q w ->
  serve d requestChatId q w =
    let stats := userRequestCounts (globalState w) !! requestChatId in
    let w1 := emit (gateEvents d requestChatId q w) w in
    if throttled (now (ambient q)) stats
    then (Resolved (busyReply d (userName q)), w1)
    else resolved
           (requestCompletion d (ambient q) (prompt q) requestChatId
              (default {| topic := None |} (messageContext q)) (userName q) (keyOf d q w)
              (setUserStats requestChatId (nextRecord (now (ambient q)) stats) w1)).
Proof.
  intros (Hasm & Hawake & Hmiss). unfold serve, generateAIResponse.
  rewrite love_emit, (asleep_false _ Hawake).
  unfold generateLuminaPrompt. unfold assembles in Hasm. rewrite Hasm.
  change (cacheKey d (prompt q) (default {| topic := None |} (messageContext q))
            (imageDescription q) (emit [AssemblePrompt] (emit (loveEvents d (prompt q)) w)))
    with (keyOf d q w).
  cbn [globalState emit]. rewrite Hmiss.
  rewrite !emit_emit. cbn [app].
  unfold gateEvents, throttled, nextRecord. cbn zeta.
  destruct (userRequestCounts (globalState w) !! requestChatId) as [userStats|]; [|reflexivity].
  destruct ((now (ambient q) - lastCalled userStats <? RATE_LIMIT_WINDOW_MS)
            && (count userStats >=? RATE_LIMIT_MAX_REQUESTS)); [reflexivity|].
  destruct (now (ambient q) - lastCalled userStats >=? RATE_LIMIT_WINDOW_MS); reflexivity.
Qed.

Lemma addMessage_frame (d : Dependencies) (m : HistoryMessage) (w : World) :
  globalState (addMessage d m w) = globalState w
  ∧ handlers (addMessage d m w) = handlers w
  ∧ preferences (memory (addMessage d m w)) = preferences (memory w)
  ∧ trace (addMessage d m w) = trace w ++ [AddMessage m].
Proof. unfold addMessage. destruct (trim (content m)); repeat split. Qed.

(** What the [try] block does, whatever the service answers: one inference
    request, and the rate-limit records, the mood state and the preferences
    as they were. *)
Lemma requestCompletion_frame (d : Dependencies) (a : Ambient) (p : string) (id : Z)
    (mc : MessageContext) (U key : string) (w : World) :
  let out := requestCompletion d a p id mc U key w in
  userRequestCounts (globalState (snd out)) = userRequestCounts (globalState w)
  ∧ handlers (snd out) = handlers w
  ∧ ∃ es, trace (snd out) = trace w ++ es ∧ inferenceCalls es = [(systemPrompt a, p)].
Proof.
  unfold requestCompletion.
  destruct (completion a) as [e|c]; cbn zeta.
  - repeat split. eexists; split.
    + cbn [snd trace emit]. rewrite <- app_assoc. reflexivity.
    + reflexivity.
  - destruct (truthy c); cbn [fst snd].
    + match goal with |- context [addMessage d ?m ?w0] =>
        destruct (addMessage_frame d m w0) as (Hg & Hh & _ & Ht) end.
      unfold callManageCache.
      cbn [globalState handlers trace emit with_globalState set_messageCache userRequestCounts].
      rewrite Hg, Hh, Ht. cbn [globalState handlers trace emit].
      repeat split. eexists; split.
      * rewrite <- !app_assoc. reflexivity.
      * reflexivity.
    + repeat split. eexists; split.
      * cbn [trace emit]. rewrite <- app_assoc. reflexivity.
      * reflexivity.
Qed.

(** What the [try] block does when the inference call fails. *)
Lemma requestCompletion_failed (d : Dependencies) (a : Ambient) (p : string) (id : Z)
    (mc : MessageContext) (U key : string) (w : World) :
  failed (completion a) ->
  requestCompletion d a p id mc U key w =
    (fallbackReply d U (completion a),
     emit ([Log info "groq_api_request_start"; ChatCompletion (systemPrompt a) p]
           ++ match completion a with
              | Threw e => [Log error "groq_api_call_error"; CaptureException e]
              | Responded _ => [Log error "groq_api_empty_response"]
              end) w).
Proof.
  unfold requestCompletion, failed, fallbackReply.
  destruct (completion a) as [e|c]; intros H.
  - rewrite emit_emit. reflexivity.
  - rewrite H, emit_emit. reflexivity.
Qed.

(** After a request that reached the limiter, the record of the requester is
    the one it had if the request was refused, and [nextRecord] otherwise;
    the records of the other requesters are as they were. *)
Lemma serve_records (d : Dependencies) (id : Z) (q : Request) (w : World) :
  reachesLimiter d q w ->
  let stats := userRequestCounts (globalState w) !! id in
  userRequestCounts (globalState (snd (serve d id q w))) =
    if throttled (now (ambient q)) stats
    then userRequestCounts (globalState w)
    else <[id := nextRecord (now (ambient q)) stats]> (userRequestCounts (globalState w)).
Proof.
  intros H. rewrite (serve_at_limiter d id q w H). cbn zeta.
  destruct (throttled _ _); [reflexivity|]. unfold resolved. cbn [snd].
  match goal with |- context [requestCompletion ?d ?a ?p ?i ?m ?u ?k ?w0] =>
    destruct (requestCompletion_frame d a p i m u k w0) as (Hr & _) end.
  rewrite Hr. reflexivity.
Qed.

(** An admitted request is sent to the inference service, once. *)
Lemma serve_admitted_calls (d : Dependencies) (id : Z) (q : Request) (w : World) :
  reachesLimiter d q w ->
  throttled (now (ambient q)) (userRequestCounts (globalState w) !! id) = false ->
  inferenceCalls (newEvents w (snd (serve d id q w)))
  = [(systemPrompt (ambient q), prompt q)].
Proof.
  intros H Hn. rewrite (serve_at_limiter d id q w H). cbn zeta. rewrite Hn.
  unfold resolved. cbn [snd].
  match goal with |- context [requestCompletion ?d ?a ?p ?i ?m ?u ?k ?w0] =>
    destruct (requestCompletion_frame d a p i m u k w0) as (_ & _ & es & Ht & Hi) end.
  rewrite (newEvents_app w _ (gateEvents d id q w ++ [RateSet id
             (nextRecord (now (ambient q)) (userRequestCounts (globalState w) !! id))] ++ es)).
  - unfold inferenceCalls in *. rewrite !flat_map_app, Hi.
    unfold gateEvents, loveEvents. destruct (isFeatureEnabled _ _); reflexivity.
  - rewrite Ht. cbn [trace setUserStats emit with_globalState].
    rewrite <- !app_assoc. reflexivity.
Qed.

(** A refused request: the reply, and nothing touched. *)
Lemma serve_throttled (d : Dependencies) (id : Z) (q : Request) (w : World) :
  reachesLimiter d q w ->
  throttled (now (ambient q)) (userRequestCounts (globalState w) !! id) = true ->
  serve d id q w = (Resolved (busyReply d (userName q)), emit (gateEvents d id q w) w).
Proof.
  intros H Ht. rewrite (serve_at_limiter d id q w H). cbn zeta. rewrite Ht. reflexivity.
Qed.

Lemma gateEvents_no_inference (d : Dependencies) (id : Z) (q : Request) (w : World) :
  inferenceCalls (gateEvents d id q w) = [].
Proof.
  unfold gateEvents, loveEvents. destruct (isFeatureEnabled _ _); reflexivity.
Qed.

Lemma throttled_true (now : Z) (r : RateRecord) :
  now - lastCalled r < RATE_LIMIT_WINDOW_MS ->
  count r >= RATE_LIMIT_MAX_REQUESTS ->
  throttled now (Some r) = true.
Proof.
  intros H1 H2. unfold throttled. apply andb_true_iff. split.
  - apply Z.ltb_lt; assumption.
  - rewrite Z.geb_leb. apply Z.leb_le. lia.
Qed.

Lemma throttled_below (now : Z) (r : RateRecord) :
  count r < RATE_LIMIT_MAX_REQUESTS -> throttled now (Some r) = false.
Proof.
  intros H. unfold throttled. apply andb_false_iff. right.
  rewrite Z.geb_leb. apply Z.leb_gt. assumption.
Qed.

Lemma throttled_elapsed (now : Z) (stats : option RateRecord) :
  (forall r, stats = Some r -> RATE_LIMIT_WINDOW_MS <= now - lastCalled r) ->
  throttled now stats = false
  ∧ nextRecord now stats = {| count := 1; lastCalled := now |}.
Proof.
  intros H. destruct stats as [r|]; [|split; reflexivity].
  specialize (H r eq_refl). unfold throttled, nextRecord. split.
  - apply andb_false_iff. left. apply Z.ltb_ge. assumption.
  - rewrite Z.geb_leb. replace (_ <=? _) with true; [reflexivity|].
    symmetry. apply Z.leb_le. assumption.
Qed.

Lemma nextRecord_running (now : Z) (r : RateRecord) :
  now - lastCalled r < RATE_LIMIT_WINDOW_MS ->
  nextRecord now (Some r) = {| count := count r + 1; lastCalled := now |}.
Proof.
  intros H. unfold nextRecord. rewrite Z.geb_leb.
  replace (_ <=? _) with false; [reflexivity|]. symmetry. apply Z.leb_gt. assumption.
Qed.

(** ** Feature flags *)

(** A flag that the table does not list reads as off, unless the table
    inherits a property of that name. *)
Lemma isFeatureEnabled_unlisted :
  isFeatureEnabled featureFlagsConfig "ENABLE_NGAMBEK_MODE" = true
  ∧ isFeatureEnabled featureFlagsConfig "ENABLE_SULK_MODE" = false
  ∧ isFeatureEnabled featureFlagsConfig "toString" = true.
Proof. repeat split. Qed.

(** ** Texts *)

Lemma append_nil (b : string) : EmptyString +++ b = b.
Proof. reflexivity. Qed.

Lemma append_cons (c : ascii) (a b : string) : String c a +++ b = String c (a +++ b).
Proof. reflexivity. Qed.

Lemma append_assoc (a b c : string) : (a +++ b) +++ c = a +++ (b +++ c).
Proof.
  induction a as [|x a IH]; [reflexivity|].
  rewrite !append_cons, IH. reflexivity.
Qed.

Lemma append_cancel_l (a x y : string) : a +++ x = a +++ y -> x = y.
Proof.
  induction a as [|c a IH]; intros H; [exact H|].
  rewrite !append_cons in H. injection H as H. apply IH; assumption.
Qed.

(** The fallback replies are not the empty text. *)
Lemma fallbackReply_not_empty (d : Dependencies) (U : string) (c : Completion) :
  fallbackReply d U c <> EmptyString.
Proof.
  destruct c; unfold fallbackReply, technicalReply, confusedReply;
    rewrite append_cons; discriminate.
Qed.

(** ** A refused request *)



(** X24. As core/core.js wires the functions, no call made while Lumina
    is awake gets an answer: the object [memory] is the module
    data/memory.js, which exports no [getInMemoryHistory], so that
    [generateLuminaPrompt] throws and the promise of [generateAIResponse]
    is rejected, before the cache is looked up, a rate-limit record is
    read and the inference service is called.  Nothing of the shared state
    changes. *)
Theorem awake_call_is_rejected_as_wired (d : Dependencies) (id : Z) (q : Request)
    (w : World) :
  wiredAsRepository d ->
  awake q ->
  let out := serve d id q w in
  fst out = Rejected (TypeError "memory.getInMemoryHistory is not a function")
  ∧ globalState (snd out) = globalState w
  ∧ handlers (snd out) = handlers w
  ∧ memory (snd out) = memory w
  ∧ newEvents w (snd out) = loveEvents d (prompt q) ++ [AssemblePrompt]
  ∧ inferenceCalls (newEvents w (snd out)) = [].
Proof.
  intros Hw Ha out. subst out.
  rewrite (serve_unassembled d id q w (repository_has_no_accessor d Hw) Ha). cbn [fst snd].
  rewrite (newEvents_app w _ (loveEvents d (prompt q) ++ [AssemblePrompt])) by reflexivity.
  repeat split. unfold inferenceCalls, loveEvents. rewrite flat_map_app.
  destruct (isFeatureEnabled _ _); reflexivity.
Qed.

Lemma awake_call_is_rejected_as_wired_witness :
  let out := serve Sample.repository Sample.requester
               (Sample.request 0 10 "halo" (Responded (Some "Baiklah."%string)))
               Sample.world in
  fst out = Rejected (TypeError "memory.getInMemoryHistory is not a function")
  ∧ globalState (snd out) = globalState Sample.world.
Proof.
  intros out.
  destruct (awake_call_is_rejected_as_wired Sample.repository Sample.requester
              (Sample.request 0 10 "halo" (Responded (Some "Baiklah."%string)))
              Sample.world) as (H1 & H2 & _).
  - reflexivity.
  - unfold awake, SLEEP_START_HOUR, SLEEP_END_HOUR; cbn; lia.
  - split; [exact H1 | exact H2].
Defined.

(** X25. Whatever object [memory] the functions are given, a request
    made while Lumina is awake, with no cached answer, by a requester
    whose record is at the ceiling inside its window, leaves the record as
    it is: the count is not incremented and the timestamp is not advanced,
    no record is written, nothing else of the shared state changes and no
    inference call is made.  The promise resolves with the refusal when
    the prompt could be assembled, and is rejected otherwise. *)
Theorem refused_request_leaves_record (d : Dependencies) (id : Z) (q : Request) (w : World)
    (userStats : RateRecord) :
  awake q ->
  assoc (keyOf d q w) (messageCache (globalState w)) = None ->
  userRequestCounts (globalState w) !! id = Some userStats ->
  now (ambient q) - lastCalled userStats < RATE_LIMIT_WINDOW_MS ->
  count userStats >= RATE_LIMIT_MAX_REQUESTS ->
  let out := serve d id q w in
  fst out = (if hasMember d "getInMemoryHistory"
             then Resolved (busyReply d (userName q))
             else Rejected (TypeError "memory.getInMemoryHistory is not a function"))
  ∧ userRequestCounts (globalState (snd out)) !! id = Some userStats
  ∧ globalState (snd out) = globalState w
  ∧ memory (snd out) = memory w
  ∧ (forall r, ¬ In (RateSet id r) (newEvents w (snd out)))
  ∧ inferenceCalls (newEvents w (snd out)) = [].
Proof.
  intros Ha Hmiss Hs Hw Hc out. subst out.
  destruct (hasMember d "getInMemoryHistory") eqn:Hm.
  - assert (Hr : reachesLimiter d q w) by (split; [exact Hm | split; assumption]).
    rewrite (serve_throttled d id q w Hr)
      by (rewrite Hs; apply throttled_true; assumption).
    cbn [fst snd]. rewrite (newEvents_app w _ (gateEvents d id q w)) by reflexivity.
    repeat split; try assumption.
    + intros r. unfold gateEvents, loveEvents.
      destruct (isFeatureEnabled _ _); cbn [app In]; intuition discriminate.
    + apply gateEvents_no_inference.
  - rewrite (serve_unassembled d id q w Hm Ha). cbn [fst snd].
    rewrite (newEvents_app w _ (loveEvents d (prompt q) ++ [AssemblePrompt])) by reflexivity.
    repeat split; try assumption.
    + intros r. unfold loveEvents.
      destruct (isFeatureEnabled _ _); cbn [app In]; intuition discriminate.
    + unfold inferenceCalls, loveEvents. rewrite flat_map_app.
      destruct (isFeatureEnabled _ _); reflexivity.
Qed.

Lemma refused_request_leaves_record_witness :
  let w := snd (serve Sample.deps Sample.requester
                  (Sample.request 2000 10 "c" (Responded (Some "C"%string)))
               (snd (serve Sample.deps Sample.requester
                  (Sample.request 1000 10 "b" (Responded (Some "B"%string)))
               (snd (serve Sample.deps Sample.requester
                  (Sample.request 0 10 "a" (Responded (Some "A"%string))) Sample.world))))) in
  let out := serve Sample.deps Sample.requester
               (Sample.request 3000 10 "d" (Responded (Some "D"%string))) w in
  fst out = Resolved "Lumina lagi sibuk, Tuan. Mohon sabar ya! >:("
  ∧ userRequestCounts (globalState (snd out)) !! Sample.requester
    = Some {| count := 3; lastCalled := 2000 |}.
Proof.
  intros w out.
  destruct (refused_request_leaves_record Sample.deps Sample.requester
              (Sample.request 3000 10 "d" (Responded (Some "D"%string))) w
              {| count := 3; lastCalled := 2000 |}) as (H1 & H2 & _).
  - unfold awake, SLEEP_START_HOUR, SLEEP_END_HOUR; cbn; lia.
  - vm_compute; reflexivity.
  - vm_compute; reflexivity.
  - vm_compute; reflexivity.
  - vm_compute; discriminate.
  - split; [exact H1 | exact H2].
Defined.

(** ** Failure of the inference call *)

(** X26. When the inference call throws, or answers without content
    (a missing content or the empty text), the caller gets no answer of
    the service, and nothing is written to the response cache or appended
    to the history.  When the prompt could be assembled,
    [generateAIResponse] returns the fallback reply of that failure, a
    text fixed by the user's name and the catalogue and not by the error;
    it logs an error event and reports the thrown error to the
    error-tracking sink: the events of the call are those up to the
    limiter, the charge of the attempt, the request, the error log and,
    for a thrown error, its report.  With the object [memory] of the
    repository the call is rejected before the service is called. *)
Theorem failed_inference_falls_back (d : Dependencies) (id : Z) (q : Request) (w : World) :
  awake q ->
  assoc (keyOf d q w) (messageCache (globalState w)) = None ->
  throttled (now (ambient q)) (userRequestCounts (globalState w) !! id) = false ->
  failed (completion (ambient q)) ->
  let out := serve d id q w in
  fst out = (if hasMember d "getInMemoryHistory"
             then Resolved (fallbackReply d (userName q) (completion (ambient q)))
             else Rejected (TypeError "memory.getInMemoryHistory is not a function"))
  ∧ messageCache (globalState (snd out)) = messageCache (globalState w)
  ∧ memory (snd out) = memory w
  ∧ newEvents w (snd out) =
      (if hasMember d "getInMemoryHistory"
       then gateEvents d id q w
            ++ [RateSet id (nextRecord (now (ambient q))
                              (userRequestCounts (globalState w) !! id));
                Log info "groq_api_request_start";
                ChatCompletion (systemPrompt (ambient q)) (prompt q)]
            ++ match completion (ambient q) with
               | Threw e => [Log error "groq_api_call_error"; CaptureException e]
               | Responded _ => [Log error "groq_api_empty_response"]
               end
       else loveEvents d (prompt q) ++ [AssemblePrompt])
  ∧ (forall m, ¬ In (AddMessage m) (newEvents w (snd out)))
  ∧ (forall k v, ¬ In (ManageCache k v) (newEvents w (snd out))).
Proof.
  intros Ha Hmiss Ht Hf out. subst out.
  destruct (hasMember d "getInMemoryHistory") eqn:Hm.
  - assert (Hr : reachesLimiter d q w) by (split; [exact Hm | split; assumption]).
    rewrite (serve_at_limiter d id q w Hr). cbn zeta. rewrite Ht.
    rewrite (requestCompletion_failed _ _ _ _ _ _ _ _ Hf). unfold resolved. cbn [fst snd].
    match goal with |- context [newEvents w ?w'] =>
      assert (E : newEvents w w' =
        gateEvents d id q w
        ++ [RateSet id (nextRecord (now (ambient q))
                          (userRequestCounts (globalState w) !! id));
            Log info "groq_api_request_start";
            ChatCompletion (systemPrompt (ambient q)) (prompt q)]
        ++ match completion (ambient q) with
           | Threw e => [Log error "groq_api_call_error"; CaptureException e]
           | Responded _ => [Log error "groq_api_empty_response"]
           end) end.
    { apply newEvents_app. cbn [trace emit setUserStats with_globalState].
      rewrite <- !app_assoc. reflexivity. }
    rewrite E. repeat split.
    + intros m. unfold gateEvents, loveEvents.
      destruct (isFeatureEnabled _ _), (completion (ambient q));
        cbn [app In]; intuition discriminate.
    + intros k v. unfold gateEvents, loveEvents.
      destruct (isFeatureEnabled _ _), (completion (ambient q));
        cbn [app In]; intuition discriminate.
  - rewrite (serve_unassembled d id q w Hm Ha). cbn [fst snd].
    rewrite (newEvents_app w _ (loveEvents d (prompt q) ++ [AssemblePrompt])) by reflexivity.
    repeat split.
    + intros m. unfold loveEvents.
      destruct (isFeatureEnabled _ _); cbn [app In]; intuition discriminate.
    + intros k v. unfold loveEvents.
      destruct (isFeatureEnabled _ _); cbn [app In]; intuition discriminate.
Qed.

Lemma failed_inference_falls_back_witness :
  let thrown := Sample.request 0 10 "halo" (Threw {| message := "ECONNRESET" |}) in
  let empty := Sample.request 0 10 "halo" (Responded None) in
  fst (serve Sample.deps Sample.requester thrown Sample.world)
  = Resolved "Maaf, Tuan. Lumina lagi ada gangguan teknis. :("
  ∧ fst (serve Sample.deps Sample.requester empty Sample.world)
    = Resolved "Maaf, Tuan. Lumina lagi bingung nih, coba tanya lagi dengan cara lain ya. :("
  ∧ fst (serve Sample.repository Sample.requester thrown Sample.world)
    = Rejected (TypeError "memory.getInMemoryHistory is not a function")
  ∧ messageCache (globalState (snd (serve Sample.deps Sample.requester thrown Sample.world)))
    = [].
Proof.
  intros thrown empty.
  assert (A : forall c, awake (Sample.request 0 10 "halo" c))
    by (intros c; unfold awake, SLEEP_START_HOUR, SLEEP_END_HOUR; cbn; lia).
  destruct (failed_inference_falls_back Sample.deps Sample.requester thrown Sample.world
              (A _) eq_refl eq_refl I) as (H1 & H2 & _).
  destruct (failed_inference_falls_back Sample.deps Sample.requester empty Sample.world
              (A _) eq_refl eq_refl eq_refl) as (H3 & _).
  destruct (failed_inference_falls_back Sample.repository Sample.requester thrown
              Sample.world (A _) eq_refl eq_refl I) as (H4 & _).
  split; [exact H1 | split; [exact H3 | split; [exact H4 | exact H2]]].
Defined.

(** A text of white space only trims to the empty text. *)
Lemma trim_blank (s : string) : blank s = true -> trim s = EmptyString.
Proof.
  unfold trim, blank. destruct (trimStart s); [reflexivity | discriminate].
Qed.

(** C3. The code against the specification.  A completion whose content is white
    space only is an empty response for which the caller does not get the
    fallback reply.  When the prompt could be assembled, the content is
    truthy, so the success branch is taken, and the empty text that
    [trim] leaves is what the caller gets and what is written to the
    response cache under the key of the request; no error is logged, and
    only [addMessage] refuses the text, so that the history stays as it
    was.  With the object [memory] of the repository the call does not
    get that far: the promise is rejected with the [TypeError] of
    [generateLuminaPrompt], a raw error instead of the fallback reply. *)
Theorem blank_completion_is_returned_and_cached (d : Dependencies) (id : Z) (q : Request)
    (w : World) (c : string) :
  awake q ->
  assoc (keyOf d q w) (messageCache (globalState w)) = None ->
  throttled (now (ambient q)) (userRequestCounts (globalState w) !! id) = false ->
  completion (ambient q) = Responded (Some c) ->
  c <> EmptyString ->
  blank c = true ->
  let out := serve d id q w in
  fst out = (if hasMember d "getInMemoryHistory"
             then Resolved EmptyString
             else Rejected (TypeError "memory.getInMemoryHistory is not a function"))
  ∧ fst out <> Resolved (fallbackReply d (userName q) (completion (ambient q)))
  ∧ messageCache (globalState (snd out))
    = (if hasMember d "getInMemoryHistory"
       then manageCache d (messageCache (globalState w)) (keyOf d q w) EmptyString
       else messageCache (globalState w))
  ∧ history (memory (snd out)) = history (memory w)
  ∧ newEvents w (snd out) =
      (if hasMember d "getInMemoryHistory"
       then gateEvents d id q w
            ++ [RateSet id (nextRecord (now (ambient q))
                              (userRequestCounts (globalState w) !! id));
                Log info "groq_api_request_start";
                ChatCompletion (systemPrompt (ambient q)) (prompt q);
                AddMessage (assistantMessage (ambient q) id (messageContext q) EmptyString);
                ManageCache (keyOf d q w) EmptyString]
       else loveEvents d (prompt q) ++ [AssemblePrompt]).
Proof.
  intros Ha Hmiss Ht Hc Hne Hb out. subst out.
  destruct (hasMember d "getInMemoryHistory") eqn:Hm.
  - assert (Hr : reachesLimiter d q w) by (split; [exact Hm | split; assumption]).
    rewrite (serve_at_limiter d id q w Hr). cbn zeta. rewrite Ht.
    unfold requestCompletion, resolved. rewrite Hc.
    assert (Htruthy : truthy (Some c) = true) by (destruct c; [congruence | reflexivity]).
    rewrite Htruthy. change (default EmptyString (Some c)) with c.
    rewrite (trim_blank c Hb). cbn [fst snd].
    unfold addMessage. cbn [content]. change (trim EmptyString) with EmptyString. cbv iota.
    unfold callManageCache. cbn [globalState memory history trace emit with_globalState
      set_messageCache messageCache setUserStats set_userRequestCounts].
    split; [reflexivity|]. split.
    { intros E. injection E as E. symmetry in E.
      exact (fallbackReply_not_empty d (userName q) (Responded (Some c)) E). }
    split; [reflexivity|]. split; [reflexivity|].
    apply newEvents_app. cbn [trace emit setUserStats with_globalState].
    unfold assistantMessage. rewrite <- !app_assoc. reflexivity.
  - rewrite (serve_unassembled d id q w Hm Ha). cbn [fst snd].
    rewrite (newEvents_app w _ (loveEvents d (prompt q) ++ [AssemblePrompt])) by reflexivity.
    repeat split. discriminate.
Qed.

Lemma blank_completion_is_returned_and_cached_witness :
  let spaces := Sample.request 0 10 "halo" (Responded (Some "   "%string)) in
  let nbsp :=
    Sample.request 0 10 "halo"
      (Responded (Some (String (ascii_of_nat 194) (String (ascii_of_nat 160) EmptyString)))) in
  let out := serve Sample.deps Sample.requester spaces Sample.world in
  fst out = Resolved EmptyString
  ∧ messageCache (globalState (snd out))
    = [(keyOf Sample.deps spaces Sample.world, EmptyString)]
  ∧ fst (serve Sample.deps Sample.requester nbsp Sample.world) = Resolved EmptyString
  ∧ fst (serve Sample.repository Sample.requester spaces Sample.world)
    = Rejected (TypeError "memory.getInMemoryHistory is not a function").
Proof.
  intros spaces nbsp out.
  assert (A : forall c, awake (Sample.request 0 10 "halo" c))
    by (intros c; unfold awake, SLEEP_START_HOUR, SLEEP_END_HOUR; cbn; lia).
  destruct (blank_completion_is_returned_and_cached Sample.deps Sample.requester spaces
              Sample.world "   " (A _) eq_refl eq_refl eq_refl) as (H1 & _ & H3 & _).
  { discriminate. }
  { reflexivity. }
  destruct (blank_completion_is_returned_and_cached Sample.deps Sample.requester nbsp
              Sample.world (String (ascii_of_nat 194) (String (ascii_of_nat 160) EmptyString))
              (A _) eq_refl eq_refl eq_refl) as (H4 & _).
  { discriminate. }
  { reflexivity. }
  destruct (blank_completion_is_returned_and_cached Sample.repository Sample.requester
              spaces Sample.world "   " (A _) eq_refl eq_refl eq_refl) as (H5 & _).
  { discriminate. }
  { reflexivity. }
  split; [exact H1 | split; [exact H3 | split; [exact H4 | exact H5]]].
Defined.
(** ** The rate-limit window *)

(** The window is not the 20 s that follow the first request of a burst:
    every admitted request restarts it.  After requests at 0 s, 9 s and
    18 s, the request at 19 s, the fourth within 20 s, is refused; and the
    request at 21 s, made after the 20 s that began with the first
    request have elapsed, is refused as well, the count staying at 3, for
    it comes 3 s after the last admitted request. *)
Lemma window_restarts_with_every_admitted_request :
  let q := fun t text => Sample.request t 10 text (Responded (Some "Baiklah."%string)) in
  let w3 := snd (serve Sample.deps Sample.requester (q 18000 "c"%string)
              (snd (serve Sample.deps Sample.requester (q 9000 "b"%string)
                 (snd (serve Sample.deps Sample.requester (q 0 "a"%string) Sample.world))))) in
  let w4 := snd (serve Sample.deps Sample.requester (q 19000 "d"%string) w3) in
  let out := serve Sample.deps Sample.requester (q 21000 "e"%string) w4 in
  RATE_LIMIT_WINDOW_MS <= 21000 - 0
  ∧ fst (serve Sample.deps Sample.requester (q 19000 "d"%string) w3)
    = Resolved "Lumina lagi sibuk, Tuan. Mohon sabar ya! >:("
  ∧ fst out = Resolved "Lumina lagi sibuk, Tuan. Mohon sabar ya! >:("
  ∧ userRequestCounts (globalState (snd out)) !! Sample.requester
    = Some {| count := 3; lastCalled := 18000 |}
  ∧ inferenceCalls (newEvents w4 (snd out)) = [].
Proof.
  intros q w3 w4 out. split; [unfold RATE_LIMIT_WINDOW_MS; lia|].
  vm_compute. repeat split.
Qed.

(** C1, as the code has it.  Of the calls that reach the limiter: a
    requester that opens a window (it has no record, or the window has
    elapsed since the timestamp of its record) and issues four requests
    within the window of 20 s has the fourth refused at once: the refusal
    is returned, no inference call is made and nothing is queued or
    changed.  A request made once the window has elapsed since the
    timestamp of the record, which is the time of the last admitted
    request, is admitted: it is sent to the inference service and the
    record is reset to a count of 1 at the time of that request. *)
Theorem burst_refused_then_window_reset (d : Dependencies) (id : Z) (w0 : World)
    (q1 q2 q3 q4 q5 : Request) :
  let t := fun q => now (ambient q) in
  let w1 := snd (serve d id q1 w0) in
  let w2 := snd (serve d id q2 w1) in
  let w3 := snd (serve d id q3 w2) in
  let w4 := snd (serve d id q4 w3) in
  let w5 := snd (serve d id q5 w4) in
  (forall r, userRequestCounts (globalState w0) !! id = Some r ->
             RATE_LIMIT_WINDOW_MS <= t q1 - lastCalled r) ->
  reachesLimiter d q1 w0 -> reachesLimiter d q2 w1 -> reachesLimiter d q3 w2 ->
  reachesLimiter d q4 w3 -> reachesLimiter d q5 w4 ->
  t q1 <= t q2 <= t q3 -> t q3 <= t q4 -> t q4 - t q1 < RATE_LIMIT_WINDOW_MS ->
  RATE_LIMIT_WINDOW_MS <= t q5 - t q3 ->
  fst (serve d id q4 w3) = Resolved (busyReply d (userName q4))
  ∧ inferenceCalls (newEvents w3 w4) = []
  ∧ globalState w4 = globalState w3
  ∧ memory w4 = memory w3
  ∧ userRequestCounts (globalState w4) !! id = Some {| count := 3; lastCalled := t q3 |}
  ∧ inferenceCalls (newEvents w4 w5) = [(systemPrompt (ambient q5), prompt q5)]
  ∧ userRequestCounts (globalState w5) !! id = Some {| count := 1; lastCalled := t q5 |}.
Proof.
  intros t w1 w2 w3 w4 w5 H0 R1 R2 R3 R4 R5 H123 H34 Hin Hout.
  destruct (throttled_elapsed (t q1) _ H0) as [T1 N1].
  (* the first three requests are admitted and count 1, 2, 3 *)
  assert (S1 : userRequestCounts (globalState w1) !! id
               = Some {| count := 1; lastCalled := t q1 |}).
  { subst w1. rewrite (serve_records d id q1 w0 R1). cbn zeta.
    fold (t q1). rewrite T1, N1. apply lookup_insert_eq. }
  assert (S2 : userRequestCounts (globalState w2) !! id
               = Some {| count := 2; lastCalled := t q2 |}).
  { subst w2. rewrite (serve_records d id q2 w1 R2). cbn zeta.
    fold (t q2). rewrite S1, throttled_below by (cbn; unfold RATE_LIMIT_MAX_REQUESTS; lia).
    rewrite nextRecord_running by (cbn; lia). apply lookup_insert_eq. }
  assert (S3 : userRequestCounts (globalState w3) !! id
               = Some {| count := 3; lastCalled := t q3 |}).
  { subst w3. rewrite (serve_records d id q3 w2 R3). cbn zeta.
    fold (t q3). rewrite S2, throttled_below by (cbn; unfold RATE_LIMIT_MAX_REQUESTS; lia).
    rewrite nextRecord_running by (cbn; lia). apply lookup_insert_eq. }
  (* the fourth is refused *)
  assert (T4 : throttled (t q4) (userRequestCounts (globalState w3) !! id) = true).
  { rewrite S3. apply throttled_true; cbn; [lia | unfold RATE_LIMIT_MAX_REQUESTS; lia]. }
  pose proof (serve_throttled d id q4 w3 R4 T4) as E4.
  assert (A1 : fst (serve d id q4 w3) = Resolved (busyReply d (userName q4)))
    by (rewrite E4; reflexivity).
  assert (W4 : w4 = emit (gateEvents d id q4 w3) w3) by (subst w4; rewrite E4; reflexivity).
  assert (A3 : globalState w4 = globalState w3) by (rewrite W4; reflexivity).
  assert (A4 : memory w4 = memory w3) by (rewrite W4; reflexivity).
  assert (A2 : userRequestCounts (globalState w4) !! id
               = Some {| count := 3; lastCalled := t q3 |}) by (rewrite A3; exact S3).
  assert (A6 : inferenceCalls (newEvents w3 w4) = []).
  { rewrite (newEvents_app w3 w4 (gateEvents d id q4 w3)) by (rewrite W4; reflexivity).
    apply gateEvents_no_inference. }
  (* the fifth opens a new window *)
  assert (E5 : forall r, userRequestCounts (globalState w4) !! id = Some r ->
                         RATE_LIMIT_WINDOW_MS <= t q5 - lastCalled r).
  { intros r Hr. rewrite A2 in Hr. injection Hr as <-. cbn. assumption. }
  destruct (throttled_elapsed (t q5) _ E5) as [T5 N5].
  repeat split; try assumption.
  - apply (serve_admitted_calls d id q5 w4 R5 T5).
  - subst w5. rewrite (serve_records d id q5 w4 R5). cbn zeta.
    fold (t q5). rewrite T5, N5. apply lookup_insert_eq.
Qed.

Lemma burst_refused_then_window_reset_witness :
  let q := fun t text => Sample.request t 10 text (Responded (Some "Baiklah."%string)) in
  let w3 := snd (serve Sample.deps Sample.requester (q 2000 "c"%string)
              (snd (serve Sample.deps Sample.requester (q 1000 "b"%string)
                 (snd (serve Sample.deps Sample.requester (q 0 "a"%string) Sample.world))))) in
  let w4 := snd (serve Sample.deps Sample.requester (q 3000 "d"%string) w3) in
  fst (serve Sample.deps Sample.requester (q 3000 "d"%string) w3)
  = Resolved "Lumina lagi sibuk, Tuan. Mohon sabar ya! >:("
  ∧ userRequestCounts
      (globalState (snd (serve Sample.deps Sample.requester (q 22000 "e"%string) w4)))
    !! Sample.requester
    = Some {| count := 1; lastCalled := 22000 |}.
Proof.
  intros q w3 w4.
  assert (R : forall t text w,
             assoc (keyOf Sample.deps (q t text) w) (messageCache (globalState w)) = None ->
             reachesLimiter Sample.deps (q t text) w).
  { intros t text w H. split; [reflexivity|].
    split; [unfold awake, SLEEP_START_HOUR, SLEEP_END_HOUR; cbn; lia | exact H]. }
  destruct (burst_refused_then_window_reset Sample.deps Sample.requester Sample.world
              (q 0 "a"%string) (q 1000 "b"%string) (q 2000 "c"%string)
              (q 3000 "d"%string) (q 22000 "e"%string))
    as (H1 & _ & _ & _ & _ & _ & H7).
  - intros r Hr. vm_compute in Hr. discriminate.
  - apply R. vm_compute; reflexivity.
  - apply R. vm_compute; reflexivity.
  - apply R. vm_compute; reflexivity.
  - apply R. vm_compute; reflexivity.
  - apply R. vm_compute; reflexivity.
  - cbn; lia.
  - cbn; lia.
  - vm_compute; reflexivity.
  - vm_compute; discriminate.
  - split; [exact H1 | exact H7].
Defined.

(** An answer is stored with the fingerprint of its request: the same
    prompt is answered from the cache, without inference call, in the same
    mood, and goes to the inference service again in another mood. *)
Lemma cached_answer_is_not_shared_across_moods :
  let q := Sample.request 0 10 "halo" (Responded (Some "Baiklah."%string)) in
  let w1 := snd (serve Sample.deps Sample.requester q Sample.world) in
  let w1' := with_handlers (set_currentMood HAPPY (handlers w1)) w1 in
  messageCache (globalState w1) = [(keyOf Sample.deps q Sample.world, "Baiklah."%string)]
  ∧ map content (history (memory w1)) = ["Baiklah."%string]
  ∧ inferenceCalls (newEvents w1 (snd (serve Sample.deps Sample.requester q w1))) = []
  ∧ inferenceCalls (newEvents w1' (snd (serve Sample.deps Sample.requester q w1')))
    = [("You are Lumina."%string, "halo"%string)].
Proof. vm_compute. repeat split. Qed.

(** ** The cache key *)

(** The reader inverts the escape of a code unit, whatever follows. *)
Lemma unescapeChar_escapeChar (c : ascii) (rest : string) :
  Json.unescapeChar (Json.escapeChar c +++ rest) = Some (c, rest).
Proof. destruct c as [[] [] [] [] [] [] [] []]; reflexivity. Qed.

Lemma unescapeChar_dquote (rest : string) :
  Json.unescapeChar (String Json.dquote rest) = None.
Proof. reflexivity. Qed.

(** An escaped body is closed by the first double quote that is not
    escaped: two bodies followed by a quote agree only if the strings and
    what follows them agree. *)
Lemma escapeBody_inj (s1 : string) :
  forall (s2 r1 r2 : string),
    Json.escapeBody s1 +++ String Json.dquote r1 = Json.escapeBody s2 +++ String Json.dquote r2 ->
    s1 = s2 ∧ r1 = r2.
Proof.
  induction s1 as [|c1 s1 IH]; intros [|c2 s2] r1 r2 H; cbn [Json.escapeBody] in H.
  - rewrite !append_nil in H. injection H as H. split; [reflexivity | assumption].
  - exfalso. apply (f_equal Json.unescapeChar) in H.
    rewrite append_assoc, unescapeChar_escapeChar, append_nil in H.
    rewrite unescapeChar_dquote in H. discriminate.
  - exfalso. apply (f_equal Json.unescapeChar) in H.
    rewrite append_assoc, unescapeChar_escapeChar, append_nil in H.
    rewrite unescapeChar_dquote in H. discriminate.
  - apply (f_equal Json.unescapeChar) in H.
    rewrite !append_assoc, !unescapeChar_escapeChar in H.
    injection H as Hc Hr. destruct (IH _ _ _ Hr) as [-> ->]. subst. split; reflexivity.
Qed.

(** [quote] is uniquely readable: a quoted string can be told from what
    follows it. *)
Lemma quote_cancel (s1 s2 r1 r2 : string) :
  Json.quote s1 +++ r1 = Json.quote s2 +++ r2 -> s1 = s2 ∧ r1 = r2.
Proof.
  unfold Json.quote. rewrite !append_cons, !append_assoc, !append_cons, !append_nil.
  intros H. injection H as H. apply escapeBody_inj; assumption.
Qed.

Lemma bool_cancel (b1 b2 : bool) (r1 r2 : string) :
  Json.bool b1 +++ "," +++ r1 = Json.bool b2 +++ "," +++ r2 -> b1 = b2 ∧ r1 = r2.
Proof.
  destruct b1, b2; unfold Json.bool; rewrite !append_cons, !append_nil;
    intros H; try discriminate; injection H as H; split; congruence.
Qed.

(** The stringified fingerprint determines each of its seven members. *)
Lemma cacheKeyObject_inj (p p' : string) (t t' : option string) (per per' m m' : string)
    (dt dt' ng ng' : bool) (img img' : option string) :
  Json.stringify (cacheKeyObject p t per m dt ng img)
  = Json.stringify (cacheKeyObject p' t' per' m' dt' ng' img') ->
  p = p' ∧ orElse t "no_topic" = orElse t' "no_topic" ∧ per = per' ∧ m = m'
  ∧ dt = dt' ∧ ng = ng' ∧ orElse img "no_image" = orElse img' "no_image".
Proof.
  unfold Json.stringify, cacheKeyObject.
  cbn [Json.members]. unfold Json.member, Json.stringifyValue. cbn [fst snd].
  rewrite !append_assoc. intros H.
  repeat (apply append_cancel_l in H).
  apply quote_cancel in H as [Hp H].
  repeat (apply append_cancel_l in H).
  apply quote_cancel in H as [Ht H].
  repeat (apply append_cancel_l in H).
  apply quote_cancel in H as [Hper H].
  repeat (apply append_cancel_l in H).
  apply quote_cancel in H as [Hm H].
  repeat (apply append_cancel_l in H).
  apply bool_cancel in H as [Hdt H].
  repeat (apply append_cancel_l in H).
  apply bool_cancel in H as [Hng H].
  repeat (apply append_cancel_l in H).
  apply quote_cancel in H as [Himg _].
  repeat split; assumption.
Qed.

(** [v || sentinel] is the dimension that the specification names. *)
Lemma orElse_dimension (v : option string) (sentinel : string) :
  orElse v sentinel = dimension v sentinel.
Proof. destruct v as [[|c s]|]; reflexivity. Qed.

(** C2. The cache key is a function of the seven dimensions of the
    request and determines each of them: two requests get the same key
    exactly when they agree on the prompt text, on the topic, or the
    sentinel "no_topic" where no topic is given, on the personality mode,
    on the name of the mood, on the deep-talk flag, on the sulk flag, and
    on the image description, or the sentinel "no_image" where none is
    given.  Requests that differ in one dimension, the mood name in
    particular, get different keys. *)
Theorem cacheKey_agrees_iff_members_agree (d : Dependencies) (p p' : string)
    (mc mc' : MessageContext) (img img' : option string) (w w' : World) :
  cacheKey d p mc img w = cacheKey d p' mc' img' w'
  <->
  p = p'
  ∧ dimension (topic mc) "no_topic" = dimension (topic mc') "no_topic"
  ∧ personalityMode (handlers w) = personalityMode (handlers w')
  ∧ name (Moods d) (currentMood (handlers w)) = name (Moods d) (currentMood (handlers w'))
  ∧ isDeeptalkMode (globalState w) = isDeeptalkMode (globalState w')
  ∧ isNgambekMode (globalState w) = isNgambekMode (globalState w')
  ∧ dimension img "no_image" = dimension img' "no_image".
Proof.
  rewrite <- !orElse_dimension. unfold cacheKey. split.
  - apply cacheKeyObject_inj.
  - intros (-> & Ht & -> & -> & -> & -> & Hi).
    unfold cacheKeyObject. rewrite Ht, Hi. reflexivity.
Qed.

(** Requests that differ in the topic alone, in the image description
    alone, or in the mood alone, have different keys; a request without
    topic and one with the empty topic have the same. *)
Lemma cacheKey_agrees_iff_members_agree_witness :
  let happy := with_handlers (set_currentMood HAPPY (handlers Sample.world)) Sample.world in
  cacheKey Sample.deps "halo" {| topic := Some "cuaca"%string |} None Sample.world
  <> cacheKey Sample.deps "halo" {| topic := Some "musik"%string |} None Sample.world
  ∧ cacheKey Sample.deps "halo" {| topic := Some "cuaca"%string |} None Sample.world
    <> cacheKey Sample.deps "halo" {| topic := None |} None Sample.world
  ∧ cacheKey Sample.deps "halo" {| topic := None |} (Some "seekor kucing"%string) Sample.world
    <> cacheKey Sample.deps "halo" {| topic := None |} None Sample.world
  ∧ cacheKey Sample.deps "halo" {| topic := None |} None Sample.world
    <> cacheKey Sample.deps "halo" {| topic := None |} None happy
  ∧ cacheKey Sample.deps "halo" {| topic := Some EmptyString |} None Sample.world
    = cacheKey Sample.deps "halo" {| topic := None |} None Sample.world.
Proof.
  intros happy. split; [|split; [|split; [|split]]].
  - intros E.
    apply (proj1 (cacheKey_agrees_iff_members_agree _ _ _ _ _ _ _ _ _)) in E.
    destruct E as (_ & E & _). discriminate E.
  - intros E.
    apply (proj1 (cacheKey_agrees_iff_members_agree _ _ _ _ _ _ _ _ _)) in E.
    destruct E as (_ & E & _). discriminate E.
  - intros E.
    apply (proj1 (cacheKey_agrees_iff_members_agree _ _ _ _ _ _ _ _ _)) in E.
    destruct E as (_ & _ & _ & _ & _ & _ & E). discriminate E.
  - intros E.
    apply (proj1 (cacheKey_agrees_iff_members_agree _ _ _ _ _ _ _ _ _)) in E.
    destruct E as (_ & _ & _ & E & _). discriminate E.
  - apply (proj2 (cacheKey_agrees_iff_members_agree _ _ _ _ _ _ _ _ _)).
    repeat split.
Defined.

(** Under a catalogue whose moods have different names, a change of mood
    alone changes the key: an answer cached in one mood is not found in
    another. *)
Lemma cacheKey_separates_moods (d : Dependencies) (p : string) (mc : MessageContext)
    (img : option string) (w w' : World) :
  (forall a b, name (Moods d) a = name (Moods d) b -> a = b) ->
  currentMood (handlers w) <> currentMood (handlers w') ->
  cacheKey d p mc img w <> cacheKey d p mc img w'.
Proof.
  intros Hinj Hne E. unfold cacheKey in E. apply cacheKeyObject_inj in E.
  destruct E as (_ & _ & _ & Hm & _). apply Hne, Hinj, Hm.
Qed.

(** The sentinels are ordinary values of their dimensions: a request
    without topic and one whose topic is the text "no_topic" share their
    key. *)
Lemma cacheKey_sentinel_topic (d : Dependencies) (p : string) (img : option string)
    (w : World) :
  cacheKey d p {| topic := None |} img w
  = cacheKey d p {| topic := Some "no_topic"%string |} img w.
Proof. reflexivity. Qed.

(** ** The mood and its timer *)

Lemma Mood_eqb_eq (a b : Mood) : Mood_eqb a b = true <-> a = b.
Proof. destruct a, b; cbn; split; intros H; try reflexivity; discriminate. Qed.

Lemma Mood_eqb_refl (a : Mood) : Mood_eqb a a = true.
Proof. apply Mood_eqb_eq; reflexivity. Qed.

Lemma clearTimeout_mood (id : option nat) (h : Handlers) :
  currentMood (clearTimeout id h) = currentMood h
  ∧ personalityMode (clearTimeout id h) = personalityMode h
  ∧ moodTimeoutId (clearTimeout id h) = moodTimeoutId h
  ∧ nextTimerId (clearTimeout id h) = nextTimerId h.
Proof. destruct id; repeat split. Qed.

(** [setMood] leaves [globalState] and the memory alone, makes [newMood]
    the current mood, and logs and announces the change if there is one. *)
Lemma setMood_frame (d : Dependencies) (now : Z) (chatId : option Z) (newMood : Mood)
    (durationMs : option Z) (w : World) :
  let w' := setMood d now chatId newMood durationMs w in
  globalState w' = globalState w
  ∧ memory w' = memory w
  ∧ currentMood (handlers w') = newMood
  ∧ personalityMode (handlers w') = personalityMode (handlers w)
  ∧ trace w' = trace w ++ moodEvents d chatId (currentMood (handlers w)) newMood.
Proof.
  unfold setMood, moodEvents. cbn zeta.
  destruct (clearTimeout_mood (moodTimeoutId (handlers w)) (handlers w)) as (Hm & Hp & _).
  cbn [handlers with_handlers]. rewrite Hm.
  destruct (Mood_eqb (currentMood (handlers w)) newMood) eqn:E; cbn [negb].
  - apply Mood_eqb_eq in E.
    destruct (negb (Mood_eqb newMood NORMAL) && negb (Mood_eqb newMood CALM));
      cbn; rewrite ?app_nil_r, ?Hm, ?Hp; repeat split; auto.
  - destruct (givenChat chatId);
      destruct (negb (Mood_eqb newMood NORMAL) && negb (Mood_eqb newMood CALM));
      cbn; rewrite ?Hp, <- ?app_assoc; repeat split; auto.
Qed.

Lemma sent_app (es es' : list Event) : sent (es ++ es') = sent es ++ sent es'.
Proof. unfold sent. apply flat_map_app. Qed.

Lemma sent_moodEvents (d : Dependencies) (chatId : option Z) (current newMood : Mood) :
  sent (moodEvents d chatId current newMood)
  = if negb (Mood_eqb current newMood) && givenChat chatId
    then [(chatId, announcement d newMood)]
    else [].
Proof.
  unfold moodEvents. destruct (Mood_eqb current newMood), (givenChat chatId); reflexivity.
Qed.

(** ** Preferences *)

Lemma assoc_upsert_eq (key : string) (value : PrefValue) (l : list (string * PrefValue)) :
  assoc key (upsert key value l) = Some value.
Proof.
  induction l as [|[k v] l IH]; cbn.
  - rewrite String.eqb_refl. reflexivity.
  - destruct (String.eqb k key) eqn:E; cbn; rewrite E; [reflexivity | exact IH].
Qed.

Lemma assoc_upsert_ne (key key' : string) (value : PrefValue)
    (l : list (string * PrefValue)) :
  key <> key' -> assoc key' (upsert key value l) = assoc key' l.
Proof.
  intros Hne. induction l as [|[k v] l IH]; cbn.
  - apply String.eqb_neq in Hne. rewrite Hne. reflexivity.
  - destruct (String.eqb k key) eqn:E; cbn.
    + apply String.eqb_eq in E. subst k.
      apply String.eqb_neq in Hne. rewrite Hne. reflexivity.
    + rewrite IH. reflexivity.
Qed.

Lemma upsert_idem (key : string) (value : PrefValue) (l : list (string * PrefValue)) :
  upsert key value (upsert key value l) = upsert key value l.
Proof.
  induction l as [|[k v] l IH]; cbn.
  - rewrite String.eqb_refl. reflexivity.
  - destruct (String.eqb k key) eqn:E; cbn; rewrite E; [reflexivity | rewrite IH; reflexivity].
Qed.

(** ** Days and counts *)

Lemma dayOf_bounds (t : Z) :
  dayOf t * MS_PER_DAY <= t < dayOf t * MS_PER_DAY + MS_PER_DAY.
Proof.
  unfold dayOf, MS_PER_DAY.
  pose proof (Z.div_mod t (1000 * 60 * 60 * 24) ltac:(lia)) as E.
  pose proof (Z.mod_pos_bound t (1000 * 60 * 60 * 24) ltac:(lia)) as B.
  lia.
Qed.

Lemma dayOf_yesterday (t : Z) : dayOf (t - MS_PER_DAY) = dayOf t - 1.
Proof.
  unfold dayOf. replace (t - MS_PER_DAY) with (t + (-1) * MS_PER_DAY) by lia.
  rewrite Z.div_add by (unfold MS_PER_DAY; lia). lia.
Qed.

Lemma cutoff_eq (d : Dependencies) (now : Z) :
  setDateBack d now (NGAMBEK_DURATION_DAYS + 1) = daysBack d now (NGAMBEK_DURATION_DAYS + 1).
Proof. reflexivity. Qed.

Lemma checkDates_eq (d : Dependencies) (now : Z) :
  checkDates d now = [dayOf now; dayOf (daysBack d now 1)].
Proof. reflexivity. Qed.

(** On a host whose local days are 24 hours, the days of the exit
    criterion are today and yesterday. *)
Lemma checkDates_fixed (d : Dependencies) (now : Z) :
  fixedOffset d -> checkDates d now = [dayOf now; dayOf now - 1].
Proof.
  intros H. rewrite checkDates_eq, H, <- dayOf_yesterday.
  replace (now - 1 * MS_PER_DAY) with (now - MS_PER_DAY) by lia. reflexivity.
Qed.

(** On a host in New York, half an hour past midnight UTC on the fourth
    of November 2024, the day after the clocks went back: the days of the
    exit criterion are the fourth and the second, and the cutoff of the
    clean-up is 73 hours back. *)
Lemma checkDates_across_clock_change :
  let now := 1730680200000 in
  checkDates Sample.newYork now = [dayOf now; dayOf now - 2]
  ∧ setDateBack Sample.newYork now (NGAMBEK_DURATION_DAYS + 1) = now - 73 * 3600000
  ∧ ¬ fixedOffset Sample.newYork.
Proof.
  intros now. split; [vm_compute; reflexivity|]. split; [vm_compute; reflexivity|].
  intros H. specialize (H now 1). vm_compute in H. discriminate.
Qed.

(** The exit criterion asks for the chats of today, whatever the host. *)
Lemma hasSufficientInteraction_today (d : Dependencies) (now : Z) (counts : gmap Z Z) :
  hasSufficientInteraction d now counts = true ->
  MIN_CHATS_PER_DAY_TO_END_NGAMBEK <= chatCount counts (dayOf now).
Proof.
  unfold hasSufficientInteraction. rewrite checkDates_eq. cbn [forallb].
  rewrite !andb_true_iff, !Z.geb_leb, !Z.leb_le. tauto.
Qed.

(** The exit criterion on a host whose local days are 24 hours: today and
    yesterday each count at least [MIN_CHATS_PER_DAY_TO_END_NGAMBEK]
    chats. *)
Lemma hasSufficientInteraction_iff (d : Dependencies) (now : Z) (counts : gmap Z Z) :
  fixedOffset d ->
  hasSufficientInteraction d now counts = true
  <-> MIN_CHATS_PER_DAY_TO_END_NGAMBEK <= chatCount counts (dayOf now)
      ∧ MIN_CHATS_PER_DAY_TO_END_NGAMBEK <= chatCount counts (dayOf now - 1).
Proof.
  intros H. unfold hasSufficientInteraction. rewrite (checkDates_fixed d now H). cbn [forallb].
  rewrite andb_true_r, andb_true_iff, !Z.geb_leb, !Z.leb_le. reflexivity.
Qed.

Lemma pruneCounts_lookup_recent (d : Dependencies) (now : Z) (counts : gmap Z Z) (day : Z) :
  daysBack d now (NGAMBEK_DURATION_DAYS + 1) <= day * MS_PER_DAY ->
  pruneCounts d now counts !! day = counts !! day.
Proof.
  intros H. unfold pruneCounts. cbn zeta. rewrite cutoff_eq, map_lookup_filter.
  destruct (counts !! day) as [c|]; [|reflexivity].
  cbn. rewrite option_guard_True; [reflexivity|]. cbn. lia.
Qed.

Lemma pruneCounts_lookup_Some (d : Dependencies) (now : Z) (counts : gmap Z Z) (day c : Z) :
  pruneCounts d now counts !! day = Some c ->
  counts !! day = Some c
  ∧ daysBack d now (NGAMBEK_DURATION_DAYS + 1) <= day * MS_PER_DAY.
Proof.
  unfold pruneCounts. cbn zeta. rewrite cutoff_eq. intros H.
  apply map_lookup_filter_Some in H as [H1 H2]. cbn in H2. split; [assumption | lia].
Qed.

Lemma pruneCounts_idem (d : Dependencies) (now : Z) (counts : gmap Z Z) :
  pruneCounts d now (pruneCounts d now counts) = pruneCounts d now counts.
Proof.
  apply map_eq. intros day.
  destruct (pruneCounts d now counts !! day) as [c|] eqn:E.
  - destruct (pruneCounts_lookup_Some _ _ _ _ _ E) as [_ H].
    rewrite pruneCounts_lookup_recent by assumption. exact E.
  - unfold pruneCounts at 1. cbn zeta. apply map_lookup_filter_None. left. exact E.
Qed.

Lemma pruneCounts_empty (d : Dependencies) (now : Z) : pruneCounts d now ∅ = ∅.
Proof. unfold pruneCounts. cbn zeta. apply map_filter_empty. Qed.

(** Pruning deletes counts and alters none: counts that do not meet the
    exit criterion do not meet it when pruned. *)
Lemma hasSufficientInteraction_pruned (d : Dependencies) (now : Z) (counts : gmap Z Z) :
  hasSufficientInteraction d now counts = false ->
  hasSufficientInteraction d now (pruneCounts d now counts) = false.
Proof.
  intros H. apply not_true_is_false. intros Hp.
  assert (Ht : hasSufficientInteraction d now counts = true); [|congruence].
  clear H. unfold hasSufficientInteraction in *. apply forallb_forall. intros day Hday.
  rewrite forallb_forall in Hp. specialize (Hp day Hday).
  rewrite Z.geb_leb in *. apply Z.leb_le in Hp. apply Z.leb_le.
  unfold chatCount, MIN_CHATS_PER_DAY_TO_END_NGAMBEK in *.
  destruct (pruneCounts d now counts !! day) as [c|] eqn:E; cbn in Hp; [|lia].
  apply pruneCounts_lookup_Some in E as [E _]. rewrite E. exact Hp.
Qed.

(** ** The three blocks of the sulk evaluation *)

Lemma enterNgambek_stays (d : Dependencies) (now : Z) (chatId : option Z) (w : World) :
  isNgambekMode (globalState w) = true
  ∨ lastInteractionTimestamp (globalState w) = None
  ∨ (exists last, lastInteractionTimestamp (globalState w) = Some last
                  ∧ diffDays now last < NGAMBEK_DURATION_DAYS) ->
  enterNgambek d now chatId w = w.
Proof.
  unfold enterNgambek. intros [H | [H | (last & H & Hd)]]; rewrite H.
  - reflexivity.
  - destruct (isNgambekMode _); reflexivity.
  - destruct (isNgambekMode _); [reflexivity|].
    rewrite Z.geb_leb. replace (_ <=? _) with false; [reflexivity|].
    symmetry. apply Z.leb_gt. assumption.
Qed.

Lemma enterNgambek_enters (d : Dependencies) (now : Z) (chatId : option Z) (w : World)
    (last : Z) :
  isNgambekMode (globalState w) = false ->
  lastInteractionTimestamp (globalState w) = Some last ->
  NGAMBEK_DURATION_DAYS <= diffDays now last ->
  let w' := enterNgambek d now chatId w in
  globalState w' = set_isNgambekMode true (globalState w)
  ∧ currentMood (handlers w') = JEALOUS
  ∧ memory w' = set_preferences
                  (upsert "isNgambekMode" (PBool true) (preferences (memory w))) (memory w)
  ∧ trace w' = trace w ++ moodEvents d chatId (currentMood (handlers w)) JEALOUS
                 ++ [Log info "ngambek_mode_activated";
                     SendMessage chatId (sulkNotice (diffDays now last))].
Proof.
  intros Hn Hl Hd. unfold enterNgambek. rewrite Hn, Hl.
  rewrite Z.geb_leb. replace (_ <=? _) with true by (symmetry; apply Z.leb_le; assumption).
  cbn zeta.
  match goal with |- context [setMood d now chatId JEALOUS None ?w0] =>
    destruct (setMood_frame d now chatId JEALOUS None w0) as (Hg & Hm & Hc & _ & Ht) end.
  cbn [globalState handlers memory trace emit savePreference with_memory with_globalState]
    in *.
  rewrite Hg, Hm, Hc, Ht, <- !app_assoc. repeat split.
Qed.

Lemma leaveNgambek_stays (d : Dependencies) (r : UnitInterval) (now : Z)
    (chatId : option Z) (w : World) :
  isNgambekMode (globalState w) = false
  ∨ hasSufficientInteraction d now (dailyChatCounts (globalState w)) = false ->
  leaveNgambek d r now chatId w = w.
Proof.
  unfold leaveNgambek. intros [H | H]; rewrite H; [reflexivity|].
  destruct (isNgambekMode _); reflexivity.
Qed.

Lemma leaveNgambek_leaves (d : Dependencies) (r : UnitInterval) (now : Z)
    (chatId : option Z) (w : World) :
  isNgambekMode (globalState w) = true ->
  hasSufficientInteraction d now (dailyChatCounts (globalState w)) = true ->
  let w' := leaveNgambek d r now chatId w in
  globalState w' = set_dailyChatCounts ∅ (set_isNgambekMode false (globalState w))
  ∧ currentMood (handlers w') = getRandomMood r
  ∧ memory w' = set_preferences
                  (upsert "dailyChatCounts" (PCounts ∅)
                     (upsert "isNgambekMode" (PBool false) (preferences (memory w))))
                  (memory w)
  ∧ trace w' = trace w ++ moodEvents d chatId (currentMood (handlers w)) (getRandomMood r)
                 ++ [Log info "ngambek_mode_deactivated"; SendMessage chatId reliefNotice].
Proof.
  intros Hn Hs. unfold leaveNgambek. rewrite Hn, Hs. cbn zeta.
  match goal with |- context [setMood d now chatId ?m None ?w0] =>
    destruct (setMood_frame d now chatId m None w0) as (Hg & Hm & Hc & _ & Ht) end.
  cbn [globalState handlers memory trace emit savePreference with_memory with_globalState
       set_dailyChatCounts dailyChatCounts set_preferences preferences history] in *.
  rewrite Hg, Hm, Hc, Ht, <- !app_assoc. repeat split.
Qed.

Lemma cleanCounts_frame (d : Dependencies) (now : Z) (w : World) :
  let w' := cleanCounts d now w in
  globalState w' = set_dailyChatCounts (pruneCounts d now (dailyChatCounts (globalState w)))
                     (globalState w)
  ∧ handlers w' = handlers w
  ∧ memory w' = set_preferences
                  (upsert "dailyChatCounts"
                     (PCounts (pruneCounts d now (dailyChatCounts (globalState w))))
                     (preferences (memory w))) (memory w)
  ∧ trace w' = trace w.
Proof. unfold cleanCounts. cbn. repeat split. Qed.

(** ** Entering the sulk *)

(** The sink gets two messages when the sulk is entered from another mood
    than JEALOUS: the announcement of the mood and the sulk notice. *)
Lemma sulk_entry_sends_two_messages :
  let w := Sample.state false (Some 0) ∅ NORMAL in
  let w' := checkNgambekStatus Sample.deps Sample.half (3 * MS_PER_DAY) (Some 7) w in
  isNgambekMode (globalState w') = true
  ∧ sent (newEvents w w')
    = [(Some 7, announcement Sample.deps JEALOUS); (Some 7, sulkNotice 3)]
  ∧ length (sent (newEvents w w')) <> 1%nat.
Proof. vm_compute. repeat split. discriminate. Qed.

(** C4, as the code has it.  In a state that is not sulking, has a last
    interaction and whose counts do not already meet the exit criterion,
    the evaluation enters the sulk exactly when the days since the last
    interaction, counted as the ceiling of the elapsed time in days, are at
    least 2.  On entry the flag is set and saved, the mood is JEALOUS, and
    the sink gets the sulk notice once, after the announcement of the mood
    when the mood changes and a chat is given.  Below the threshold the
    flag stays off, the mood state is untouched and nothing is sent. *)
Theorem sulk_entry (d : Dependencies) (r : UnitInterval) (now : Z) (chatId : option Z)
    (w : World) (last : Z) :
  isFeatureEnabled (flags d) "ENABLE_NGAMBEK_MODE" = true ->
  isNgambekMode (globalState w) = false ->
  lastInteractionTimestamp (globalState w) = Some last ->
  hasSufficientInteraction d now (dailyChatCounts (globalState w)) = false ->
  let w' := checkNgambekStatus d r now chatId w in
  let days := diffDays now last in
  (NGAMBEK_DURATION_DAYS <= days ->
     isNgambekMode (globalState w') = true
     ∧ currentMood (handlers w') = JEALOUS
     ∧ getPreference "isNgambekMode" w' = Some (PBool true)
     ∧ sent (newEvents w w')
       = (if negb (Mood_eqb (currentMood (handlers w)) JEALOUS) && givenChat chatId
          then [(chatId, announcement d JEALOUS)] else [])
         ++ [(chatId, sulkNotice days)])
  ∧ (days < NGAMBEK_DURATION_DAYS ->
     isNgambekMode (globalState w') = false
     ∧ handlers w' = handlers w
     ∧ sent (newEvents w w') = []).
Proof.
  intros Hf Hn Hl Hs w' days. subst w'. unfold checkNgambekStatus. rewrite Hf. cbn [negb].
  split; intros Hd.
  - destruct (enterNgambek_enters d now chatId w last Hn Hl Hd) as (Hg & Hm & Hmem & Ht).
    set (we := enterNgambek d now chatId w) in *.
    rewrite (leaveNgambek_stays d r now chatId we)
      by (right; rewrite Hg; exact Hs).
    destruct (cleanCounts_frame d now we) as (Cg & Ch & Cm & Ct).
    cbn zeta in *. rewrite Cg, Ch. unfold getPreference. rewrite Cm, Hg, Hmem.
    rewrite (newEvents_app w _ _ (eq_trans Ct Ht)).
    cbn [isNgambekMode set_dailyChatCounts set_isNgambekMode preferences set_preferences].
    rewrite (assoc_upsert_ne "dailyChatCounts" "isNgambekMode") by discriminate.
    rewrite assoc_upsert_eq, sent_app, sent_moodEvents.
    repeat split; assumption.
  - rewrite (enterNgambek_stays d now chatId w)
      by (right; right; exists last; split; assumption).
    rewrite (leaveNgambek_stays d r now chatId w) by (left; exact Hn).
    destruct (cleanCounts_frame d now w) as (Cg & Ch & Cm & Ct).
    cbn zeta in *. rewrite Cg, Ch. rewrite (newEvents_app w _ [])
      by (rewrite Ct, app_nil_r; reflexivity).
    repeat split; assumption.
Qed.

Lemma sulk_entry_witness :
  let w := Sample.state false (Some 0) ∅ JEALOUS in
  let w' := checkNgambekStatus Sample.deps Sample.half (3 * MS_PER_DAY) (Some 7) w in
  isNgambekMode (globalState w') = true
  ∧ sent (newEvents w w') = [(Some 7, sulkNotice 3)].
Proof.
  intros w w'.
  destruct (sulk_entry Sample.deps Sample.half (3 * MS_PER_DAY) (Some 7) w 0
              eq_refl eq_refl eq_refl eq_refl) as [H _].
  destruct H as (H1 & _ & _ & H4).
  - vm_compute. discriminate.
  - split; [exact H1 | exact H4].
Defined.

(** More than a day, not two days: the count of days is a ceiling, so one
    day and one millisecond without interaction enter the sulk. *)
Lemma sulk_enters_after_a_day_and_a_millisecond :
  diffDays (MS_PER_DAY + 1) 0 = 2
  ∧ isNgambekMode
      (globalState (checkNgambekStatus Sample.deps Sample.half (MS_PER_DAY + 1) (Some 7)
                      (Sample.state false (Some 0) ∅ NORMAL))) = true.
Proof. vm_compute. split; reflexivity. Qed.

(** ** Leaving the sulk *)

Lemma floorScale_lt (r : UnitInterval) (len : nat) :
  (0 < len)%nat -> (floorScale r len < len)%nat.
Proof.
  intros H. unfold floorScale.
  apply Nat.Div0.div_lt_upper_bound. nia.
Qed.

(** The mood drawn is one of the catalogue and is never CALM. *)
Lemma getRandomMood_not_CALM (r : UnitInterval) :
  getRandomMood r <> CALM ∧ In (getRandomMood r) Mood_values.
Proof.
  unfold getRandomMood. cbn [List.filter Mood_values Mood_eqb negb length].
  pose proof (floorScale_lt r 7 ltac:(lia)) as H.
  destruct (floorScale r 7) as [|[|[|[|[|[|[|n]]]]]]]; cbn; try lia;
    (split; [discriminate | tauto]).
Qed.

(** Two ways in which the evaluation of a sulking state departs from a
    single notification and an unchanged count map: leaving the sulk for
    another mood sends the announcement of the mood and the relief notice;
    and counts that do not end the sulk are still pruned of the days that
    are more than three days old. *)
Lemma sulk_exit_sends_two_messages_and_stale_counts_are_pruned :
  (let w := Sample.state true (Some (3 * MS_PER_DAY)) {[ 3 := 6; 2 := 6 ]} JEALOUS in
   let w' := checkNgambekStatus Sample.deps Sample.half (3 * MS_PER_DAY + 1000) (Some 7) w in
   isNgambekMode (globalState w') = false
   ∧ sent (newEvents w w')
     = [(Some 7, announcement Sample.deps ANGRY); (Some 7, reliefNotice)])
  ∧ (let w := Sample.state true (Some 0) {[ 0 := 5 ]} JEALOUS in
     let w' := checkNgambekStatus Sample.deps Sample.half (10 * MS_PER_DAY) (Some 7) w in
     isNgambekMode (globalState w') = true
     ∧ dailyChatCounts (globalState w) !! 0 = Some 5
     ∧ dailyChatCounts (globalState w') !! 0 = None).
Proof. vm_compute. repeat split. Qed.

(** C5, as the code has it.  On a host whose local days are 24 hours, in
    a sulking state, the evaluation leaves the sulk exactly when today and
    yesterday, by their UTC dates, each count at least 6 chats.  On
    exit the flag is cleared and saved, the count map is emptied and saved,
    the mood is the one drawn, which is never CALM, and the sink gets the
    relief notice once, after the announcement of the mood when the mood
    changes and a chat is given.  Otherwise the flag stays on, the mood
    state is untouched, nothing is sent, and the count map is pruned:
    the days not older than three days keep their counts and no count is
    added or altered. *)
Theorem sulk_exit (d : Dependencies) (r : UnitInterval) (now : Z) (chatId : option Z)
    (w : World) :
  fixedOffset d ->
  isFeatureEnabled (flags d) "ENABLE_NGAMBEK_MODE" = true ->
  isNgambekMode (globalState w) = true ->
  let w' := checkNgambekStatus d r now chatId w in
  let counts := dailyChatCounts (globalState w) in
  (hasSufficientInteraction d now counts = true
   <-> MIN_CHATS_PER_DAY_TO_END_NGAMBEK <= chatCount counts (dayOf now)
       ∧ MIN_CHATS_PER_DAY_TO_END_NGAMBEK <= chatCount counts (dayOf now - 1))
  ∧ (hasSufficientInteraction d now counts = true ->
     isNgambekMode (globalState w') = false
     ∧ getPreference "isNgambekMode" w' = Some (PBool false)
     ∧ dailyChatCounts (globalState w') = ∅
     ∧ getPreference "dailyChatCounts" w' = Some (PCounts ∅)
     ∧ currentMood (handlers w') = getRandomMood r
     ∧ currentMood (handlers w') <> CALM
     ∧ sent (newEvents w w')
       = (if negb (Mood_eqb (currentMood (handlers w)) (getRandomMood r))
             && givenChat chatId
          then [(chatId, announcement d (getRandomMood r))] else [])
         ++ [(chatId, reliefNotice)])
  ∧ (hasSufficientInteraction d now counts = false ->
     isNgambekMode (globalState w') = true
     ∧ handlers w' = handlers w
     ∧ sent (newEvents w w') = []
     ∧ dailyChatCounts (globalState w') = pruneCounts d now counts
     ∧ (forall day, now - (NGAMBEK_DURATION_DAYS + 1) * MS_PER_DAY <= day * MS_PER_DAY ->
                    dailyChatCounts (globalState w') !! day = counts !! day)
     ∧ (forall day c, dailyChatCounts (globalState w') !! day = Some c ->
                      counts !! day = Some c)).
Proof.
  intros Hfix Hf Hn w' counts. subst w' counts. unfold checkNgambekStatus.
  rewrite Hf. cbn [negb].
  rewrite (enterNgambek_stays d now chatId w) by (left; exact Hn).
  split; [apply hasSufficientInteraction_iff; exact Hfix|]. split; intros Hs.
  - destruct (leaveNgambek_leaves d r now chatId w Hn Hs) as (Hg & Hm & Hmem & Ht).
    set (wl := leaveNgambek d r now chatId w) in *.
    destruct (cleanCounts_frame d now wl) as (Cg & Ch & Cm & Ct).
    cbn zeta in *. unfold getPreference. rewrite Cg, Ch, Cm, Hg, Hmem, Hm.
    rewrite (newEvents_app w _ _ (eq_trans Ct Ht)).
    cbn [isNgambekMode dailyChatCounts set_dailyChatCounts set_isNgambekMode
         preferences set_preferences].
    rewrite pruneCounts_empty, assoc_upsert_eq.
    rewrite !(assoc_upsert_ne "dailyChatCounts" "isNgambekMode") by discriminate.
    rewrite assoc_upsert_eq, sent_app, sent_moodEvents.
    repeat split. apply getRandomMood_not_CALM.
  - rewrite (leaveNgambek_stays d r now chatId w) by (right; exact Hs).
    destruct (cleanCounts_frame d now w) as (Cg & Ch & Cm & Ct).
    cbn zeta in *. rewrite Cg, Ch.
    rewrite (newEvents_app w _ []) by (rewrite Ct, app_nil_r; reflexivity).
    cbn [isNgambekMode dailyChatCounts set_dailyChatCounts].
    repeat split; try assumption.
    + intros day Hd. apply pruneCounts_lookup_recent. rewrite Hfix. exact Hd.
    + intros day c Hc. apply (pruneCounts_lookup_Some _ _ _ _ _ Hc).
Qed.

Lemma sulk_exit_witness :
  let w := Sample.state true (Some (3 * MS_PER_DAY)) {[ 3 := 6; 2 := 6 ]} ANGRY in
  let w' := checkNgambekStatus Sample.deps Sample.half (3 * MS_PER_DAY + 1000) (Some 7) w in
  isNgambekMode (globalState w') = false
  ∧ dailyChatCounts (globalState w') = ∅
  ∧ sent (newEvents w w') = [(Some 7, reliefNotice)].
Proof.
  intros w w'.
  destruct (sulk_exit Sample.deps Sample.half (3 * MS_PER_DAY + 1000) (Some 7) w
              (fun t i => eq_refl) eq_refl eq_refl) as (_ & H & _).
  destruct H as (H1 & _ & H3 & _ & _ & _ & H7).
  - vm_compute. reflexivity.
  - split; [exact H1 | split; [exact H3 | exact H7]].
Defined.

(** ** Running the evaluation twice *)

Lemma cleanCounts_idem (d : Dependencies) (now : Z) (w : World) :
  cleanCounts d now (cleanCounts d now w) = cleanCounts d now w.
Proof.
  unfold cleanCounts, savePreference, with_memory, with_globalState.
  cbn [globalState handlers memory trace dailyChatCounts set_dailyChatCounts
       set_preferences preferences history messageCache userRequestCounts isDeeptalkMode
       isNgambekMode lastInteractionTimestamp].
  rewrite pruneCounts_idem, upsert_idem. reflexivity.
Qed.

Lemma settled_cleanCounts (d : Dependencies) (now : Z) (w : World) :
  settled d now w -> settled d now (cleanCounts d now w).
Proof.
  unfold settled. destruct (cleanCounts_frame d now w) as (Cg & _). cbn zeta in Cg.
  rewrite Cg. cbn [isNgambekMode lastInteractionTimestamp dailyChatCounts set_dailyChatCounts].
  intros [He [Hl | Hl]]; (split; [exact He|]); [left; exact Hl | right].
  apply hasSufficientInteraction_pruned. exact Hl.
Qed.

(** In a settled state the blocks of entry and exit do nothing, so that the
    evaluation is the clean-up of the counts. *)
Lemma checkNgambekStatus_settled (d : Dependencies) (r : UnitInterval) (now : Z)
    (chatId : option Z) (w : World) :
  isFeatureEnabled (flags d) "ENABLE_NGAMBEK_MODE" = true ->
  settled d now w ->
  checkNgambekStatus d r now chatId w = cleanCounts d now w.
Proof.
  intros Hf [He Hl]. unfold checkNgambekStatus. rewrite Hf. cbn [negb].
  rewrite (enterNgambek_stays d now chatId w He).
  rewrite (leaveNgambek_stays d r now chatId w Hl). reflexivity.
Qed.

(** Under the feature flag, the evaluation ends in the clean-up of a
    settled state, provided the counts and the last interaction agree. *)
Lemma checkNgambekStatus_settles (d : Dependencies) (r : UnitInterval) (now : Z)
    (chatId : option Z) (w : World) :
  isFeatureEnabled (flags d) "ENABLE_NGAMBEK_MODE" = true ->
  coherent d now w ->
  exists ws, checkNgambekStatus d r now chatId w = cleanCounts d now ws ∧ settled d now ws.
Proof.
  intros Hf Hc. unfold checkNgambekStatus. rewrite Hf. cbn [negb].
  destruct (isNgambekMode (globalState w)) eqn:Hn.
  - (* sulking: the entry block does nothing *)
    rewrite (enterNgambek_stays d now chatId w) by (left; exact Hn).
    destruct (hasSufficientInteraction d now (dailyChatCounts (globalState w))) eqn:Hs.
    + destruct (leaveNgambek_leaves d r now chatId w Hn Hs) as (Hg & _).
      eexists; split; [reflexivity|]. unfold settled. cbn zeta in Hg. rewrite Hg.
      cbn [isNgambekMode lastInteractionTimestamp set_dailyChatCounts set_isNgambekMode].
      split; [|left; reflexivity].
      destruct (lastInteractionTimestamp (globalState w)) as [last|] eqn:Hl.
      * right; right. exists last. split; [reflexivity|]. apply (Hc Hs last Hl).
      * right; left; reflexivity.
    + rewrite (leaveNgambek_stays d r now chatId w) by (right; exact Hs).
      eexists; split; [reflexivity|]. split; [left | right]; assumption.
  - destruct (lastInteractionTimestamp (globalState w)) as [last|] eqn:Hl.
    + destruct (Z_lt_le_dec (diffDays now last) NGAMBEK_DURATION_DAYS) as [Hd | Hd].
      * rewrite (enterNgambek_stays d now chatId w)
          by (right; right; exists last; split; assumption).
        rewrite (leaveNgambek_stays d r now chatId w) by (left; exact Hn).
        eexists; split; [reflexivity|]. split; [|left; exact Hn].
        right; right. exists last. split; assumption.
      * (* the sulk is entered, and by coherence it is not left at once *)
        assert (Hs : hasSufficientInteraction d now (dailyChatCounts (globalState w)) = false).
        { apply not_true_is_false. intros Hs. specialize (Hc Hs last Hl). lia. }
        destruct (enterNgambek_enters d now chatId w last Hn Hl Hd) as (Hg & _).
        cbn zeta in Hg.
        rewrite (leaveNgambek_stays d r now chatId (enterNgambek d now chatId w))
          by (right; rewrite Hg; exact Hs).
        eexists; split; [reflexivity|]. unfold settled. rewrite Hg.
        cbn [isNgambekMode dailyChatCounts set_isNgambekMode].
        split; [left; reflexivity | right; exact Hs].
    + rewrite (enterNgambek_stays d now chatId w) by (right; left; exact Hl).
      rewrite (leaveNgambek_stays d r now chatId w) by (left; exact Hn).
      eexists; split; [reflexivity|]. split; [right; left; exact Hl | left; exact Hn].
Qed.

(** A state whose counts end the sulk while its last interaction is three
    days old: the first evaluation leaves the sulk, and the second, at the
    same time and with nothing changed in between, enters it again and
    sends its notice. *)
Lemma sulk_evaluation_fires_again :
  let w := Sample.state true (Some 0) {[ 3 := 6; 2 := 6 ]} JEALOUS in
  let now := 3 * MS_PER_DAY + 1000 in
  let w1 := checkNgambekStatus Sample.deps Sample.half now (Some 7) w in
  let w2 := checkNgambekStatus Sample.deps Sample.half now (Some 7) w1 in
  isNgambekMode (globalState w1) = false
  ∧ isNgambekMode (globalState w2) = true
  ∧ sent (newEvents w1 w2)
    = [(Some 7, announcement Sample.deps JEALOUS); (Some 7, sulkNotice 4)].
Proof. vm_compute. repeat split. Qed.

(** C6, as the code has it.  When the counts and the last interaction
    agree, a second evaluation at the same time, with nothing changed
    since the first, changes nothing at all: the flag, the mood and its
    timer, the count map and the saved preferences are as the first left
    them, and no event is added, so no notification is sent. *)
Theorem sulk_evaluation_idempotent (d : Dependencies) (r1 r2 : UnitInterval) (now : Z)
    (chatId : option Z) (w : World) :
  coherent d now w ->
  let w1 := checkNgambekStatus d r1 now chatId w in
  let w2 := checkNgambekStatus d r2 now chatId w1 in
  w2 = w1 ∧ sent (newEvents w1 w2) = [].
Proof.
  intros Hc w1 w2.
  assert (E : w2 = w1).
  { subst w2 w1.
    destruct (isFeatureEnabled (flags d) "ENABLE_NGAMBEK_MODE") eqn:Hf.
    - destruct (checkNgambekStatus_settles d r1 now chatId w Hf Hc) as (ws & -> & Hs).
      rewrite (checkNgambekStatus_settled d r2 now chatId _ Hf (settled_cleanCounts _ _ _ Hs)).
      apply cleanCounts_idem.
    - unfold checkNgambekStatus. rewrite Hf. cbn [negb].
      destruct (isNgambekMode (globalState w)) eqn:Hn; cbn; [reflexivity|].
      rewrite Hn. reflexivity. }
  split; [exact E|]. rewrite E. unfold newEvents. rewrite skipn_all. reflexivity.
Qed.

Lemma sulk_evaluation_idempotent_witness :
  let w := Sample.state true (Some (3 * MS_PER_DAY)) {[ 3 := 6; 2 := 6 ]} JEALOUS in
  let now := 3 * MS_PER_DAY + 1000 in
  let w1 := checkNgambekStatus Sample.deps Sample.half now (Some 7) w in
  let w2 := checkNgambekStatus Sample.deps {| numer := 0; gap := 0 |} now (Some 7) w1 in
  isNgambekMode (globalState w1) = false ∧ w2 = w1.
Proof.
  intros w now w1 w2. split; [reflexivity|].
  refine (proj1 (sulk_evaluation_idempotent Sample.deps Sample.half
                   {| numer := 0; gap := 0 |} now (Some 7) w _)).
  intros _ last Hl. injection Hl as <-. vm_compute. reflexivity.
Defined.

(** Counts and a last interaction that were recorded together agree: if
    no day with chats is later than the day of the last interaction, and
    the last interaction is not in the future, the state is coherent. *)
Lemma recorded_state_coherent (d : Dependencies) (now : Z) (w : World) :
  (forall last, lastInteractionTimestamp (globalState w) = Some last ->
     last <= now
     ∧ forall day c, dailyChatCounts (globalState w) !! day = Some c -> 0 < c ->
                     day <= dayOf last) ->
  coherent d now w.
Proof.
  intros H Hs last Hl. destruct (H last Hl) as [Hle Hdays].
  apply hasSufficientInteraction_today in Hs as Htoday.
  unfold chatCount, MIN_CHATS_PER_DAY_TO_END_NGAMBEK in Htoday.
  destruct (dailyChatCounts (globalState w) !! dayOf now) as [c|] eqn:E; cbn in Htoday;
    [|lia].
  specialize (Hdays _ _ E ltac:(lia)).
  pose proof (dayOf_bounds now) as Bn. pose proof (dayOf_bounds last) as Bl.
  unfold diffDays, ceilDiv, NGAMBEK_DURATION_DAYS.
  assert (Hx : 0 <= now - last < MS_PER_DAY) by (unfold MS_PER_DAY in *; nia).
  rewrite Z.abs_eq by lia.
  assert (-1 <= - (now - last) / MS_PER_DAY).
  { apply Z.div_le_lower_bound; unfold MS_PER_DAY in *; lia. }
  lia.
Qed.

(** ** The revert timer *)

Lemma oneTimer_cleared (h : Handlers) :
  oneTimer h -> timers (clearTimeout (moodTimeoutId h) h) = [].
Proof.
  unfold oneTimer, clearTimeout. destruct (timers h) as [|t [|t' ts]] eqn:E; intros H.
  - destruct (moodTimeoutId h); cbn; rewrite ?E; reflexivity.
  - rewrite H. cbn. rewrite ?E. cbn. rewrite Nat.eqb_refl. reflexivity.
  - contradiction.
Qed.

(** After [setMood] the pending timers are none for a sticky mood and the
    one just scheduled otherwise, whatever was pending before. *)
Lemma setMood_timers (d : Dependencies) (now : Z) (chatId : option Z) (newMood : Mood)
    (durationMs : option Z) (w : World) :
  oneTimer (handlers w) ->
  let w' := setMood d now chatId newMood durationMs w in
  timers (handlers w')
  = (if sticky newMood then []
     else [{| timerId := nextTimerId (handlers w);
              dueAt := now + timerDelay (default MOOD_TIMEOUT_MS durationMs);
              timerChat := chatId |}])
  ∧ oneTimer (handlers w').
Proof.
  intros H. pose proof (oneTimer_cleared _ H) as Hc.
  destruct (clearTimeout_mood (moodTimeoutId (handlers w)) (handlers w))
    as (_ & _ & _ & Hn).
  unfold setMood, sticky, oneTimer. cbn zeta. cbn [handlers with_handlers].
  destruct (negb (Mood_eqb (currentMood (clearTimeout _ (handlers w))) newMood));
    [destruct (givenChat chatId)|];
    destruct (Mood_eqb newMood NORMAL), (Mood_eqb newMood CALM);
    cbn; rewrite ?Hc, ?Hn; cbn; split; reflexivity.
Qed.

Lemma fireTimer_oneTimer (id : nat) (w : World) :
  oneTimer (handlers w) -> oneTimer (handlers (fireTimer id w)).
Proof.
  unfold fireTimer, oneTimer.
  destruct (timers (handlers w)) as [|t [|t' ts]] eqn:E; intros H; try contradiction.
  - cbn. rewrite ?E. exact I.
  - cbn [existsb orb]. destruct (timerId t =? id)%nat eqn:Et; cbn.
    + rewrite ?E. cbn. rewrite ?Et. exact I.
    + rewrite ?E. exact H.
Qed.

(** At most one revert timer is ever pending: the property holds at
    start-up and every step of the mood state keeps it. *)
Lemma at_most_one_revert_timer (d : Dependencies) (w w' : World) :
  rtc (MoodStep d) w w' -> oneTimer (handlers w) ->
  oneTimer (handlers w') ∧ (length (timers (handlers w')) <= 1)%nat.
Proof.
  intros Hsteps H0.
  assert (H : oneTimer (handlers w')).
  { induction Hsteps as [|w1 w2 w3 Hstep _ IH]; [assumption|]. apply IH.
    destruct Hstep as [t c m dur wa | id wa].
    - apply (setMood_timers d t c m dur wa); assumption.
    - apply fireTimer_oneTimer; assumption. }
  split; [exact H|]. unfold oneTimer in H.
  destruct (timers (handlers w')) as [|t [|t' ts]]; cbn; [lia | lia | contradiction].
Qed.

(** Setting the current mood again is not without effect: the revert that
    was due at 1000 is cancelled and one due at 1500 takes its place, so
    that at 1000 the mood is still HAPPY where it would have been NORMAL. *)
Lemma setMood_same_mood_moves_the_revert :
  let w := setMood Sample.deps 0 (Some 7) HAPPY (Some 1000) Sample.world in
  let w' := setMood Sample.deps 500 (Some 7) HAPPY (Some 1000) w in
  currentMood (handlers w) = HAPPY
  ∧ map dueAt (timers (handlers w)) = [1000]
  ∧ map dueAt (timers (handlers w')) = [1500]
  ∧ handlers w' <> handlers w
  ∧ currentMood (handlers (fireTimer 0 w)) = NORMAL
  ∧ currentMood (handlers (fireTimer 0 w')) = HAPPY.
Proof. vm_compute. repeat split. discriminate. Qed.

(** C9, as the code has it.  [setMood] with the current mood leaves the
    mood, the trace (no log, no notification), [globalState] and the memory
    as they were, but not the timer: in every call the pending revert is
    cancelled first, and then none is scheduled for NORMAL and CALM, and
    one for any other mood, due [durationMs] after the call, or 1 ms
    after it when [durationMs] is below 1 or above [TIMEOUT_MAX].  So at most
    one revert timer is pending after the call, and a call that repeats a
    mood other than NORMAL and CALM restarts its revert. *)
Theorem setMood_same_mood_rearms_timer (d : Dependencies) (now : Z) (chatId : option Z)
    (newMood : Mood) (durationMs : option Z) (w : World) :
  oneTimer (handlers w) ->
  let w' := setMood d now chatId newMood durationMs w in
  (newMood = currentMood (handlers w) ->
     currentMood (handlers w') = currentMood (handlers w)
     ∧ trace w' = trace w
     ∧ globalState w' = globalState w
     ∧ memory w' = memory w)
  ∧ timers (handlers w')
    = (if sticky newMood then []
       else [{| timerId := nextTimerId (handlers w);
                dueAt := now + timerDelay (default MOOD_TIMEOUT_MS durationMs);
                timerChat := chatId |}])
  ∧ (length (timers (handlers w')) <= 1)%nat
  ∧ oneTimer (handlers w').
Proof.
  intros H w'. subst w'.
  destruct (setMood_timers d now chatId newMood durationMs w H) as [Ht Ho].
  destruct (setMood_frame d now chatId newMood durationMs w) as (Hg & Hm & Hc & _ & Htr).
  cbn zeta in *. split; [|split; [exact Ht | split; [|exact Ho]]].
  - intros ->. rewrite Hc, Htr, Hg, Hm. unfold moodEvents.
    rewrite Mood_eqb_refl. cbn. rewrite app_nil_r. repeat split.
  - rewrite Ht. destruct (sticky newMood); cbn; lia.
Qed.

Lemma setMood_same_mood_rearms_timer_witness :
  let w := setMood Sample.deps 0 (Some 7) HAPPY (Some 1000) Sample.world in
  let w' := setMood Sample.deps 500 (Some 7) HAPPY (Some 1000) w in
  trace w' = trace w
  ∧ timers (handlers w') = [{| timerId := 1; dueAt := 1500; timerChat := Some 7 |}].
Proof.
  intros w w'.
  destruct (setMood_same_mood_rearms_timer Sample.deps 500 (Some 7) HAPPY (Some 1000) w)
    as (H1 & H2 & _).
  - vm_compute. reflexivity.
  - destruct (H1 eq_refl) as (_ & Ht & _). split; [exact Ht | exact H2].
Defined.
(** ** The clean-up of the long-term memory *)

(** The criteria of the query are the retention tiers. *)
Lemma criteria_expired (now : Z) (e : LTMEntry) : criteria now e = true <-> expired now e.
Proof.
  unfold criteria, expired. cbn zeta.
  rewrite !orb_true_iff, !andb_true_iff, !Z.eqb_eq, !Z.leb_le, !Z.ltb_lt. lia.
Qed.

Lemma nothing_found_all_kept (now : Z) (ltm : list LTMEntry) :
  List.filter (criteria now) ltm = [] ->
  List.filter (fun e => negb (criteria now e)) ltm = ltm.
Proof.
  induction ltm as [|e rest IH]; cbn [List.filter]; [reflexivity|].
  destruct (criteria now e); cbn [negb]; [discriminate|].
  intros H. rewrite (IH H). reflexivity.
Qed.

Lemma In_firstn {A : Type} (n : nat) (l : list A) (x : A) : In x (firstn n l) -> In x l.
Proof.
  intros H. rewrite <- (firstn_skipn n l). apply in_or_app. left. exact H.
Qed.

Lemma In_skipn {A : Type} (n : nat) (l : list A) (x : A) : In x (skipn n l) -> In x l.
Proof.
  intros H. rewrite <- (firstn_skipn n l). apply in_or_app. right. exact H.
Qed.

Lemma NoDup_firstn_skipn {A : Type} (n : nat) (l : list A) :
  List.NoDup l ->
  List.NoDup (firstn n l) ∧ List.NoDup (skipn n l)
  ∧ forall x, In x (firstn n l) -> ¬ In x (skipn n l).
Proof.
  intros H. rewrite <- (firstn_skipn n l) in H.
  split; [exact (List.NoDup_app_remove_r _ _ H)|].
  split; [exact (List.NoDup_app_remove_l _ _ H)|].
  intros x Hx Hs. revert H Hx Hs. generalize (firstn n l) (skipn n l). intros a b.
  induction a as [|y a IH]; intros H Hx Hs; [destruct Hx|].
  cbn [app] in H. inversion H as [|? ? Hy Ha]; subst.
  destruct Hx as [-> | Hx]; [|exact (IH Ha Hx Hs)].
  apply Hy. apply in_or_app. right. exact Hs.
Qed.

Lemma filter_perm {A : Type} (p : A -> bool) (l l' : list A) :
  Permutation l l' -> Permutation (List.filter p l) (List.filter p l').
Proof.
  intros H. induction H as [|x l l' H IH|x y l|l l' l'' H IH H' IH'].
  - reflexivity.
  - cbn [List.filter]. destruct (p x); [apply perm_skip|]; exact IH.
  - cbn [List.filter]. destruct (p x), (p y); try reflexivity. apply perm_swap.
  - eapply perm_trans; eassumption.
Qed.

Lemma filter_all {A : Type} (p : A -> bool) (l : list A) :
  (forall x, In x l -> p x = true) -> List.filter p l = l.
Proof.
  induction l as [|x l IH]; intros H; [reflexivity|].
  cbn [List.filter]. rewrite (H x (or_introl eq_refl)), IH; [reflexivity|].
  intros y Hy. apply H. right. exact Hy.
Qed.

(** What [find] returns: each document that meets the query, once. *)
Lemma find_positions {A : Type} (p : A -> bool) (order : nat -> Z) (c : list A) :
  List.NoDup (Loki.find p order c)
  ∧ Loki.valid c (Loki.find p order c)
  ∧ (forall i, In i (Loki.find p order c) -> Loki.meets p c i = true)
  ∧ length (Loki.find p order c) = length (List.filter p c).
Proof.
  pose proof (find_perm p order c) as Hp.
  assert (Hin : forall i, In i (Loki.find p order c) -> In i (Loki.matching p c)).
  { intros i Hi. apply (Permutation_in i Hp Hi). }
  split; [|split; [|split]].
  - apply (Permutation_NoDup (Permutation_sym Hp)).
    unfold Loki.matching. apply List.NoDup_filter, NoDup_all.
  - intros i Hi. apply Hin in Hi. unfold Loki.matching in Hi.
    apply filter_In in Hi as [Hi _]. apply (valid_all c i Hi).
  - intros i Hi. apply Hin in Hi. unfold Loki.matching in Hi.
    apply filter_In in Hi as [_ Hi]. exact Hi.
  - rewrite (Permutation_length Hp), <- data_matching. symmetry. apply length_data.
    intros i Hi. unfold Loki.matching in Hi. apply filter_In in Hi as [Hi _].
    apply (valid_all c i Hi).
Qed.

(** One batch of the clean-up: the documents found are as many as the
    batch size allows, each meets the criteria, and with the documents
    that meet the criteria after their removal they are those that met
    them before; the documents that do not meet the criteria stay as they
    are, in their order. *)
Lemma batch_removed (d : Dependencies) (now : Z) (ltm : list LTMEntry) :
  let found := findLimit d now LTM_CLEANUP_BATCH_SIZE ltm in
  let oldDocs := Loki.data ltm found in
  let rest := Loki.remove found ltm in
  length oldDocs
  = Nat.min LTM_CLEANUP_BATCH_SIZE (length (List.filter (criteria now) ltm))
  ∧ Permutation (List.filter (criteria now) ltm) (oldDocs ++ List.filter (criteria now) rest)
  ∧ List.filter (fun e => negb (criteria now e)) rest
    = List.filter (fun e => negb (criteria now e)) ltm.
Proof.
  intros found oldDocs rest. subst oldDocs rest.
  destruct (find_positions (criteria now) (findOrder d now ltm) ltm) as (Hn & Hv & Hm & Hl).
  assert (Fn : List.NoDup found).
  { apply (NoDup_firstn_skipn LTM_CLEANUP_BATCH_SIZE _ Hn). }
  assert (Fin : forall i, In i found ->
                          In i (Loki.find (criteria now) (findOrder d now ltm) ltm)).
  { intros i Hi. apply (In_firstn _ _ _ Hi). }
  assert (Fv : Loki.valid ltm found) by (intros i Hi; apply Hv, Fin, Hi).
  assert (Fm : forall x, In x (Loki.data ltm found) -> criteria now x = true).
  { intros x Hx. apply in_data in Hx as (i & Hi & Ex).
    specialize (Hm i (Fin i Hi)). unfold Loki.meets in Hm. rewrite Ex in Hm. exact Hm. }
  split; [|split].
  - rewrite (length_data ltm found Fv). unfold found, findLimit, Loki.limit.
    rewrite length_firstn, Hl. reflexivity.
  - pose proof (filter_perm (criteria now) _ _ (remove_perm ltm found Fn Fv)) as H.
    rewrite List.filter_app, (filter_all _ _ Fm) in H. exact H.
  - apply (filter_remove (fun e => negb (criteria now e))).
    intros i Hi. specialize (Hm i (Fin i Hi)). unfold Loki.meets in *.
    destruct (nth_error ltm i); [rewrite Hm|]; reflexivity.
Qed.

(** The loop, given fuel beyond the number of entries to remove: it ends
    with the entries that do not meet the criteria, having removed the
    others in batches of [LTM_CLEANUP_BATCH_SIZE] entries and a last batch
    of what is left. *)
Lemma cleanupLoop_removes (d : Dependencies) (now : Z) (fuel : nat) :
  forall (ltm : list LTMEntry) (batches : list (list LTMEntry)),
    (length (List.filter (criteria now) ltm) < fuel)%nat ->
    exists removed,
      cleanupLoop d fuel now ltm batches
      = Some (List.filter (fun e => negb (criteria now e)) ltm, batches ++ removed)
      ∧ Permutation (concat removed) (List.filter (criteria now) ltm)
      ∧ Forall (fun b => (1 <= length b <= LTM_CLEANUP_BATCH_SIZE)%nat) removed
      ∧ (length (List.filter (criteria now) ltm) <= LTM_CLEANUP_BATCH_SIZE * length removed
         < length (List.filter (criteria now) ltm) + LTM_CLEANUP_BATCH_SIZE)%nat
      ∧ Forall (fun b => length b = LTM_CLEANUP_BATCH_SIZE) (removelast removed).
Proof.
  induction fuel as [|fuel IH]; intros ltm batches Hfuel; [lia|].
  cbn [cleanupLoop]. cbn zeta.
  destruct (batch_removed d now ltm) as (Hlen & Hperm & Hkept). cbn zeta in *.
  set (found := findLimit d now LTM_CLEANUP_BATCH_SIZE ltm) in *.
  set (n := length (List.filter (criteria now) ltm)) in *.
  destruct (Loki.data ltm found) as [|e batch] eqn:Eb.
  - exists []. cbn [length Nat.ltb Nat.leb].
    assert (Hn : List.filter (criteria now) ltm = []).
    { cbn [length] in Hlen. unfold LTM_CLEANUP_BATCH_SIZE in Hlen.
      destruct (List.filter (criteria now) ltm); [reflexivity|].
      subst n. cbn [length] in Hlen. lia. }
    rewrite app_nil_r, (nothing_found_all_kept now ltm Hn).
    subst n. rewrite Hn. cbn [length concat removelast].
    split; [reflexivity|]. split; [reflexivity|]. split; [constructor|].
    split; [unfold LTM_CLEANUP_BATCH_SIZE; lia | constructor].
  - cbn [length]. replace (0 <? S (length batch))%nat with true by reflexivity.
    pose proof (Permutation_length Hperm) as Hcount. rewrite length_app in Hcount.
    fold n in Hcount. cbn [length] in Hcount, Hlen.
    destruct (IH (Loki.remove found ltm) (batches ++ [e :: batch]))
      as (removed & Hloop & Hcat & Hall & Hnum & Hfull).
    { unfold LTM_CLEANUP_BATCH_SIZE in *. lia. }
    exists ((e :: batch) :: removed).
    rewrite Hloop, Hkept, <- app_assoc. cbn [app].
    split; [reflexivity|]. split; [|split; [|split]].
    + cbn [concat]. apply Permutation_sym. eapply perm_trans; [exact Hperm|].
      apply Permutation_app_head, Permutation_sym, Hcat.
    + constructor; [|exact Hall]. cbn [length]. unfold LTM_CLEANUP_BATCH_SIZE in *. lia.
    + cbn [length]. unfold LTM_CLEANUP_BATCH_SIZE in *. lia.
    + destruct removed as [|b removed']; [constructor|].
      change (removelast ((e :: batch) :: b :: removed'))
        with ((e :: batch) :: removelast (b :: removed')).
      constructor; [|exact Hfull].
      cbn [length] in *. unfold LTM_CLEANUP_BATCH_SIZE in *. lia.
Qed.

(** C8. The clean-up ends, and it deletes exactly the entries that are
    older than the retention of their priority tier: 60 days for priority
    100, 14 days for priorities 91 to 99, 5 days for priorities up to 90.
    It removes them in batches of at least one and at most 50 entries,
    in the order in which LokiJS finds them, until none is left: the
    batches together hold each of these entries once.  The entries that
    meet no tier criterion stay as they are, in their order. *)
Theorem cleanupOldLTMs_deletes_expired (d : Dependencies) (now : Z) (ltm : list LTMEntry) :
  exists batches,
    cleanupOldLTMs d now ltm
    = Some (List.filter (fun e => negb (criteria now e)) ltm, batches)
    ∧ Permutation (concat batches) (List.filter (criteria now) ltm)
    ∧ Forall (fun b => (1 <= length b <= LTM_CLEANUP_BATCH_SIZE)%nat) batches
    ∧ (forall e, In e (concat batches) <-> In e ltm ∧ expired now e)
    ∧ (forall e, In e (List.filter (fun e => negb (criteria now e)) ltm)
                 <-> In e ltm ∧ ¬ expired now e).
Proof.
  unfold cleanupOldLTMs.
  destruct (cleanupLoop_removes d now (S (length ltm)) ltm [])
    as (batches & Hl & Hc & Hb & _).
  { pose proof (filter_length_le (criteria now) ltm). lia. }
  exists batches. cbn [app] in Hl.
  split; [exact Hl|]. split; [exact Hc|]. split; [exact Hb|]. split.
  - intros e. rewrite <- criteria_expired, <- filter_In. split; intros H.
    + apply (Permutation_in e Hc H).
    + apply (Permutation_in e (Permutation_sym Hc) H).
  - intros e. rewrite filter_In. split; intros [H1 H2]; (split; [exact H1|]).
    + intros He. apply criteria_expired in He. rewrite He in H2. discriminate.
    + destruct (criteria now e) eqn:E; [|reflexivity].
      exfalso. apply H2, criteria_expired, E.
Qed.

(** Sixty entries of low priority, the later the older, leave in a batch
    of fifty and a batch of ten; an entry of priority 100 stays.  Which
    fifty leave first is up to LokiJS: those that come first in the
    collection, or the oldest. *)
Lemma cleanupOldLTMs_two_batches :
  let old := fun i => {| ltmKey := "hobi"; ltmValue := "memancing"; priority := 40;
                         createdAt := - Z.of_nat i |} in
  let dear := {| ltmKey := "nama"; ltmValue := "Tuan"; priority := 100; createdAt := 0 |} in
  let ltm := map old (seq 0 30) ++ [dear] ++ map old (seq 30 30) in
  cleanupOldLTMs Sample.deps (10 * MS_PER_DAY) ltm
  = Some ([dear], [map old (seq 0 50); map old (seq 50 10)])
  ∧ cleanupOldLTMs Sample.oldestFirst (10 * MS_PER_DAY) ltm
    = Some ([dear], [map old (rev (seq 10 50)); map old (rev (seq 0 10))]).
Proof. vm_compute. split; reflexivity. Qed.

(* ===================================================================== *)
(** * Further properties of the response gate *)
(* ===================================================================== *)

(** ** Cache hits and completions *)

Lemma serve_cache_hit (d : Dependencies) (id : Z) (q : Request) (w : World)
    (cachedResponse : string) :
  assembles d ->
  awake q ->
  assoc (keyOf d q w) (messageCache (globalState w)) = Some cachedResponse ->
  serve d id q w =
    (Resolved cachedResponse,
     emit [Log info "cache_hit"]
       (callManageCache d (keyOf d q w) cachedResponse
          (emit (loveEvents d (prompt q)
                 ++ [AssemblePrompt; CacheHas (keyOf d q w); CacheGet (keyOf d q w)]) w))).
Proof.
  intros Hasm Hawake Hhit. unfold serve, generateAIResponse.
  rewrite love_emit, (asleep_false _ Hawake).
  unfold generateLuminaPrompt. unfold assembles in Hasm. rewrite Hasm.
  change (cacheKey d (prompt q) (default {| topic := None |} (messageContext q))
            (imageDescription q) (emit [AssemblePrompt] (emit (loveEvents d (prompt q)) w)))
    with (keyOf d q w).
  cbn [globalState emit]. rewrite Hhit. rewrite !emit_emit. reflexivity.
Qed.

(** X1. A request made while Lumina is awake whose fingerprint is in
    the cache involves neither the limiter nor the inference service nor
    the history, whatever the record of the requester says.  When the
    prompt could be assembled, the cached text is returned and the cache
    manager is told of the access; with the object [memory] of the
    repository, the call is rejected before the cache is looked up. *)
Theorem cache_hit_bypasses_limiter (d : Dependencies) (id : Z) (q : Request) (w : World)
    (cachedResponse : string) :
  awake q ->
  assoc (keyOf d q w) (messageCache (globalState w)) = Some cachedResponse ->
  let out := serve d id q w in
  fst out = (if hasMember d "getInMemoryHistory"
             then Resolved cachedResponse
             else Rejected (TypeError "memory.getInMemoryHistory is not a function"))
  ∧ userRequestCounts (globalState (snd out)) = userRequestCounts (globalState w)
  ∧ messageCache (globalState (snd out))
    = (if hasMember d "getInMemoryHistory"
       then manageCache d (messageCache (globalState w)) (keyOf d q w) cachedResponse
       else messageCache (globalState w))
  ∧ memory (snd out) = memory w
  ∧ handlers (snd out) = handlers w
  ∧ newEvents w (snd out)
    = loveEvents d (prompt q)
      ++ AssemblePrompt
         :: (if hasMember d "getInMemoryHistory"
             then [CacheHas (keyOf d q w); CacheGet (keyOf d q w);
                   ManageCache (keyOf d q w) cachedResponse; Log info "cache_hit"]
             else [])
  ∧ inferenceCalls (newEvents w (snd out)) = [].
Proof.
  intros Hawake Hhit out. subst out.
  destruct (hasMember d "getInMemoryHistory") eqn:Hasm.
  - rewrite (serve_cache_hit d id q w cachedResponse Hasm Hawake Hhit). cbn [fst snd].
    match goal with |- context [newEvents w ?w'] =>
      assert (E : newEvents w w' =
        loveEvents d (prompt q)
        ++ [AssemblePrompt; CacheHas (keyOf d q w); CacheGet (keyOf d q w);
            ManageCache (keyOf d q w) cachedResponse; Log info "cache_hit"]) end.
    { apply newEvents_app. unfold callManageCache.
      cbn [trace emit with_globalState]. rewrite <- !app_assoc. reflexivity. }
    rewrite E. repeat split.
    unfold inferenceCalls, loveEvents. rewrite flat_map_app.
    destruct (isFeatureEnabled _ _); reflexivity.
  - rewrite (serve_unassembled d id q w Hasm Hawake). cbn [fst snd].
    rewrite (newEvents_app w _ (loveEvents d (prompt q) ++ [AssemblePrompt])) by reflexivity.
    repeat split.
    unfold inferenceCalls, loveEvents. rewrite flat_map_app.
    destruct (isFeatureEnabled _ _); reflexivity.
Qed.

Lemma cache_hit_bypasses_limiter_witness :
  let q := fun t => Sample.request t 10 "halo" (Responded (Some "Baiklah."%string)) in
  let w1 := snd (serve Sample.deps Sample.requester (q 0) Sample.world) in
  fst (serve Sample.deps Sample.requester (q 100) w1) = Resolved "Baiklah."
  ∧ userRequestCounts (globalState (snd (serve Sample.deps Sample.requester (q 100) w1)))
    = userRequestCounts (globalState w1)
  ∧ fst (serve Sample.repository Sample.requester (q 100) w1)
    = Rejected (TypeError "memory.getInMemoryHistory is not a function").
Proof.
  intros q w1.
  assert (A : awake (q 100))
    by (unfold awake, SLEEP_START_HOUR, SLEEP_END_HOUR; cbn; lia).
  destruct (cache_hit_bypasses_limiter Sample.deps Sample.requester (q 100) w1
              "Baiklah."%string A) as (H1 & H2 & _).
  { vm_compute; reflexivity. }
  destruct (cache_hit_bypasses_limiter Sample.repository Sample.requester (q 100) w1
              "Baiklah."%string A) as (H3 & _).
  { vm_compute; reflexivity. }
  split; [exact H1 | split; [exact H2 | exact H3]].
Defined.

(** *** What [trim] leaves *)

Lemma blank_trimStart (s : string) : blank s = true <-> trimStart s = EmptyString.
Proof.
  unfold blank. destruct (trimStart s); split; intros H; try reflexivity; discriminate.
Qed.

Lemma trimStart_idem_upto (n : nat) :
  forall s, (String.length s <= n)%nat -> trimStart (trimStart s) = trimStart s.
Proof.
  induction n as [|n IH]; intros s Hn.
  - destruct s; [reflexivity | cbn [String.length] in Hn; lia].
  - destruct s as [|c1 r1]; [reflexivity|]. cbn [String.length] in Hn. cbn [trimStart].
    destruct (isWhiteSpace c1) eqn:E1; [apply IH; lia|].
    destruct r1 as [|c2 r2]; [cbn [trimStart]; rewrite E1; reflexivity|].
    cbn [String.length] in Hn.
    destruct (isWhiteSpace2 c1 c2) eqn:E2; [apply IH; lia|].
    destruct r2 as [|c3 r3]; [cbn [trimStart]; rewrite E1, E2; reflexivity|].
    cbn [String.length] in Hn.
    destruct (isWhiteSpace3 c1 c2 c3) eqn:E3; [apply IH; lia|].
    cbn [trimStart]. rewrite E1, E2, E3. reflexivity.
Qed.

Lemma trimStart_idem (s : string) : trimStart (trimStart s) = trimStart s.
Proof. apply (trimStart_idem_upto (String.length s)). lia. Qed.

(** White space before a text is trimmed away whatever the text. *)
Lemma trimStart_app_upto (n : nat) :
  forall a b, (String.length a <= n)%nat ->
              trimStart a = EmptyString -> trimStart (a +++ b) = trimStart b.
Proof.
  induction n as [|n IH]; intros a b Hn H.
  - destruct a; [reflexivity | cbn [String.length] in Hn; lia].
  - destruct a as [|c1 r1]; [reflexivity|]. cbn [String.length] in Hn.
    rewrite append_cons. cbn [trimStart] in H. cbn [trimStart].
    destruct (isWhiteSpace c1) eqn:E1; [apply IH; [lia | exact H]|].
    destruct r1 as [|c2 r2]; [discriminate|]. cbn [String.length] in Hn.
    rewrite append_cons.
    destruct (isWhiteSpace2 c1 c2) eqn:E2; [apply IH; [lia | exact H]|].
    destruct r2 as [|c3 r3]; [discriminate|]. cbn [String.length] in Hn.
    rewrite append_cons.
    destruct (isWhiteSpace3 c1 c2 c3) eqn:E3; [apply IH; [lia | exact H]|].
    discriminate.
Qed.

(** What [trimEnd] cuts off is white space. *)
Lemma trimEnd_suffix (s : string) :
  exists w, s = trimEnd s +++ w ∧ trimStart w = EmptyString.
Proof.
  induction s as [|c rest (w & Hw & Hb)]; [exists EmptyString; split; reflexivity|].
  cbn [trimEnd]. destruct (blank (String c rest)) eqn:E.
  - exists (String c rest). split; [reflexivity | apply blank_trimStart; exact E].
  - exists w. rewrite append_cons, <- Hw. split; [reflexivity | exact Hb].
Qed.

Lemma trimEnd_empty (s : string) : trimEnd s = EmptyString -> blank s = true.
Proof.
  destruct s as [|c rest]; [reflexivity|]. cbn [trimEnd].
  destruct (blank (String c rest)); [reflexivity | discriminate].
Qed.

(** What [trim] leaves is the empty text or a text that [trim] does not
    make empty: [addMessage] refuses a trimmed text only when it is
    empty. *)
Lemma trim_trim_empty (s : string) :
  trim (trim s) = EmptyString <-> trim s = EmptyString.
Proof.
  split; [|intros ->; reflexivity].
  unfold trim at 1. intros H. apply trimEnd_empty, blank_trimStart in H.
  rewrite trimStart_idem in H.
  unfold trim in *. set (t := trimStart s) in *.
  destruct (trimEnd_suffix t) as (w & Hw & Hb).
  assert (Ht : blank t = true).
  { apply blank_trimStart. rewrite Hw.
    rewrite (trimStart_app_upto _ _ _ (Nat.le_refl _) H). exact Hb. }
  destruct t as [|c rest]; [reflexivity|]. cbn [trimEnd]. rewrite Ht. reflexivity.
Qed.

(** X2. A request made while Lumina is awake, with no cached answer,
    that the limiter admits and the service would answer with a content.
    When the prompt could be assembled, the reply is the trimmed content;
    it is stored in the cache under the fingerprint of the request and,
    unless it is empty, appended to the history as an assistant message,
    the history being flushed; the requester is charged the attempt.
    With the object [memory] of the repository the call is rejected, and
    nothing is cached, recorded or charged. *)
Theorem completion_is_cached_and_recorded (d : Dependencies) (id : Z) (q : Request)
    (w : World) (c : string) :
  awake q ->
  assoc (keyOf d q w) (messageCache (globalState w)) = None ->
  throttled (now (ambient q)) (userRequestCounts (globalState w) !! id) = false ->
  completion (ambient q) = Responded (Some c) ->
  c <> EmptyString ->
  let out := serve d id q w in
  let reply := trim c in
  if hasMember d "getInMemoryHistory" then
    fst out = Resolved reply
    ∧ messageCache (globalState (snd out))
      = manageCache d (messageCache (globalState w)) (keyOf d q w) reply
    ∧ history (memory (snd out))
      = (if String.eqb reply EmptyString then history (memory w)
         else flush d (history (memory w)
                         ++ [assistantMessage (ambient q) id (messageContext q) reply]))
    ∧ preferences (memory (snd out)) = preferences (memory w)
    ∧ userRequestCounts (globalState (snd out))
      = <[id := nextRecord (now (ambient q)) (userRequestCounts (globalState w) !! id)]>
          (userRequestCounts (globalState w))
  else
    fst out = Rejected (TypeError "memory.getInMemoryHistory is not a function")
    ∧ globalState (snd out) = globalState w
    ∧ memory (snd out) = memory w.
Proof.
  intros Ha Hmiss Ht Hc Hne out reply. subst out reply.
  destruct (hasMember d "getInMemoryHistory") eqn:Hm.
  - assert (Hr : reachesLimiter d q w) by (split; [exact Hm | split; assumption]).
    rewrite (serve_at_limiter d id q w Hr). cbn zeta. rewrite Ht.
    unfold requestCompletion, resolved. rewrite Hc.
    assert (Htruthy : truthy (Some c) = true) by (destruct c; [congruence | reflexivity]).
    rewrite Htruthy. change (default EmptyString (Some c)) with c.
    unfold callManageCache, addMessage, assistantMessage.
    cbn [content].
    pose proof (trim_trim_empty c) as Hidem.
    destruct (trim c) as [|x rest] eqn:Et.
    + change (trim EmptyString) with EmptyString. repeat split; reflexivity.
    + destruct (trim (String x rest)) eqn:Et2.
      * destruct Hidem as [Hidem _]. discriminate (Hidem eq_refl).
      * repeat split; reflexivity.
  - rewrite (serve_unassembled d id q w Hm Ha). cbn [fst snd]. repeat split.
Qed.

Lemma completion_is_cached_and_recorded_witness :
  let q := Sample.request 0 10 "halo" (Responded (Some "  Baiklah. "%string)) in
  let out := serve Sample.deps Sample.requester q Sample.world in
  fst out = Resolved "Baiklah."
  ∧ map content (history (memory (snd out))) = ["Baiklah."%string]
  ∧ fst (serve Sample.repository Sample.requester q Sample.world)
    = Rejected (TypeError "memory.getInMemoryHistory is not a function").
Proof.
  intros q out.
  assert (A : awake q) by (unfold awake, SLEEP_START_HOUR, SLEEP_END_HOUR; cbn; lia).
  pose proof (completion_is_cached_and_recorded Sample.deps Sample.requester q Sample.world
                "  Baiklah. "%string A eq_refl eq_refl eq_refl) as H.
  pose proof (completion_is_cached_and_recorded Sample.repository Sample.requester q
                Sample.world "  Baiklah. "%string A eq_refl eq_refl eq_refl) as H'.
  cbn zeta in H, H'.
  change (hasMember Sample.deps "getInMemoryHistory") with true in H.
  change (hasMember Sample.repository "getInMemoryHistory") with false in H'.
  cbv iota in H, H'.
  destruct H as (H1 & _ & H3 & _); [discriminate|].
  destruct H' as (H4 & _); [discriminate|].
  split; [exact H1 | split; [fold out in H3; rewrite H3; reflexivity | exact H4]].
Defined.

(** ** The records of the limiter *)

Lemma serve_asleep (d : Dependencies) (id : Z) (q : Request) (w : World) :
  SLEEP_START_HOUR <= jakartaHour (ambient q) < SLEEP_END_HOUR ->
  serve d id q w = (Resolved (sleepReply d (userName q)), emit (loveEvents d (prompt q)) w).
Proof.
  intros H. unfold serve, generateAIResponse. rewrite love_emit, (asleep_true _ H).
  reflexivity.
Qed.

Lemma loveEvents_no_inference (d : Dependencies) (p : string) :
  inferenceCalls (loveEvents d p) = [].
Proof. unfold loveEvents. destruct (isFeatureEnabled _ _); reflexivity. Qed.

Lemma inferenceCalls_app (es es' : list Event) :
  inferenceCalls (es ++ es') = inferenceCalls es ++ inferenceCalls es'.
Proof. unfold inferenceCalls. apply flat_map_app. Qed.

(** One call, whatever its path: either it makes no inference call and
    leaves the records alone, or it is admitted by the limiter, makes one
    inference call and charges the requester. *)
Lemma serve_step (d : Dependencies) (id : Z) (q : Request) (w : World) :
  exists es,
    trace (snd (serve d id q w)) = trace w ++ es
    ∧ ((inferenceCalls es = []
        ∧ userRequestCounts (globalState (snd (serve d id q w)))
          = userRequestCounts (globalState w))
       ∨ (length (inferenceCalls es) = 1%nat
          ∧ throttled (now (ambient q)) (userRequestCounts (globalState w) !! id) = false
          ∧ userRequestCounts (globalState (snd (serve d id q w)))
            = <[id := nextRecord (now (ambient q)) (userRequestCounts (globalState w) !! id)]>
                (userRequestCounts (globalState w)))).
Proof.
  destruct (decide (SLEEP_START_HOUR <= jakartaHour (ambient q) < SLEEP_END_HOUR))
    as [Hs | Hawake].
  - rewrite (serve_asleep d id q w Hs). eexists. split; [reflexivity|].
    left. split; [apply loveEvents_no_inference | reflexivity].
  - destruct (hasMember d "getInMemoryHistory") eqn:Hasm.
    2:{ rewrite (serve_unassembled d id q w Hasm Hawake). eexists. split; [reflexivity|].
        left. split; [|reflexivity].
        rewrite inferenceCalls_app, loveEvents_no_inference. reflexivity. }
    destruct (assoc (keyOf d q w) (messageCache (globalState w))) as [cached|] eqn:Hc.
    + rewrite (serve_cache_hit d id q w cached Hasm Hawake Hc). eexists. split.
      * unfold callManageCache. cbn [snd trace emit with_globalState].
        rewrite <- !app_assoc. reflexivity.
      * left. split; [|reflexivity].
        rewrite !inferenceCalls_app, loveEvents_no_inference. reflexivity.
    + assert (Hr : reachesLimiter d q w) by (split; [exact Hasm | split; assumption]).
      destruct (throttled (now (ambient q)) (userRequestCounts (globalState w) !! id)) eqn:Ht.
      * rewrite (serve_throttled d id q w Hr Ht). eexists. split; [reflexivity|].
        left. split; [apply gateEvents_no_inference | reflexivity].
      * pose proof (serve_records d id q w Hr) as Hrec. cbn zeta in Hrec. rewrite Ht in Hrec.
        pose proof (serve_admitted_calls d id q w Hr Ht) as Hcalls.
        rewrite (serve_at_limiter d id q w Hr) in *. cbn zeta in *. rewrite Ht in *.
        unfold resolved in *. cbn [snd] in *.
        match goal with |- context [requestCompletion ?d ?a ?p ?i ?m ?u ?k ?w0] =>
          destruct (requestCompletion_frame d a p i m u k w0) as (_ & _ & es & Htr & Hi) end.
        eexists. split.
        { rewrite Htr. cbn [trace setUserStats emit with_globalState].
          rewrite <- !app_assoc. reflexivity. }
        right. split; [|split; [reflexivity | exact Hrec]].
        rewrite !inferenceCalls_app, gateEvents_no_inference, Hi. reflexivity.
Qed.

Lemma nextRecord_bounded (now : Z) (stats : option RateRecord) :
  (forall r, stats = Some r -> 1 <= count r <= RATE_LIMIT_MAX_REQUESTS) ->
  throttled now stats = false ->
  1 <= count (nextRecord now stats) <= RATE_LIMIT_MAX_REQUESTS
  ∧ lastCalled (nextRecord now stats) = now.
Proof.
  intros Hb Ht. unfold nextRecord, throttled, RATE_LIMIT_MAX_REQUESTS in *.
  destruct stats as [r|]; [|cbn; lia].
  specialize (Hb r eq_refl). rewrite Z.geb_leb in *.
  destruct (Z.leb_spec RATE_LIMIT_WINDOW_MS (now - lastCalled r)); [cbn; lia|].
  apply andb_false_iff in Ht as [Ht | Ht].
  - apply Z.ltb_ge in Ht. lia.
  - apply Z.leb_gt in Ht. cbn. lia.
Qed.

Lemma records_bounded_step (d : Dependencies) (id : Z) (q : Request) (w : World) :
  recordsBounded (userRequestCounts (globalState w)) ->
  recordsBounded (userRequestCounts (globalState (snd (serve d id q w)))).
Proof.
  intros Hb. destruct (serve_step d id q w) as (es & _ & [[_ ->] | (_ & Ht & ->)]);
    [exact Hb|].
  intros id' r Hr. destruct (decide (id = id')) as [<- | Hne].
  - rewrite lookup_insert_eq in Hr. injection Hr as <-.
    apply nextRecord_bounded; [|exact Ht]. intros r0 Hr0. apply (Hb id r0 Hr0).
  - rewrite lookup_insert_ne in Hr by assumption. apply (Hb id' r Hr).
Qed.

(** X3. The counts stay within the ceiling: if every record counts
    between 1 and 3 requests, every record still does after any sequence
    of calls to [generateAIResponse], whichever paths the calls take
    (asleep, rejected, cache hit, refused, admitted). *)
Theorem records_stay_bounded (d : Dependencies) (id : Z) (qs : list Request) (w : World) :
  recordsBounded (userRequestCounts (globalState w)) ->
  recordsBounded (userRequestCounts (globalState (serveAll d id qs w))).
Proof.
  revert w. induction qs as [|q qs IH]; intros w Hb; [exact Hb|].
  apply (IH (snd (serve d id q w))). apply records_bounded_step. exact Hb.
Qed.

Lemma records_stay_bounded_witness :
  recordsBounded
    (userRequestCounts
       (globalState
          (serveAll Sample.deps Sample.requester
             [Sample.request 0 10 "a" (Responded (Some "A"%string));
              Sample.request 10 10 "b" (Threw {| message := "ETIMEDOUT" |})]
             Sample.world))).
Proof.
  apply records_stay_bounded. intros id r Hr. vm_compute in Hr. discriminate.
Defined.

(** X4. A call for one requester never touches the record of another. *)
Theorem other_requesters_untouched (d : Dependencies) (id other : Z) (q : Request)
    (w : World) :
  other <> id ->
  userRequestCounts (globalState (snd (serve d id q w))) !! other
  = userRequestCounts (globalState w) !! other.
Proof.
  intros Hne. destruct (serve_step d id q w) as (es & _ & [[_ ->] | (_ & _ & ->)]);
    [reflexivity|].
  apply lookup_insert_ne. congruence.
Qed.

Lemma other_requesters_untouched_witness :
  userRequestCounts
    (globalState
       (snd (serve Sample.deps Sample.requester
               (Sample.request 0 10 "halo" (Responded (Some "Baiklah."%string)))
               Sample.world))) !! 8
  = None.
Proof.
  refine (eq_trans (other_requesters_untouched Sample.deps Sample.requester 8 _ _ _) _).
  - discriminate.
  - reflexivity.
Defined.

(** ** How many requests a window lets through *)

Lemma serveAll_cons (d : Dependencies) (id : Z) (q : Request) (qs : list Request)
    (w : World) :
  serveAll d id (q :: qs) w = serveAll d id qs (snd (serve d id q w)).
Proof. reflexivity. Qed.

(** In a running window, the requests still admitted are at most what the
    count leaves below the ceiling. *)
Lemma serveAll_running_window (d : Dependencies) (id : Z) (qs : list Request) :
  forall (w : World) (r : RateRecord),
    userRequestCounts (globalState w) !! id = Some r ->
    1 <= count r <= RATE_LIMIT_MAX_REQUESTS ->
    (forall q, In q qs -> now (ambient q) - lastCalled r < RATE_LIMIT_WINDOW_MS) ->
    (forall q q', In q qs -> In q' qs ->
                  now (ambient q') - now (ambient q) < RATE_LIMIT_WINDOW_MS) ->
    exists es,
      trace (serveAll d id qs w) = trace w ++ es
      ∧ Z.of_nat (length (inferenceCalls es)) + count r <= RATE_LIMIT_MAX_REQUESTS.
Proof.
  induction qs as [|q qs IH]; intros w r Hr Hb Hwin Hpair.
  - exists []. cbn. rewrite app_nil_r. split; [reflexivity | lia].
  - rewrite serveAll_cons.
    destruct (serve_step d id q w) as (es1 & Ht1 & [[Hi1 Hu] | (Hi1 & Hthr & Hu)]).
    + destruct (IH (snd (serve d id q w)) r) as (es2 & Ht2 & Hlen).
      * rewrite Hu. exact Hr.
      * exact Hb.
      * intros q' Hq'. apply Hwin. right; exact Hq'.
      * intros q1 q2 H1 H2. apply Hpair; right; assumption.
      * exists (es1 ++ es2). split.
        { rewrite Ht2, Ht1, app_assoc. reflexivity. }
        rewrite inferenceCalls_app, Hi1. exact Hlen.
    + rewrite Hr in Hthr, Hu.
      assert (Hin : now (ambient q) - lastCalled r < RATE_LIMIT_WINDOW_MS)
        by (apply Hwin; left; reflexivity).
      assert (Hc : count r < RATE_LIMIT_MAX_REQUESTS).
      { unfold throttled in Hthr. apply andb_false_iff in Hthr as [H | H].
        - apply Z.ltb_ge in H. lia.
        - rewrite Z.geb_leb in H. apply Z.leb_gt in H. exact H. }
      rewrite (nextRecord_running _ _ Hin) in Hu.
      destruct (IH (snd (serve d id q w))
                  {| count := count r + 1; lastCalled := now (ambient q) |})
        as (es2 & Ht2 & Hlen).
      * rewrite Hu. apply lookup_insert_eq.
      * cbn. lia.
      * intros q' Hq'. cbn. apply Hpair; [left; reflexivity | right; exact Hq'].
      * intros q1 q2 H1 H2. apply Hpair; right; assumption.
      * exists (es1 ++ es2). split.
        { rewrite Ht2, Ht1, app_assoc. reflexivity. }
        rewrite inferenceCalls_app, length_app, Hi1. cbn in Hlen. lia.
Qed.

Lemma window_admits_at_most_three_events (d : Dependencies) (id : Z) (qs : list Request) :
  forall w : World,
    recordsBounded (userRequestCounts (globalState w)) ->
    (forall q q', In q qs -> In q' qs ->
                  now (ambient q') - now (ambient q) < RATE_LIMIT_WINDOW_MS) ->
    exists es,
      trace (serveAll d id qs w) = trace w ++ es
      ∧ (length (inferenceCalls es) <= 3)%nat.
Proof.
  induction qs as [|q qs IH]; intros w Hb Hpair.
  - exists []. cbn. rewrite app_nil_r. split; [reflexivity | lia].
  - rewrite serveAll_cons.
    assert (Hb1 := records_bounded_step d id q w Hb).
    destruct (serve_step d id q w) as (es1 & Ht1 & [[Hi1 Hu] | (Hi1 & Hthr & Hu)]).
    + destruct (IH (snd (serve d id q w)) Hb1
                  (fun q1 q2 H1 H2 => Hpair q1 q2 (or_intror H1) (or_intror H2)))
        as (es2 & Ht2 & Hlen).
      exists (es1 ++ es2). split.
      * rewrite Ht2, Ht1, app_assoc. reflexivity.
      * rewrite inferenceCalls_app, Hi1. exact Hlen.
    + pose proof (nextRecord_bounded (now (ambient q))
                    (userRequestCounts (globalState w) !! id)
                    (fun r Hr => Hb id r Hr) Hthr) as [Hc Hl].
      destruct (serveAll_running_window d id qs (snd (serve d id q w))
                  (nextRecord (now (ambient q)) (userRequestCounts (globalState w) !! id)))
        as (es2 & Ht2 & Hlen).
      * rewrite Hu. apply lookup_insert_eq.
      * exact Hc.
      * intros q' Hq'. rewrite Hl. apply Hpair; [left; reflexivity | right; exact Hq'].
      * intros q1 q2 H1 H2. apply Hpair; right; assumption.
      * exists (es1 ++ es2). split.
        { rewrite Ht2, Ht1, app_assoc. reflexivity. }
        rewrite inferenceCalls_app, length_app, Hi1.
        unfold RATE_LIMIT_MAX_REQUESTS in *. lia.
Qed.

(** X5. However many requests a requester issues within one window of
    20 s, in whatever state the cache and its record are, at most three of
    them reach the inference service. *)
Theorem window_admits_at_most_three (d : Dependencies) (id : Z) (qs : list Request)
    (w : World) :
  recordsBounded (userRequestCounts (globalState w)) ->
  (forall q q', In q qs -> In q' qs ->
                now (ambient q') - now (ambient q) < RATE_LIMIT_WINDOW_MS) ->
  (length (inferenceCalls (newEvents w (serveAll d id qs w))) <= 3)%nat.
Proof.
  intros Hb Hpair.
  destruct (window_admits_at_most_three_events d id qs w Hb Hpair) as (es & Ht & Hlen).
  rewrite (newEvents_app w _ es Ht). exact Hlen.
Qed.

Lemma window_admits_at_most_three_witness :
  let q := fun t text => Sample.request t 10 text (Responded (Some "Baiklah."%string)) in
  let qs := [q 0 "a"%string; q 1000 "b"%string; q 2000 "c"%string; q 3000 "d"%string;
             q 19000 "e"%string] in
  (length (inferenceCalls (newEvents Sample.world
                             (serveAll Sample.deps Sample.requester qs Sample.world)))
   <= 3)%nat.
Proof.
  intros q qs. apply window_admits_at_most_three.
  - intros id r Hr. vm_compute in Hr. discriminate.
  - intros q1 q2 H1 H2. cbn in H1, H2.
    repeat (destruct H1 as [<- | H1]; [|]); try contradiction;
      repeat (destruct H2 as [<- | H2]; [|]); try contradiction;
      cbn; unfold RATE_LIMIT_WINDOW_MS; lia.
Defined.

(* ===================================================================== *)
(** * Further properties of the mood and its timer *)
(* ===================================================================== *)

Lemma setMood_nextTimerId (d : Dependencies) (now : Z) (chatId : option Z) (newMood : Mood)
    (durationMs : option Z) (w : World) :
  nextTimerId (handlers (setMood d now chatId newMood durationMs w))
  = if sticky newMood then nextTimerId (handlers w) else S (nextTimerId (handlers w)).
Proof.
  destruct (clearTimeout_mood (moodTimeoutId (handlers w)) (handlers w))
    as (_ & _ & _ & Hn).
  unfold setMood, sticky. cbn zeta. cbn [handlers with_handlers].
  destruct (negb (Mood_eqb (currentMood (clearTimeout _ (handlers w))) newMood));
    [destruct (givenChat chatId)|];
    destruct (Mood_eqb newMood NORMAL), (Mood_eqb newMood CALM);
    cbn; rewrite ?Hn; reflexivity.
Qed.

(** X6. A change of mood is announced once: [setMood] with another mood
    than the current one makes it the current mood and sends its
    announcement to the chat, and sends nothing when no chat is given;
    [globalState] and the memory are not touched. *)
Theorem setMood_announces_change (d : Dependencies) (now : Z) (chatId : option Z)
    (newMood : Mood) (durationMs : option Z) (w : World) :
  newMood <> currentMood (handlers w) ->
  let w' := setMood d now chatId newMood durationMs w in
  currentMood (handlers w') = newMood
  ∧ sent (newEvents w w')
    = (if givenChat chatId then [(chatId, announcement d newMood)] else [])
  ∧ globalState w' = globalState w
  ∧ memory w' = memory w.
Proof.
  intros Hne w'. subst w'.
  destruct (setMood_frame d now chatId newMood durationMs w) as (Hg & Hm & Hc & _ & Ht).
  cbn zeta in *. rewrite (newEvents_app w _ _ Ht), sent_moodEvents.
  replace (Mood_eqb (currentMood (handlers w)) newMood) with false.
  - repeat split; assumption.
  - symmetry. apply not_true_is_false. intros E. apply Mood_eqb_eq in E. congruence.
Qed.

Lemma setMood_announces_change_witness :
  sent (trace (setMood Sample.deps 0 (Some 7) HAPPY None Sample.world))
  = [(Some 7, "Lumina sekarang Senang :D"%string)].
Proof.
  destruct (setMood_announces_change Sample.deps 0 (Some 7) HAPPY None Sample.world)
    as (_ & H & _).
  - discriminate.
  - exact H.
Defined.

(** X7. A mood other than NORMAL and CALM reverts, silently: [setMood]
    schedules one timer, due [durationMs] after the call, or 1 ms after it
    when [durationMs] is below 1 or above [TIMEOUT_MAX]; when that timer
    comes due, the mood is NORMAL, no timer is pending and nothing is
    sent. *)
Theorem scheduled_revert_restores_normal (d : Dependencies) (now : Z) (chatId : option Z)
    (newMood : Mood) (durationMs : option Z) (w : World) :
  oneTimer (handlers w) ->
  sticky newMood = false ->
  let w1 := setMood d now chatId newMood durationMs w in
  let w2 := fireTimer (nextTimerId (handlers w)) w1 in
  map dueAt (timers (handlers w1))
  = [now + timerDelay (default MOOD_TIMEOUT_MS durationMs)]
  ∧ currentMood (handlers w2) = NORMAL
  ∧ timers (handlers w2) = []
  ∧ sent (newEvents w1 w2) = []
  ∧ globalState w2 = globalState w1.
Proof.
  intros Ho Hs w1 w2.
  destruct (setMood_timers d now chatId newMood durationMs w Ho) as [Ht _].
  cbn zeta in Ht. rewrite Hs in Ht. fold w1 in Ht.
  subst w2. unfold fireTimer. rewrite Ht. cbn [existsb timerId orb].
  rewrite Nat.eqb_refl. cbn [orb List.filter timerId negb map dueAt].
  rewrite Nat.eqb_refl. cbn [negb].
  rewrite (newEvents_app w1 _ [Log info "mood_reset"]) by reflexivity.
  repeat split.
Qed.

Lemma scheduled_revert_restores_normal_witness :
  let w1 := setMood Sample.deps 0 (Some 7) HAPPY (Some 1000) Sample.world in
  let late := setMood Sample.deps 0 (Some 7) HAPPY (Some 3000000000) Sample.world in
  map dueAt (timers (handlers w1)) = [1000]
  ∧ map dueAt (timers (handlers late)) = [1]
  ∧ currentMood (handlers (fireTimer 0 w1)) = NORMAL.
Proof.
  intros w1 late.
  destruct (scheduled_revert_restores_normal Sample.deps 0 (Some 7) HAPPY (Some 1000)
              Sample.world) as (H1 & H2 & _).
  - exact I.
  - reflexivity.
  - destruct (scheduled_revert_restores_normal Sample.deps 0 (Some 7) HAPPY
                (Some 3000000000) Sample.world) as (H3 & _).
    + exact I.
    + reflexivity.
    + split; [exact H1 | split; [exact H3 | exact H2]].
Defined.

(** X8. A revert that was superseded never happens: once [setMood] is
    called again, the timer that the earlier call scheduled is cancelled,
    and its coming due changes nothing. *)
Theorem superseded_revert_is_dead (d : Dependencies) (t1 t2 : Z) (c1 c2 : option Z)
    (m1 m2 : Mood) (dur1 dur2 : option Z) (w : World) :
  oneTimer (handlers w) ->
  sticky m1 = false ->
  let w1 := setMood d t1 c1 m1 dur1 w in
  let w2 := setMood d t2 c2 m2 dur2 w1 in
  map timerId (timers (handlers w1)) = [nextTimerId (handlers w)]
  ∧ fireTimer (nextTimerId (handlers w)) w2 = w2.
Proof.
  intros Ho Hs w1 w2.
  destruct (setMood_timers d t1 c1 m1 dur1 w Ho) as [Ht1 Ho1].
  cbn zeta in Ht1, Ho1. rewrite Hs in Ht1. fold w1 in Ht1, Ho1.
  destruct (setMood_timers d t2 c2 m2 dur2 w1 Ho1) as [Ht2 _].
  cbn zeta in Ht2. fold w2 in Ht2.
  assert (Hn : nextTimerId (handlers w1) = S (nextTimerId (handlers w))).
  { subst w1. rewrite setMood_nextTimerId, Hs. reflexivity. }
  split; [rewrite Ht1; reflexivity|].
  unfold fireTimer. rewrite Ht2, Hn.
  destruct (sticky m2); cbn [existsb timerId orb]; [reflexivity|].
  replace (S (nextTimerId (handlers w)) =? nextTimerId (handlers w))%nat with false;
    [reflexivity|].
  symmetry. apply Nat.eqb_neq. lia.
Qed.

Lemma superseded_revert_is_dead_witness :
  let w1 := setMood Sample.deps 0 (Some 7) HAPPY (Some 1000) Sample.world in
  let w2 := setMood Sample.deps 500 (Some 7) SAD (Some 1000) w1 in
  currentMood (handlers (fireTimer 0 w2)) = SAD.
Proof.
  intros w1 w2.
  destruct (superseded_revert_is_dead Sample.deps 0 500 (Some 7) (Some 7) HAPPY SAD
              (Some 1000) (Some 1000) Sample.world) as (_ & H).
  - exact I.
  - reflexivity.
  - fold w1 w2 in H.
    change (currentMood (handlers (fireTimer (nextTimerId (handlers Sample.world)) w2))
            = SAD).
    rewrite H. reflexivity.
Defined.

(** X9. The moods that [getRandomMood] can draw are exactly the moods of
    the catalogue other than CALM: each of them is drawn for some value of
    [Math.random()], and CALM for none. *)
Theorem getRandomMood_range (m : Mood) :
  (exists r, getRandomMood r = m) <-> m <> CALM.
Proof.
  split.
  - intros [r <-]. apply getRandomMood_not_CALM.
  - intros Hm.
    destruct m;
      [ exists {| numer := 0; gap := 6 |} | exists {| numer := 1; gap := 5 |}
      | exists {| numer := 2; gap := 4 |} | exists {| numer := 3; gap := 3 |}
      | exists {| numer := 4; gap := 2 |} | exists {| numer := 5; gap := 1 |}
      | congruence | exists {| numer := 6; gap := 0 |} ]; reflexivity.
Qed.

(* ===================================================================== *)
(** * Further properties of the sulk evaluation *)
(* ===================================================================== *)

Lemma enterNgambek_frame (d : Dependencies) (now : Z) (chatId : option Z) (w : World) :
  let w' := enterNgambek d now chatId w in
  lastInteractionTimestamp (globalState w') = lastInteractionTimestamp (globalState w)
  ∧ dailyChatCounts (globalState w') = dailyChatCounts (globalState w)
  ∧ assoc "dailyChatCounts" (preferences (memory w'))
    = assoc "dailyChatCounts" (preferences (memory w)).
Proof.
  cbn zeta. destruct (isNgambekMode (globalState w)) eqn:Hn.
  - rewrite (enterNgambek_stays d now chatId w) by (left; exact Hn). repeat split.
  - destruct (lastInteractionTimestamp (globalState w)) as [last|] eqn:Hl.
    + destruct (Z_lt_le_dec (diffDays now last) NGAMBEK_DURATION_DAYS) as [Hd | Hd].
      * rewrite (enterNgambek_stays d now chatId w)
          by (right; right; exists last; split; assumption).
        rewrite Hl. repeat split.
      * destruct (enterNgambek_enters d now chatId w last Hn Hl Hd) as (Hg & _ & Hm & _).
        cbn zeta in *. rewrite Hg, Hm. cbn [lastInteractionTimestamp dailyChatCounts
          set_isNgambekMode preferences set_preferences].
        rewrite (assoc_upsert_ne "isNgambekMode" "dailyChatCounts") by discriminate.
        rewrite Hl. repeat split.
    + rewrite (enterNgambek_stays d now chatId w) by (right; left; exact Hl).
      rewrite Hl. repeat split.
Qed.

Lemma leaveNgambek_frame (d : Dependencies) (r : UnitInterval) (now : Z)
    (chatId : option Z) (w : World) :
  let w' := leaveNgambek d r now chatId w in
  lastInteractionTimestamp (globalState w') = lastInteractionTimestamp (globalState w)
  ∧ (dailyChatCounts (globalState w') = dailyChatCounts (globalState w)
     ∨ dailyChatCounts (globalState w') = ∅).
Proof.
  cbn zeta. destruct (isNgambekMode (globalState w)) eqn:Hn.
  - destruct (hasSufficientInteraction d now (dailyChatCounts (globalState w))) eqn:Hs.
    + destruct (leaveNgambek_leaves d r now chatId w Hn Hs) as (Hg & _).
      cbn zeta in Hg. rewrite Hg. split; [reflexivity | right; reflexivity].
    + rewrite (leaveNgambek_stays d r now chatId w) by (right; exact Hs).
      split; [reflexivity | left; reflexivity].
  - rewrite (leaveNgambek_stays d r now chatId w) by (left; exact Hn).
    split; [reflexivity | left; reflexivity].
Qed.

(** Whatever the evaluation does, it keeps the last interaction, adds no
    count and alters none; and under the feature flag the counts it leaves
    are the counts it saved. *)
Lemma checkNgambekStatus_frame (d : Dependencies) (r : UnitInterval) (now : Z)
    (chatId : option Z) (w : World) :
  let w' := checkNgambekStatus d r now chatId w in
  lastInteractionTimestamp (globalState w') = lastInteractionTimestamp (globalState w)
  ∧ (forall day c, dailyChatCounts (globalState w') !! day = Some c ->
                   dailyChatCounts (globalState w) !! day = Some c)
  ∧ (loadedCounts w' = dailyChatCounts (globalState w')
     ∨ (loadedCounts w' = loadedCounts w
        ∧ dailyChatCounts (globalState w') = dailyChatCounts (globalState w))).
Proof.
  cbn zeta. unfold checkNgambekStatus.
  destruct (isFeatureEnabled (flags d) "ENABLE_NGAMBEK_MODE"); cbn [negb].
  - destruct (enterNgambek_frame d now chatId w) as (El & Ec & _).
    destruct (leaveNgambek_frame d r now chatId (enterNgambek d now chatId w)) as (Ll & Lc).
    cbn zeta in *.
    set (wx := leaveNgambek d r now chatId (enterNgambek d now chatId w)) in *.
    destruct (cleanCounts_frame d now wx) as (Cg & _ & Cm & _). cbn zeta in *.
    unfold loadedCounts, getPreference. rewrite Cg, Cm.
    cbn [lastInteractionTimestamp dailyChatCounts set_dailyChatCounts preferences
         set_preferences].
    rewrite assoc_upsert_eq, Ll, El. split; [reflexivity|]. split; [|left; reflexivity].
    intros day c Hc. apply pruneCounts_lookup_Some in Hc as [Hc _].
    destruct Lc as [Lc | Lc]; rewrite Lc in Hc.
    + rewrite <- Ec. exact Hc.
    + rewrite lookup_empty in Hc. discriminate.
  - destruct (isNgambekMode (globalState w)).
    + unfold loadedCounts, getPreference. cbn.
      rewrite (assoc_upsert_ne "isNgambekMode" "dailyChatCounts") by discriminate.
      split; [reflexivity|]. split; [tauto|]. right. split; reflexivity.
    + split; [reflexivity|]. split; [tauto|]. right. split; reflexivity.
Qed.

(** X10. With the feature flag off the evaluation is a switch-off: a
    sulking state has its flag cleared and saved, and nothing else
    happens; the mood, its timer and the counts are untouched, nothing is
    sent, and a state that is not sulking is left exactly as it is. *)
Theorem sulk_feature_off (d : Dependencies) (r : UnitInterval) (now : Z)
    (chatId : option Z) (w : World) :
  isFeatureEnabled (flags d) "ENABLE_NGAMBEK_MODE" = false ->
  let w' := checkNgambekStatus d r now chatId w in
  isNgambekMode (globalState w') = false
  ∧ (isNgambekMode (globalState w) = true ->
     getPreference "isNgambekMode" w' = Some (PBool false))
  ∧ (isNgambekMode (globalState w) = false -> w' = w)
  ∧ handlers w' = handlers w
  ∧ dailyChatCounts (globalState w') = dailyChatCounts (globalState w)
  ∧ sent (newEvents w w') = [].
Proof.
  intros Hf w'. subst w'. unfold checkNgambekStatus. rewrite Hf. cbn [negb].
  destruct (isNgambekMode (globalState w)) eqn:Hn.
  - rewrite (newEvents_app w _ [Log info "ngambek_mode_force_disabled"]) by reflexivity.
    unfold getPreference. cbn. rewrite assoc_upsert_eq.
    repeat split; intros; congruence.
  - unfold newEvents. rewrite skipn_all. repeat split; intros; congruence.
Qed.

Lemma sulk_feature_off_witness :
  let d := {| Moods := Sample.moods; manageCache := Sample.touch; flags := [];
              memoryMembers := memoryExports;
              daysBack := fun t i => t - i * MS_PER_DAY;
              historyTies := fun _ _ i => Z.of_nat i;
              ltmTies := fun _ i => Z.of_nat i;
              findOrder := fun _ _ i => Z.of_nat i |} in
  let w := Sample.state true (Some 0) {[ 3 := 6; 2 := 6 ]} JEALOUS in
  let w' := checkNgambekStatus d Sample.half (3 * MS_PER_DAY) (Some 7) w in
  isNgambekMode (globalState w') = false ∧ sent (newEvents w w') = [].
Proof.
  intros d w w'.
  destruct (sulk_feature_off d Sample.half (3 * MS_PER_DAY) (Some 7) w eq_refl)
    as (H1 & _ & _ & _ & _ & H6).
  split; [exact H1 | exact H6].
Defined.

(** X11. Without a recorded last interaction the sulk is never entered:
    in a state that is not sulking and has no last-interaction timestamp,
    the evaluation leaves the flag off and the mood state as it is and
    sends nothing, whatever the time. *)
Theorem no_last_interaction_no_sulk (d : Dependencies) (r : UnitInterval) (now : Z)
    (chatId : option Z) (w : World) :
  isFeatureEnabled (flags d) "ENABLE_NGAMBEK_MODE" = true ->
  isNgambekMode (globalState w) = false ->
  lastInteractionTimestamp (globalState w) = None ->
  let w' := checkNgambekStatus d r now chatId w in
  isNgambekMode (globalState w') = false
  ∧ handlers w' = handlers w
  ∧ sent (newEvents w w') = []
  ∧ trace w' = trace w.
Proof.
  intros Hf Hn Hl w'. subst w'.
  rewrite (checkNgambekStatus_settled d r now chatId w Hf)
    by (split; [right; left; exact Hl | left; exact Hn]).
  destruct (cleanCounts_frame d now w) as (Cg & Ch & _ & Ct). cbn zeta in *.
  rewrite Cg, Ch, Ct. unfold newEvents. rewrite Ct, skipn_all.
  repeat split. exact Hn.
Qed.

Lemma no_last_interaction_no_sulk_witness :
  isNgambekMode
    (globalState (checkNgambekStatus Sample.deps Sample.half (400 * MS_PER_DAY) (Some 7)
                    Sample.world)) = false.
Proof.
  exact (proj1 (no_last_interaction_no_sulk Sample.deps Sample.half (400 * MS_PER_DAY)
                  (Some 7) Sample.world eq_refl eq_refl eq_refl)).
Defined.

(** X12. Under the feature flag every evaluation prunes and saves: the
    counts it leaves hold no day whose UTC midnight is before the date
    that [setDate] gives for three local days back, which on a host whose
    local time keeps one offset from UTC is three times 24 hours back;
    each was a count before, and the saved preference "dailyChatCounts" is
    the count map of [globalState]. *)
Theorem evaluation_prunes_and_saves (d : Dependencies) (r : UnitInterval) (now : Z)
    (chatId : option Z) (w : World) :
  isFeatureEnabled (flags d) "ENABLE_NGAMBEK_MODE" = true ->
  let w' := checkNgambekStatus d r now chatId w in
  (forall day c, dailyChatCounts (globalState w') !! day = Some c ->
     setDateBack d now (NGAMBEK_DURATION_DAYS + 1) <= day * MS_PER_DAY
     ∧ (fixedOffset d ->
        now - (NGAMBEK_DURATION_DAYS + 1) * MS_PER_DAY <= day * MS_PER_DAY)
     ∧ dailyChatCounts (globalState w) !! day = Some c)
  ∧ getPreference "dailyChatCounts" w' = Some (PCounts (dailyChatCounts (globalState w'))).
Proof.
  intros Hf w'.
  destruct (checkNgambekStatus_frame d r now chatId w) as (_ & Hsub & _).
  cbn zeta in Hsub. fold w' in Hsub.
  assert (E : exists wx, w' = cleanCounts d now wx).
  { subst w'. unfold checkNgambekStatus. rewrite Hf. cbn [negb]. eexists. reflexivity. }
  destruct E as (wx & E).
  destruct (cleanCounts_frame d now wx) as (Cg & _ & Cm & _). cbn zeta in *.
  rewrite <- E in Cg, Cm. split.
  - intros day c Hc. split; [|split; [|apply Hsub; exact Hc]];
      rewrite Cg in Hc; cbn [dailyChatCounts set_dailyChatCounts] in Hc;
      apply pruneCounts_lookup_Some in Hc as [_ Hc].
    + exact Hc.
    + intros Hfix. rewrite (Hfix now) in Hc. exact Hc.
  - unfold getPreference. rewrite Cm, Cg.
    cbn [preferences set_preferences dailyChatCounts set_dailyChatCounts].
    apply assoc_upsert_eq.
Qed.

Lemma evaluation_prunes_and_saves_witness :
  let w := Sample.state true (Some 0) {[ 0 := 5; 9 := 2 ]} JEALOUS in
  let w' := checkNgambekStatus Sample.deps Sample.half (10 * MS_PER_DAY) (Some 7) w in
  let late := Sample.state true (Some 0) {[ 20027 := 5; 20028 := 2 ]} JEALOUS in
  let late' := checkNgambekStatus Sample.newYork Sample.half 1730680200000 (Some 7) late in
  getPreference "dailyChatCounts" w' = Some (PCounts (dailyChatCounts (globalState w')))
  ∧ dailyChatCounts (globalState w') = {[ 9 := 2 ]}
  ∧ getPreference "dailyChatCounts" late'
    = Some (PCounts (dailyChatCounts (globalState late')))
  ∧ dailyChatCounts (globalState late') = {[ 20028 := 2 ]}.
Proof.
  intros w w' late late'. split; [|split; [|split]].
  - exact (proj2 (evaluation_prunes_and_saves Sample.deps Sample.half (10 * MS_PER_DAY)
                    (Some 7) w eq_refl)).
  - vm_compute. reflexivity.
  - exact (proj2 (evaluation_prunes_and_saves Sample.newYork Sample.half 1730680200000
                    (Some 7) late eq_refl)).
  - vm_compute. reflexivity.
Defined.

(** ** Recording an interaction *)

Lemma updateInteractionStatus_frame (now : Z) (w : World) :
  let w' := fst (updateInteractionStatus now w) in
  lastInteractionTimestamp (globalState w') = Some now
  ∧ dailyChatCounts (globalState w')
    = <[dayOf now := chatCount (loadedCounts w) (dayOf now) + 1]> (loadedCounts w)
  ∧ loadedCounts w' = dailyChatCounts (globalState w')
  ∧ isNgambekMode (globalState w') = isNgambekMode (globalState w)
  ∧ handlers w' = handlers w
  ∧ trace w' = trace w ++ [Log info "interaction_status_updated"].
Proof.
  unfold updateInteractionStatus, loadedCounts, getPreference. cbn.
  rewrite assoc_upsert_eq. repeat split.
Qed.

(** X13. Recording an interaction at [now] sets the last interaction to
    [now] and counts one chat more for the UTC day of [now], starting from
    the counts of the saved preference, not from those of [globalState];
    the other days keep their saved counts, the new map is saved, and the
    sulk flag, the mood and the chat are left alone. *)
Theorem interaction_is_recorded (now : Z) (w : World) :
  let w' := fst (updateInteractionStatus now w) in
  let saved := loadedCounts w in
  lastInteractionTimestamp (globalState w') = Some now
  ∧ snd (updateInteractionStatus now w) = now
  ∧ chatCount (dailyChatCounts (globalState w')) (dayOf now)
    = chatCount saved (dayOf now) + 1
  ∧ (forall day, day <> dayOf now ->
                 dailyChatCounts (globalState w') !! day = saved !! day)
  ∧ getPreference "dailyChatCounts" w' = Some (PCounts (dailyChatCounts (globalState w')))
  ∧ isNgambekMode (globalState w') = isNgambekMode (globalState w)
  ∧ handlers w' = handlers w
  ∧ sent (newEvents w w') = [].
Proof.
  destruct (updateInteractionStatus_frame now w) as (Hl & Hc & _ & Hn & Hh & Ht).
  cbn zeta in *. rewrite (newEvents_app w _ _ Ht), Hc.
  split; [exact Hl|]. split; [reflexivity|]. split; [|split; [|split]].
  - unfold chatCount at 1. rewrite lookup_insert_eq. reflexivity.
  - intros day Hd. apply lookup_insert_ne. congruence.
  - unfold updateInteractionStatus, getPreference. cbn. apply assoc_upsert_eq.
  - repeat split; assumption.
Qed.

(** ** The states that recording and evaluating produce *)

Lemma dayOf_mono (a b : Z) : a <= b -> dayOf a <= dayOf b.
Proof. intros H. unfold dayOf. apply Z.div_le_mono; [unfold MS_PER_DAY; lia | exact H]. Qed.

Lemma recordedAt_later (t t' : Z) (w : World) :
  t <= t' -> recordedAt t w -> recordedAt t' w.
Proof.
  intros Hle [H1 H2]. split; [|exact H2]. intros last Hl. specialize (H1 last Hl). lia.
Qed.

Lemma recordedAt_update (t now : Z) (w : World) :
  t <= now -> recordedAt t w -> recordedAt now (fst (updateInteractionStatus now w)).
Proof.
  intros Hle [H1 H2].
  destruct (updateInteractionStatus_frame now w) as (Hl & Hc & Hp & _). cbn zeta in *.
  split.
  - intros last E. rewrite Hl in E. injection E as <-. lia.
  - intros m Hm day c Hday Hpos. exists now. split; [exact Hl|].
    assert (Em : m = <[dayOf now := chatCount (loadedCounts w) (dayOf now) + 1]>
                       (loadedCounts w)).
    { destruct Hm as [-> | ->]; [exact Hc | rewrite Hp; exact Hc]. }
    subst m. destruct (decide (day = dayOf now)) as [-> | Hne]; [lia|].
    rewrite lookup_insert_ne in Hday by congruence.
    destruct (H2 _ (or_intror eq_refl) day c Hday Hpos) as (last & Hlast & Hd).
    specialize (H1 last Hlast). pose proof (dayOf_mono last now ltac:(lia)). lia.
Qed.

Lemma recordedAt_check (d : Dependencies) (r : UnitInterval) (t now : Z)
    (chatId : option Z) (w : World) :
  recordedAt t w -> recordedAt t (checkNgambekStatus d r now chatId w).
Proof.
  intros [H1 H2].
  destruct (checkNgambekStatus_frame d r now chatId w) as (Hl & Hsub & Hp). cbn zeta in *.
  split.
  - intros last E. rewrite Hl in E. apply (H1 last E).
  - intros m Hm day c Hday Hpos. rewrite Hl.
    destruct Hm as [-> | ->].
    + apply (H2 _ (or_introl eq_refl) day c (Hsub _ _ Hday) Hpos).
    + destruct Hp as [Hp | [Hp _]]; rewrite Hp in Hday.
      * apply (H2 _ (or_introl eq_refl) day c (Hsub _ _ Hday) Hpos).
      * apply (H2 _ (or_intror eq_refl) day c Hday Hpos).
Qed.

Lemma recordedAt_coherent (d : Dependencies) (t now : Z) (w : World) :
  t <= now -> recordedAt t w -> coherent d now w.
Proof.
  intros Hle [H1 H2]. apply recorded_state_coherent. intros last Hl. split.
  - specialize (H1 last Hl). lia.
  - intros day c Hday Hpos.
    destruct (H2 _ (or_introl eq_refl) day c Hday Hpos) as (last' & Hl' & Hd).
    congruence.
Qed.

Lemma runTicks_recorded (d : Dependencies) (ks : list Tick) :
  forall (t : Z) (w : World),
    recordedAt t w -> clockFrom t ks -> recordedAt (lastTick t ks) (runTicks d ks w).
Proof.
  induction ks as [|k ks IH]; intros t w Hr Hc; [exact Hr|].
  destruct Hc as [Hle Hc]. cbn [runTicks lastTick fold_left].
  apply (IH (tickTime k) (runTick d k w)); [|exact Hc].
  destruct k as [t' | t' r chatId]; cbn [runTick tickTime] in *.
  - apply (recordedAt_update t t' w Hle Hr).
  - apply recordedAt_check. apply (recordedAt_later t t' w Hle Hr).
Qed.

Lemma checkNgambekStatus_twice (d : Dependencies) (r1 r2 : UnitInterval) (now : Z)
    (chatId : option Z) (w : World) :
  coherent d now w ->
  checkNgambekStatus d r2 now chatId (checkNgambekStatus d r1 now chatId w)
  = checkNgambekStatus d r1 now chatId w.
Proof.
  intros Hc. destruct (isFeatureEnabled (flags d) "ENABLE_NGAMBEK_MODE") eqn:Hf.
  - destruct (checkNgambekStatus_settles d r1 now chatId w Hf Hc) as (ws & -> & Hs).
    rewrite (checkNgambekStatus_settled d r2 now chatId _ Hf (settled_cleanCounts _ _ _ Hs)).
    apply cleanCounts_idem.
  - unfold checkNgambekStatus. rewrite Hf. cbn [negb].
    destruct (isNgambekMode (globalState w)) eqn:Hn; cbn; [reflexivity|].
    rewrite Hn. reflexivity.
Qed.

(** X14. The states that the process produces keep their counts and their
    last interaction in agreement, and on them the evaluation fires once:
    starting from a state where what is recorded agrees, after any
    sequence of recorded interactions and evaluations under a clock that
    does not go back, no day with chats is later than the day of the last
    interaction, and an evaluation repeated at the same time changes
    nothing and sends nothing. *)
Theorem produced_states_evaluate_once (d : Dependencies) (ks : list Tick) (t0 now : Z)
    (r1 r2 : UnitInterval) (chatId : option Z) (w : World) :
  recordedAt t0 w ->
  clockFrom t0 ks ->
  lastTick t0 ks <= now ->
  let w' := runTicks d ks w in
  let w1 := checkNgambekStatus d r1 now chatId w' in
  let w2 := checkNgambekStatus d r2 now chatId w1 in
  recordedAt (lastTick t0 ks) w'
  ∧ w2 = w1
  ∧ sent (newEvents w1 w2) = [].
Proof.
  intros Hr Hc Hle w' w1 w2.
  pose proof (runTicks_recorded d ks t0 w Hr Hc) as Hr'. fold w' in Hr'.
  assert (E : w2 = w1).
  { apply checkNgambekStatus_twice. apply (recordedAt_coherent _ _ _ _ Hle Hr'). }
  split; [exact Hr'|]. split; [exact E|].
  rewrite E. unfold newEvents. rewrite skipn_all. reflexivity.
Qed.

Lemma produced_states_evaluate_once_witness :
  let day := MS_PER_DAY in
  let chats := fun t => repeat (Interaction t) 6 in
  let ks := [Interaction 0; Evaluation (3 * day) Sample.half (Some 7)]
            ++ chats (4 * day) ++ chats (5 * day + 1000) in
  let w' := runTicks Sample.deps ks Sample.world in
  let w1 := checkNgambekStatus Sample.deps Sample.half (5 * day + 2000) (Some 7) w' in
  let w2 := checkNgambekStatus Sample.deps Sample.half (5 * day + 2000) (Some 7) w1 in
  isNgambekMode (globalState w') = true
  ∧ isNgambekMode (globalState w1) = false
  ∧ w2 = w1.
Proof.
  intros day chats ks w' w1 w2.
  destruct (produced_states_evaluate_once Sample.deps ks 0 (5 * day + 2000)
              Sample.half Sample.half (Some 7) Sample.world) as (_ & H & _).
  - split.
    + intros last Hl. discriminate.
    + intros m [-> | ->] dd c Hd; vm_compute in Hd; discriminate.
  - vm_compute. repeat split; discriminate.
  - vm_compute. discriminate.
  - split; [vm_compute; reflexivity | split; [vm_compute; reflexivity | exact H]].
Defined.

(** X15. The two blocks of the evaluation run one after the other on the
    same flag: in a state that is not sulking, whose last interaction is
    at least two days old by the count of the code and whose counts meet
    the exit criterion all the same, one evaluation enters the sulk and
    leaves it again; it ends not sulking, with the counts reset, in the
    mood drawn, and has sent the sulk notice and the relief notice. *)
Theorem sulk_entered_and_left_at_once (d : Dependencies) (r : UnitInterval) (now : Z)
    (chatId : option Z) (w : World) (last : Z) :
  isFeatureEnabled (flags d) "ENABLE_NGAMBEK_MODE" = true ->
  isNgambekMode (globalState w) = false ->
  lastInteractionTimestamp (globalState w) = Some last ->
  NGAMBEK_DURATION_DAYS <= diffDays now last ->
  hasSufficientInteraction d now (dailyChatCounts (globalState w)) = true ->
  let w' := checkNgambekStatus d r now chatId w in
  isNgambekMode (globalState w') = false
  ∧ dailyChatCounts (globalState w') = ∅
  ∧ currentMood (handlers w') = getRandomMood r
  ∧ sent (newEvents w w')
    = (if negb (Mood_eqb (currentMood (handlers w)) JEALOUS) && givenChat chatId
       then [(chatId, announcement d JEALOUS)] else [])
      ++ [(chatId, sulkNotice (diffDays now last))]
      ++ (if negb (Mood_eqb JEALOUS (getRandomMood r)) && givenChat chatId
          then [(chatId, announcement d (getRandomMood r))] else [])
      ++ [(chatId, reliefNotice)].
Proof.
  intros Hf Hn Hl Hd Hs w'. subst w'. unfold checkNgambekStatus. rewrite Hf. cbn [negb].
  destruct (enterNgambek_enters d now chatId w last Hn Hl Hd) as (Hg & Hm & _ & Ht).
  set (we := enterNgambek d now chatId w) in *. cbn zeta in *.
  assert (Hne : isNgambekMode (globalState we) = true) by (rewrite Hg; reflexivity).
  assert (Hse : hasSufficientInteraction d now (dailyChatCounts (globalState we)) = true)
    by (rewrite Hg; exact Hs).
  destruct (leaveNgambek_leaves d r now chatId we Hne Hse) as (Lg & Lm & _ & Lt).
  set (wl := leaveNgambek d r now chatId we) in *. cbn zeta in *.
  destruct (cleanCounts_frame d now wl) as (Cg & Ch & _ & Ct). cbn zeta in *.
  rewrite Cg, Ch, Lg, Lm.
  rewrite (newEvents_app w _
             (moodEvents d chatId (currentMood (handlers w)) JEALOUS
              ++ [Log info "ngambek_mode_activated";
                  SendMessage chatId (sulkNotice (diffDays now last))]
              ++ moodEvents d chatId JEALOUS (getRandomMood r)
              ++ [Log info "ngambek_mode_deactivated"; SendMessage chatId reliefNotice])).
  - cbn [isNgambekMode dailyChatCounts set_dailyChatCounts set_isNgambekMode].
    rewrite pruneCounts_empty, !sent_app, !sent_moodEvents. repeat split.
  - rewrite Ct, Lt, Ht, Hm, <- !app_assoc. reflexivity.
Qed.

Lemma sulk_entered_and_left_at_once_witness :
  let w := Sample.state false (Some 0) {[ 3 := 6; 2 := 6 ]} NORMAL in
  let w' := checkNgambekStatus Sample.deps Sample.half (3 * MS_PER_DAY + 1000) (Some 7) w in
  isNgambekMode (globalState w') = false
  ∧ length (sent (newEvents w w')) = 4%nat.
Proof.
  intros w w'.
  destruct (sulk_entered_and_left_at_once Sample.deps Sample.half (3 * MS_PER_DAY + 1000)
              (Some 7) w 0 eq_refl eq_refl eq_refl) as (H1 & _ & _ & H4).
  - vm_compute. discriminate.
  - vm_compute. reflexivity.
  - split; [exact H1 | fold w' in H4; rewrite H4; reflexivity].
Defined.

(* ===================================================================== *)
(** * Further properties of the memory *)
(* ===================================================================== *)

(** ** Preferences *)

Lemma upsert_keys (key : string) (value : PrefValue) (l : list (string * PrefValue)) :
  map fst (upsert key value l)
  = match assoc key l with
    | Some _ => map fst l
    | None => map fst l ++ [key]
    end.
Proof.
  induction l as [|[k v] l IH]; [reflexivity|].
  cbn [upsert assoc]. destruct (String.eqb k key) eqn:E; cbn [map fst]; [reflexivity|].
  rewrite IH. destruct (assoc key l); reflexivity.
Qed.

Lemma assoc_None_not_key {V : Type} (key : string) (l : list (string * V)) :
  assoc key l = None -> ¬ In key (map fst l).
Proof.
  induction l as [|[k v] l IH]; cbn [assoc map fst In]; [tauto|].
  destruct (String.eqb k key) eqn:E; [discriminate|].
  apply String.eqb_neq in E. intros H [Hk | Hin]; [congruence | exact (IH H Hin)].
Qed.

(** X16. A saved preference is read back, and saving is an update in
    place: [getPreference] of the key gives the value just saved, every
    other key reads as before, the history is untouched, and if the keys
    of the collection were distinct they still are, the collection growing
    by one document only when the key was not there. *)
Theorem saved_preference_is_read_back (key : string) (value : PrefValue) (w : World) :
  let w' := savePreference key value w in
  getPreference key w' = Some value
  ∧ (forall other, other <> key -> getPreference other w' = getPreference other w)
  ∧ history (memory w') = history (memory w)
  ∧ (NoDup (map fst (preferences (memory w))) ->
     NoDup (map fst (preferences (memory w'))))
  ∧ length (preferences (memory w'))
    = match getPreference key w with
      | Some _ => length (preferences (memory w))
      | None => S (length (preferences (memory w)))
      end.
Proof.
  unfold savePreference, getPreference. cbn.
  split; [apply assoc_upsert_eq|]. split.
  - intros other Hne. apply assoc_upsert_ne. congruence.
  - split; [reflexivity|]. split.
    + intros Hnd. rewrite upsert_keys.
      destruct (assoc key (preferences (memory w))) eqn:E; [exact Hnd|].
      apply NoDup_app. split; [exact Hnd|]. split.
      * intros x Hx Hk. apply list_elem_of_In in Hx. apply list_elem_of_In in Hk.
        destruct Hk as [<- | []]. exact (assoc_None_not_key _ _ E Hx).
      * constructor; [intros H; apply list_elem_of_In in H; destruct H | constructor].
    + rewrite <- (length_map fst (upsert _ _ _)), upsert_keys.
      destruct (assoc key (preferences (memory w)));
        rewrite ?length_app, length_map; cbn; lia.
Qed.

(** ** The history and its flush *)

Lemma sorted_across {A : Type} (R : A -> A -> Prop) (l1 l2 : list A) :
  StronglySorted R (l1 ++ l2) -> forall a b, In a l1 -> In b l2 -> R a b.
Proof.
  induction l1 as [|x l1 IH]; intros Hs a b Ha Hb; [destruct Ha|].
  cbn [app] in Hs. inversion Hs as [|? ? Hl Hx]; subst.
  destruct Ha as [<- | Ha].
  - rewrite List.Forall_forall in Hx. apply Hx. apply in_or_app. right. exact Hb.
  - apply (IH Hl a b Ha Hb).
Qed.

Lemma sorted_prefix {A : Type} (R : A -> A -> Prop) (l1 l2 : list A) :
  StronglySorted R (l1 ++ l2) -> StronglySorted R l1.
Proof.
  induction l1 as [|x l1 IH]; intros Hs; [constructor|].
  cbn [app] in Hs. inversion Hs as [|? ? Hl Hx]; subst.
  constructor; [apply IH; exact Hl|].
  rewrite List.Forall_forall in *. intros y Hy. apply Hx. apply in_or_app. left. exact Hy.
Qed.

(** What [simplesort] returns: each position of the collection, once. *)
Lemma simplesort_positions {A : Type} (key : A -> Z) (desc : bool) (tie : nat -> Z)
    (c : list A) :
  List.NoDup (Loki.simplesort key desc tie c)
  ∧ Loki.valid c (Loki.simplesort key desc tie c)
  ∧ length (Loki.simplesort key desc tie c) = length c
  ∧ (forall i x, nth_error c i = Some x -> In i (Loki.simplesort key desc tie c)).
Proof.
  pose proof (simplesort_perm key desc tie c) as Hp.
  split; [|split; [|split]].
  - apply (Permutation_NoDup (Permutation_sym Hp)). apply NoDup_all.
  - intros i Hi. apply (valid_all c). apply (Permutation_in i Hp Hi).
  - rewrite (Permutation_length Hp). unfold Loki.all. apply length_seq.
  - intros i x Hx. apply (Permutation_in i (Permutation_sym Hp)).
    unfold Loki.all. apply in_seq. split; [lia|]. cbn.
    apply nth_error_Some. congruence.
Qed.

(** What the flush removes: as many messages as exceed
    [MAX_HISTORY_LENGTH], none of them newer than a message it keeps. *)
Lemma flush_spec (d : Dependencies) (l : list HistoryMessage) :
  exists removed,
    Permutation l (removed ++ flush d l)
    ∧ length removed
      = (if (FLUSH_THRESHOLD <? length l)%nat then length l - MAX_HISTORY_LENGTH else 0)%nat
    ∧ (forall a b, In a removed -> In b (flush d l) -> timestamp a <= timestamp b).
Proof.
  unfold flush. cbn zeta. destruct (FLUSH_THRESHOLD <? length l)%nat eqn:E.
  2:{ exists []. repeat split; cbn; [reflexivity | tauto]. }
  apply Nat.ltb_lt in E.
  destruct (simplesort_positions timestamp false (historyTies d false l) l)
    as (Hn & Hv & Hlen & Hall).
  pose proof (simplesort_sorted timestamp false (historyTies d false l) l) as Hs.
  cbn beta iota in Hs.
  set (ss := Loki.simplesort timestamp false (historyTies d false l) l) in *.
  set (n := (length l - MAX_HISTORY_LENGTH)%nat).
  unfold Loki.limit.
  destruct (NoDup_firstn_skipn n ss Hn) as (Hn1 & _ & Hdis).
  assert (Hv1 : Loki.valid l (firstn n ss)) by (intros i Hi; apply Hv, (In_firstn n), Hi).
  assert (Hl1 : length (Loki.data l (firstn n ss)) = n).
  { rewrite (length_data l _ Hv1), length_firstn, Hlen. subst n. lia. }
  rewrite Hl1.
  replace (0 <? n)%nat with true
    by (symmetry; apply Nat.ltb_lt; subst n;
        unfold FLUSH_THRESHOLD, MAX_HISTORY_LENGTH in *; lia).
  exists (Loki.data l (firstn n ss)).
  split; [apply remove_perm; assumption|]. split; [exact Hl1|].
  intros a b Ha Hb. apply in_remove in Hb as (j & Hj & Ej).
  assert (Hsplit : StronglySorted (fun x y => timestamp x <= timestamp y)
                     (Loki.data l (firstn n ss) ++ Loki.data l (skipn n ss))).
  { rewrite <- data_app, firstn_skipn. exact Hs. }
  apply (sorted_across _ _ _ Hsplit a b Ha).
  apply in_data. exists j. split; [|exact Ej].
  pose proof (Hall j b Ej) as Hjs.
  rewrite <- (firstn_skipn n ss) in Hjs.
  apply in_app_or in Hjs as [H | H]; [contradiction | exact H].
Qed.

(** X17. The history is trimmed with hysteresis and never outgrows the
    flush threshold: [flush] leaves a history of at most 120 messages as
    it is and cuts a longer one to exactly 100; so a history of at most
    120 messages holds at most 120 after [addMessage], whatever the
    message. *)
Theorem history_stays_bounded (d : Dependencies) (m : HistoryMessage) (w : World) :
  let l := history (memory w) in
  length (flush d l)
  = (if (FLUSH_THRESHOLD <? length l)%nat then MAX_HISTORY_LENGTH else length l)
  ∧ ((length l <= FLUSH_THRESHOLD)%nat ->
     (length (history (memory (addMessage d m w))) <= FLUSH_THRESHOLD)%nat).
Proof.
  assert (F : forall l : list HistoryMessage,
             length (flush d l)
             = (if (FLUSH_THRESHOLD <? length l)%nat then MAX_HISTORY_LENGTH else length l)).
  { intros l. destruct (flush_spec d l) as (removed & Hp & Hn & _).
    apply Permutation_length in Hp. rewrite length_app, Hn in Hp.
    destruct (FLUSH_THRESHOLD <? length l)%nat eqn:E; [|lia].
    apply Nat.ltb_lt in E. unfold FLUSH_THRESHOLD, MAX_HISTORY_LENGTH in *. lia. }
  cbn zeta. split; [apply F|].
  intros Hlen. unfold addMessage. destruct (trim (content m)); cbn; [exact Hlen|].
  rewrite F, length_app. cbn [length].
  destruct (FLUSH_THRESHOLD <? length (history (memory w)) + 1)%nat eqn:E.
  - unfold FLUSH_THRESHOLD, MAX_HISTORY_LENGTH. lia.
  - apply Nat.ltb_ge in E. exact E.
Qed.

Lemma history_stays_bounded_witness :
  (length (history (memory (addMessage Sample.deps
     {| role := user; content := "halo"; timestamp := 5; chatId := 7;
        contextTopic := None; contextTone := "casual" |} Sample.world))) <= FLUSH_THRESHOLD)%nat.
Proof.
  apply (proj2 (history_stays_bounded Sample.deps _ Sample.world)).
  cbn. unfold FLUSH_THRESHOLD. lia.
Defined.

(** X18. The flush drops the oldest messages only: what it removes and
    what it keeps make up the history it was given, and no removed message
    has a later timestamp than a kept one. *)
Theorem flush_drops_oldest (d : Dependencies) (l : list HistoryMessage) :
  exists removed,
    Permutation l (removed ++ flush d l)
    ∧ (forall a b, In a removed -> In b (flush d l) -> timestamp a <= timestamp b).
Proof.
  destruct (flush_spec d l) as (removed & Hp & _ & Hle). exists removed. split; assumption.
Qed.

(** ** Reading the history *)

(** The first message of the history sorted for [load] is a newest one. *)
Lemma newestFirst_head (d : Dependencies) (l : list HistoryMessage) :
  match Loki.data l (Loki.simplesort timestamp true (historyTies d true l) l) with
  | [] => l = []
  | h :: _ => In h l ∧ forall x, In x l -> timestamp x <= timestamp h
  end.
Proof.
  pose proof (simplesort_data timestamp true (historyTies d true l) l) as Hp.
  pose proof (simplesort_sorted timestamp true (historyTies d true l) l) as Hs.
  cbn beta iota in Hs.
  destruct (Loki.data l (Loki.simplesort timestamp true (historyTies d true l) l))
    as [|h s].
  - apply Permutation_nil. exact Hp.
  - split; [apply (Permutation_in h Hp); left; reflexivity|].
    intros x Hx. apply (Permutation_in x (Permutation_sym Hp)) in Hx.
    destruct Hx as [<- | Hx]; [lia|].
    inversion Hs as [|? ? _ Hh]; subst. rewrite List.Forall_forall in Hh.
    apply (Hh x Hx).
Qed.

(** A message newer than all of the history survives the flush that
    follows its insertion. *)
Lemma newest_survives_flush (d : Dependencies) (m : HistoryMessage)
    (l : list HistoryMessage) :
  (forall x, In x l -> timestamp x < timestamp m) -> In m (flush d (l ++ [m])).
Proof.
  intros Hnew. destruct (flush_spec d (l ++ [m])) as (removed & Hp & Hn & Hle).
  assert (Hin : In m (removed ++ flush d (l ++ [m]))).
  { apply (Permutation_in m Hp). apply in_or_app. right. left. reflexivity. }
  apply in_app_or in Hin as [Hr | Hk]; [|exact Hk].
  assert (Hlen : length (flush d (l ++ [m])) <> 0%nat).
  { apply Permutation_length in Hp. rewrite (length_app removed) in Hp.
    destruct (FLUSH_THRESHOLD <? length (l ++ [m]))%nat eqn:E.
    - apply Nat.ltb_lt in E. unfold FLUSH_THRESHOLD, MAX_HISTORY_LENGTH in *. lia.
    - destruct removed; [destruct Hr | cbn in Hn; discriminate]. }
  destruct (flush d (l ++ [m])) as [|b kept] eqn:Ef; [contradiction|].
  pose proof (Hle m b Hr (or_introl eq_refl)) as Hmb.
  assert (Hb : In b (l ++ [m])).
  { apply (Permutation_in b (Permutation_sym Hp)). apply in_or_app. right. left. reflexivity. }
  apply in_app_or in Hb as [Hb | [<- | []]].
  - specialize (Hnew b Hb). lia.
  - left. reflexivity.
Qed.

Lemma flush_subset (d : Dependencies) (l : list HistoryMessage) (x : HistoryMessage) :
  In x (flush d l) -> In x l.
Proof.
  intros H. destruct (flush_spec d l) as (removed & Hp & _).
  apply (Permutation_in x (Permutation_sym Hp)). apply in_or_app. right. exact H.
Qed.

(** What a [load] that reads the collection returns: at most
    [MAX_HISTORY_LENGTH] messages of the collection, and all of them when
    the collection holds no more. *)
Lemma recent_history (d : Dependencies) (l : list HistoryMessage) :
  let recentHistory :=
    Loki.data l (Loki.limit MAX_HISTORY_LENGTH
                   (Loki.simplesort timestamp true (historyTies d true l) l)) in
  recentHistory
  = firstn MAX_HISTORY_LENGTH
      (Loki.data l (Loki.simplesort timestamp true (historyTies d true l) l))
  ∧ (length recentHistory <= MAX_HISTORY_LENGTH)%nat
  ∧ (forall x, In x recentHistory -> In x l)
  ∧ ((length l <= MAX_HISTORY_LENGTH)%nat -> forall x, In x l -> In x recentHistory).
Proof.
  cbn zeta. unfold Loki.limit.
  destruct (simplesort_positions timestamp true (historyTies d true l) l)
    as (_ & Hv & Hlen & _).
  pose proof (simplesort_data timestamp true (historyTies d true l) l) as Hp.
  set (ss := Loki.simplesort timestamp true (historyTies d true l) l) in *.
  rewrite (data_firstn l ss MAX_HISTORY_LENGTH Hv).
  split; [reflexivity|]. split; [apply firstn_le_length|]. split.
  - intros x Hx. apply In_firstn in Hx. apply (Permutation_in x Hp Hx).
  - intros Hle x Hx. rewrite firstn_all2.
    + apply (Permutation_in x (Permutation_sym Hp) Hx).
    + rewrite (Permutation_length Hp). exact Hle.
Qed.

(** X19. A message is read back right after it is written, query cache
    or not: when a message with content, newer than all of the history, is
    added, the next [load] finds the query cache invalidated, reads the
    collection again and returns the message, whatever was cached before
    and however recently. *)
Theorem added_message_is_read_back (d : Dependencies) (m : HistoryMessage) (w : World)
    (qc : QueryCache) (now : Z) :
  trim (content m) <> EmptyString ->
  (forall x, In x (history (memory w)) -> timestamp x < timestamp m) ->
  let wq := addMessageCached d m (w, qc) in
  let out := load d now (history (memory (fst wq))) (snd wq) in
  cachedData (snd wq) = None
  ∧ In m (fst out)
  ∧ (length (fst out) <= MAX_HISTORY_LENGTH)%nat
  ∧ cachedData (snd out) = Some (fst out).
Proof.
  intros Hc Hnew wq out. subst out wq. unfold addMessageCached, addMessage, load.
  cbn [fst snd]. destruct (trim (content m)) as [|c0 rest] eqn:Et; [congruence|].
  cbn [cachedData memory with_memory history set_history emit fst snd].
  set (h := flush d (history (memory w) ++ [m])).
  assert (Hin : In m h) by (apply newest_survives_flush; exact Hnew).
  destruct (recent_history d h) as (Hr & Hlen & _). cbn zeta in Hr, Hlen.
  split; [reflexivity|]. split; [|split; [|reflexivity]].
  - apply -> in_rev. rewrite Hr. pose proof (newestFirst_head d h) as Hh.
    destruct (Loki.data h (Loki.simplesort timestamp true (historyTies d true h) h))
      as [|x s] eqn:E.
    + rewrite Hh in Hin. destruct Hin.
    + destruct Hh as [Hx Hmax]. cbn [firstn MAX_HISTORY_LENGTH]. left.
      specialize (Hmax m Hin).
      apply flush_subset in Hx. apply in_app_or in Hx as [Hx | [Hx | []]]; [|symmetry; exact Hx].
      specialize (Hnew x Hx). lia.
  - rewrite length_rev. exact Hlen.
Qed.

Lemma added_message_is_read_back_witness :
  let m1 := {| role := user; content := "halo"; timestamp := 5; chatId := 7;
               contextTopic := None; contextTone := "casual" |} in
  let m2 := {| role := assistant; content := "Iya?"; timestamp := 9; chatId := 7;
               contextTopic := None; contextTone := "assistant_response" |} in
  let blank := {| role := user; content := String (ascii_of_nat 194)
                                             (String (ascii_of_nat 160) EmptyString);
                  timestamp := 12; chatId := 7;
                  contextTopic := None; contextTone := "casual" |} in
  let start := (Sample.world, {| cachedData := None; cachedAt := 0 |}) in
  let wq1 := addMessageCached Sample.deps m1 start in
  let read1 := load Sample.deps 6 (history (memory (fst wq1))) (snd wq1) in
  let wq2 := addMessageCached Sample.deps m2 (fst wq1, snd read1) in
  fst read1 = [m1]
  ∧ In m2 (fst (load Sample.deps 10 (history (memory (fst wq2))) (snd wq2)))
  ∧ history (memory (fst (addMessageCached Sample.deps blank start))) = [].
Proof.
  intros m1 m2 blank start wq1 read1 wq2. split; [reflexivity|]. split; [|reflexivity].
  refine (proj1 (proj2 (added_message_is_read_back Sample.deps m2 (fst wq1) (snd read1)
                          10 _ _))).
  - vm_compute. discriminate.
  - intros x [<- | []]. cbn. lia.
Defined.

(** X20. The weekly clean-up does not invalidate the query cache. A
    message older than a week, in a history of at most 100 messages that a
    [load] at [t1] has cached: [cleanupOldMessages] at [t2] removes it from
    the collection, yet a [load] at [t2] still returns it while less than
    5 s have passed since [t1]; from 5 s on the collection is read again
    and the message is gone. *)
Theorem cleanup_leaves_query_cache_stale (d : Dependencies) (l : list HistoryMessage)
    (m : HistoryMessage) (t1 t2 : Z) :
  In m l ->
  (length l <= MAX_HISTORY_LENGTH)%nat ->
  timestamp m < t2 - CLEANUP_INTERVAL ->
  let first := load d t1 l {| cachedData := None; cachedAt := 0 |} in
  let l' := cleanupOldMessages t2 l in
  In m (fst first)
  ∧ ¬ In m l'
  ∧ (t2 - t1 < QUERY_CACHE_TTL -> In m (fst (load d t2 l' (snd first))))
  ∧ (QUERY_CACHE_TTL <= t2 - t1 -> ¬ In m (fst (load d t2 l' (snd first)))).
Proof.
  intros Hin Hlen Hold first l'. subst first l'.
  unfold load. cbn [cachedData cachedAt fst snd].
  destruct (recent_history d l) as (_ & _ & _ & Hall). cbn zeta in Hall.
  assert (Hfirst : In m (rev (Loki.data l
                     (Loki.limit MAX_HISTORY_LENGTH
                        (Loki.simplesort timestamp true (historyTies d true l) l))))).
  { apply -> in_rev. apply (Hall Hlen m Hin). }
  assert (Hgone : ¬ In m (cleanupOldMessages t2 l)).
  { unfold cleanupOldMessages. rewrite filter_In. intros [_ H].
    apply negb_true_iff, Z.ltb_ge in H. lia. }
  split; [exact Hfirst|]. split; [exact Hgone|]. split; intros H.
  - replace (t2 - t1 <? QUERY_CACHE_TTL) with true; [exact Hfirst|].
    symmetry. apply Z.ltb_lt. exact H.
  - replace (t2 - t1 <? QUERY_CACHE_TTL) with false by (symmetry; apply Z.ltb_ge; exact H).
    cbn [fst]. intros Hm. apply in_rev in Hm.
    destruct (recent_history d (cleanupOldMessages t2 l)) as (_ & _ & Hsub & _).
    cbn zeta in Hsub. exact (Hgone (Hsub m Hm)).
Qed.

Lemma cleanup_leaves_query_cache_stale_witness :
  let m := {| role := user; content := "halo"; timestamp := 0; chatId := 7;
              contextTopic := None; contextTone := "casual" |} in
  let now := 10 * MS_PER_DAY in
  In m (fst (load Sample.deps (now + 1000) (cleanupOldMessages (now + 1000) [m])
               (snd (load Sample.deps now [m] {| cachedData := None; cachedAt := 0 |})))).
Proof.
  intros m now.
  refine (proj1 (proj2 (proj2 (cleanup_leaves_query_cache_stale Sample.deps [m] m now
                                 (now + 1000) _ _ _))) _).
  - left. reflexivity.
  - cbn. unfold MAX_HISTORY_LENGTH. lia.
  - vm_compute. reflexivity.
  - vm_compute. reflexivity.
Defined.

(* ===================================================================== *)
(** ** Further properties of the long-term memories *)
(* ===================================================================== *)

Lemma criteria_after_cleanup (now : Z) (ltm : list LTMEntry) :
  List.filter (criteria now) (List.filter (fun e => negb (criteria now e)) ltm) = [].
Proof.
  induction ltm as [|e rest IH]; [reflexivity|].
  cbn [List.filter]. destruct (criteria now e) eqn:E; cbn [negb List.filter];
    rewrite ?E; exact IH.
Qed.

Lemma cleanupOldLTMs_remaining (d : Dependencies) (now : Z) (ltm : list LTMEntry) :
  exists batches,
    cleanupOldLTMs d now ltm
    = Some (List.filter (fun e => negb (criteria now e)) ltm, batches).
Proof.
  unfold cleanupOldLTMs.
  destruct (cleanupLoop_removes d now (S (length ltm)) ltm []) as (batches & Hl & _).
  { pose proof (filter_length_le (criteria now) ltm). lia. }
  exists batches. exact Hl.
Qed.

(** X21. A clean-up removes the entries that meet the criteria in full
    batches and a last batch of what is left: every batch but the last
    holds 50 entries, no batch is empty, and the number of batches is the
    least that covers the entries.  Which entries a batch holds is up to
    the order in which LokiJS finds them.  A second clean-up at the same
    instant finds nothing to remove and leaves the collection as the first
    one left it. *)
Theorem cleanupOldLTMs_batches_and_rerun (d : Dependencies) (now : Z) (ltm : list LTMEntry) :
  let found := List.filter (criteria now) ltm in
  exists remaining batches,
    cleanupOldLTMs d now ltm = Some (remaining, batches)
    ∧ (length found <= LTM_CLEANUP_BATCH_SIZE * length batches
       < length found + LTM_CLEANUP_BATCH_SIZE)%nat
    ∧ Forall (fun b => length b = LTM_CLEANUP_BATCH_SIZE) (removelast batches)
    ∧ Forall (fun b => (1 <= length b <= LTM_CLEANUP_BATCH_SIZE)%nat) batches
    ∧ length (concat batches) = length found
    ∧ cleanupOldLTMs d now remaining = Some (remaining, []).
Proof.
  intros found. subst found. unfold cleanupOldLTMs at 1.
  destruct (cleanupLoop_removes d now (S (length ltm)) ltm [])
    as (batches & Hl & Hc & Hb & Hnum & Hfull).
  { pose proof (filter_length_le (criteria now) ltm). lia. }
  cbn [app] in Hl. eexists _, batches. split; [exact Hl|]. split; [exact Hnum|].
  split; [exact Hfull|]. split; [exact Hb|]. split; [apply (Permutation_length Hc)|].
  pose proof (criteria_after_cleanup now ltm) as Hnone. revert Hnone.
  generalize (List.filter (fun e => negb (criteria now e)) ltm). intros remaining Hnone.
  unfold cleanupOldLTMs.
  destruct (cleanupLoop_removes d now (S (length remaining)) remaining [])
    as (again & Hl' & Hc' & Hb' & _).
  { rewrite Hnone. cbn [length]. lia. }
  rewrite Hl', (nothing_found_all_kept now _ Hnone). cbn [app]. do 2 f_equal.
  rewrite Hnone in Hc'.
  destruct again as [|b again]; [reflexivity|]. exfalso.
  inversion Hb' as [|? ? Hlen _]; subst.
  apply Permutation_length in Hc'. cbn [concat length] in Hc'. rewrite length_app in Hc'.
  lia.
Qed.

Lemma criteria_later (now now' : Z) (e : LTMEntry) :
  now <= now' -> criteria now e = true -> criteria now' e = true.
Proof.
  intros Hle. unfold criteria.
  rewrite !orb_true_iff, !andb_true_iff, !Z.eqb_eq, !Z.leb_le, !Z.ltb_lt. lia.
Qed.

(** X22. An entry that a clean-up removes is removed by every later one:
    no tier of the criteria lets an entry become young again. So a clean-up
    missed or run early changes nothing in the long run: the collection
    that a clean-up at [now'] leaves is the same whether or not another
    clean-up ran before it, at [now] <= [now']. *)
Theorem earlier_cleanup_is_absorbed (d : Dependencies) (now now' : Z) (ltm : list LTMEntry) :
  now <= now' ->
  exists remaining batches remaining' batches' batches'',
    cleanupOldLTMs d now ltm = Some (remaining, batches)
    ∧ cleanupOldLTMs d now' remaining = Some (remaining', batches')
    ∧ cleanupOldLTMs d now' ltm = Some (remaining', batches'').
Proof.
  intros Hle.
  destruct (cleanupOldLTMs_remaining d now ltm) as (b1 & H1).
  destruct (cleanupOldLTMs_remaining d now'
              (List.filter (fun e => negb (criteria now e)) ltm)) as (b2 & H2).
  destruct (cleanupOldLTMs_remaining d now' ltm) as (b3 & H3).
  eexists _, b1, _, b2, b3. split; [exact H1|]. split; [exact H2|].
  rewrite H3. do 2 f_equal.
  clear - Hle.
  induction ltm as [|e rest IH]; [reflexivity|].
  cbn [List.filter]. destruct (criteria now e) eqn:E; cbn [negb].
  - rewrite (criteria_later now now' e Hle E). cbn [negb]. exact IH.
  - cbn [List.filter]. destruct (criteria now' e); cbn [negb]; rewrite IH; reflexivity.
Qed.

Lemma earlier_cleanup_is_absorbed_witness :
  let day := MS_PER_DAY in
  let old := {| ltmKey := "a"; ltmValue := "suka teh"; priority := 80; createdAt := 0 |} in
  let kept := {| ltmKey := "b"; ltmValue := "ulang tahun"; priority := 100; createdAt := 0 |} in
  exists remaining batches remaining' batches' batches'',
    cleanupOldLTMs Sample.deps (6 * day) [old; kept] = Some (remaining, batches)
    ∧ cleanupOldLTMs Sample.deps (61 * day) remaining = Some (remaining', batches')
    ∧ cleanupOldLTMs Sample.deps (61 * day) [old; kept] = Some (remaining', batches'').
Proof.
  intros day old kept.
  apply (earlier_cleanup_is_absorbed Sample.deps (6 * day) (61 * day) [old; kept]).
  vm_compute. discriminate.
Defined.

(** ** The memories of the prompt *)

(** X23. The prompt lists the most important memories. Of the long-term
    memories, [generateLuminaPrompt] lists seven, or all when there are
    fewer, in descending priority; none is listed twice or invented (the
    listed and the omitted ones are the collection, rearranged); and no
    omitted memory has a higher priority than a listed one. The section is
    absent exactly when there is no memory at all. *)
Theorem prompt_lists_top_memories (d : Dependencies) (ltm : list LTMEntry) :
  let listed := promptMemories d ltm in
  let omitted := skipn 7 (getLTMMemories d ltm) in
  Permutation (listed ++ omitted) ltm
  ∧ length listed = Nat.min 7 (length ltm)
  ∧ StronglySorted (fun a b => priority b <= priority a) listed
  ∧ (forall a b, In a listed -> In b omitted -> priority b <= priority a)
  ∧ (ltmContext d ltm = EmptyString <-> ltm = []).
Proof.
  intros listed omitted. subst listed omitted. unfold promptMemories.
  assert (Hp : Permutation (getLTMMemories d ltm) ltm) by apply simplesort_data.
  assert (Hs : StronglySorted (fun a b => priority b <= priority a) (getLTMMemories d ltm))
    by apply (simplesort_sorted priority true).
  split; [rewrite firstn_skipn; exact Hp|].
  split; [rewrite length_firstn, (Permutation_length Hp); reflexivity|].
  rewrite <- (firstn_skipn 7 (getLTMMemories d ltm)) in Hs.
  split; [|split].
  - apply (sorted_prefix _ _ _ Hs).
  - apply (sorted_across _ _ _ Hs).
  - unfold ltmContext. destruct (getLTMMemories d ltm) as [|x s] eqn:E.
    + split; [intros _|reflexivity]. apply Permutation_nil. exact Hp.
    + split; [discriminate|]. intros ->. discriminate.
Qed.
